(** * STM32SoftTimer: the software-timer multiplexer of [soft_timer.c]

    A shallow embedding of [src/src/soft_timer.c] and [src/inc/soft_timer.h].

    - C integers are [Z] with the wrap-around of their width written out
      ([uint32], [uint16]).
    - The static array [m_timers] is a list of [SOFT_TIMER_MAX_TIMERS]
      records, read with [!!] and written with [<[ i := t ]>].
    - A [soft_timer_t*] is [NULL] or an element offset from [&m_timers[0]];
      offsets outside [0 .. SOFT_TIMER_MAX_TIMERS) stand for pointers that
      do not point into the pool.  Pointers into the middle of a slot are
      not modelled.  Reading through a pointer gives [None] when it does
      not point to a slot; after a successful range check this cannot
      happen on a pool of the declared size, and the functions then return
      the invalid-parameter status.
    - A callback is an opaque function pointer.  Calling it appends a
      [callback_call] to the module's [calls] log, together with the slot as
      the callee could observe it at that moment.  Callbacks are taken not
      to call back into the module.
    - The peripheral behind [mp_htim] is a record of the registers the
      module touches (auto-reload, counter, counter enable).  [mp_htim] is
      taken to designate that peripheral throughout. *)

From Stdlib Require Import ZArith Lia Sorted.
From stdpp Require Import base list numbers.

Local Open Scope Z_scope.

(** ** Machine integers *)

Definition uint32 (x : Z) : Z := x mod 2 ^ 32.
Definition uint16 (x : Z) : Z := x mod 2 ^ 16.

(** Unsigned 32-bit subtraction, as in [countdown_ms -= step] and
    [reload_ms - 1]. *)
Definition sub32 (a b : Z) : Z := uint32 (a - b).

Module utils.

(** Modelled from the spec: the [min] macro of [utils.h], which is not
    among the sources.  The spec describes its two uses as capping a value
    at a maximum; on unsigned operands that is the smaller of the two. *)
Definition min (a b : Z) : Z := if a <? b then a else b.

End utils.

(** ** Constants *)

Definition SOFT_TIMER_MAX_TIMERS : nat := 10.
Definition STOPPED_TIMER_COUNTDOWN_VALUE : Z := 0xFFFFFFFF.

(** ** Types *)

Inductive timer_state_t :=
| TIMER_STATE_FREE
| TIMER_STATE_STOPPED
| TIMER_STATE_RUNNING.

#[global] Instance timer_state_eq_dec : EqDecision timer_state_t.
Proof. solve_decision. Defined.

Inductive soft_timer_status_t :=
| SOFT_TIMER_STATUS_SUCCESS
| SOFT_TIMER_STATUS_INVALID_PARAMETER
| SOFT_TIMER_STATUS_INVALID_STATE.

#[global] Instance soft_timer_status_eq_dec : EqDecision soft_timer_status_t.
Proof. solve_decision. Defined.

(** [soft_timer_callback_t]: a function pointer, [None] for [NULL]. *)
Definition soft_timer_callback_t : Type := option nat.

Record soft_timer := {
  state : timer_state_t;
  id : Z;
  reload_ms : Z;
  countdown_ms : Z;
  repeat : bool;
  callback : soft_timer_callback_t;
}.

(** [soft_timer_t*]. [Slot o] is [&m_timers[0] + o]. *)
Inductive soft_timer_ptr :=
| NULL
| Slot (ofs : Z).

(** One invocation [fn(arg)] of a timeout callback; [call_view] is the
    content of [*arg] at the time of the call. *)
Record callback_call := {
  call_fn : nat;
  call_arg : soft_timer_ptr;
  call_view : soft_timer;
}.

(** The registers of the timer peripheral used through the HAL. *)
Record TIM_HandleTypeDef := {
  ARR : Z;      (* auto-reload register *)
  CNT : Z;      (* counter register *)
  CEN : bool;   (* counting, update interrupt enabled *)
}.

(** The static variables of the module, and the log of callback calls. *)
Record soft_timer_module := {
  m_timers : list soft_timer;
  htim : TIM_HandleTypeDef;
  m_is_initialized : bool;
  m_max_reload_ms : Z;
  calls : list callback_call;
}.

(** *** Field assignments *)

Definition set_state (s : timer_state_t) (t : soft_timer) : soft_timer :=
  {| state := s; id := id t; reload_ms := reload_ms t;
     countdown_ms := countdown_ms t; repeat := repeat t;
     callback := callback t |}.

Definition set_id (i : Z) (t : soft_timer) : soft_timer :=
  {| state := state t; id := i; reload_ms := reload_ms t;
     countdown_ms := countdown_ms t; repeat := repeat t;
     callback := callback t |}.

Definition set_reload_ms (r : Z) (t : soft_timer) : soft_timer :=
  {| state := state t; id := id t; reload_ms := r;
     countdown_ms := countdown_ms t; repeat := repeat t;
     callback := callback t |}.

Definition set_countdown_ms (c : Z) (t : soft_timer) : soft_timer :=
  {| state := state t; id := id t; reload_ms := reload_ms t;
     countdown_ms := c; repeat := repeat t; callback := callback t |}.

Definition set_repeat (b : bool) (t : soft_timer) : soft_timer :=
  {| state := state t; id := id t; reload_ms := reload_ms t;
     countdown_ms := countdown_ms t; repeat := b; callback := callback t |}.

Definition set_callback (f : soft_timer_callback_t) (t : soft_timer)
  : soft_timer :=
  {| state := state t; id := id t; reload_ms := reload_ms t;
     countdown_ms := countdown_ms t; repeat := repeat t; callback := f |}.

Definition set_m_timers (l : list soft_timer) (m : soft_timer_module)
  : soft_timer_module :=
  {| m_timers := l; htim := htim m; m_is_initialized := m_is_initialized m;
     m_max_reload_ms := m_max_reload_ms m; calls := calls m |}.

Definition set_htim (h : TIM_HandleTypeDef) (m : soft_timer_module)
  : soft_timer_module :=
  {| m_timers := m_timers m; htim := h;
     m_is_initialized := m_is_initialized m;
     m_max_reload_ms := m_max_reload_ms m; calls := calls m |}.

Definition set_m_is_initialized (b : bool) (m : soft_timer_module)
  : soft_timer_module :=
  {| m_timers := m_timers m; htim := htim m; m_is_initialized := b;
     m_max_reload_ms := m_max_reload_ms m; calls := calls m |}.

Definition set_m_max_reload_ms (r : Z) (m : soft_timer_module)
  : soft_timer_module :=
  {| m_timers := m_timers m; htim := htim m;
     m_is_initialized := m_is_initialized m;
     m_max_reload_ms := r; calls := calls m |}.

Definition log_calls (cs : list callback_call) (m : soft_timer_module)
  : soft_timer_module :=
  {| m_timers := m_timers m; htim := htim m;
     m_is_initialized := m_is_initialized m;
     m_max_reload_ms := m_max_reload_ms m; calls := calls m ++ cs |}.

(** *** Pointers into the pool *)

(** [(timer >= first_timer) && (timer < last_timer)] with
    [first_timer = &m_timers[0]], [last_timer = &m_timers[SOFT_TIMER_MAX_TIMERS]]. *)
Definition in_pool (timer : soft_timer_ptr) : bool :=
  match timer with
  | NULL => false
  | Slot o => (0 <=? o) && (o <? Z.of_nat SOFT_TIMER_MAX_TIMERS)
  end.

(** [*timer]: defined only for pointers to an element of the pool. *)
Definition load (timer : soft_timer_ptr) (m : soft_timer_module)
  : option soft_timer :=
  match timer with
  | NULL => None
  | Slot o => if 0 <=? o then m_timers m !! Z.to_nat o else None
  end.

(** [*timer = t] for a pointer into the pool. *)
Definition store (timer : soft_timer_ptr) (t : soft_timer)
    (m : soft_timer_module) : soft_timer_module :=
  match timer with
  | NULL => m
  | Slot o => if 0 <=? o then set_m_timers (<[Z.to_nat o := t]> (m_timers m)) m
              else m
  end.

(** ** The hardware timer (HAL) *)

(** Modelled from the spec: [__HAL_TIM_SET_AUTORELOAD] of the vendor HAL,
  not among the sources; "program the value at which the hardware fires
  its expiry notification". *)
Definition __HAL_TIM_SET_AUTORELOAD (h : TIM_HandleTypeDef) (v : Z)
  : TIM_HandleTypeDef :=
  {| ARR := v; CNT := CNT h; CEN := CEN h |}.

(** Modelled from the spec: [__HAL_TIM_GET_AUTORELOAD]; "read back the
    currently programmed reload". *)
Definition __HAL_TIM_GET_AUTORELOAD (h : TIM_HandleTypeDef) : Z := ARR h.

(** Modelled from the spec: [__HAL_TIM_SET_COUNTER] of the vendor HAL. *)
Definition __HAL_TIM_SET_COUNTER (h : TIM_HandleTypeDef) (v : Z)
  : TIM_HandleTypeDef :=
  {| ARR := ARR h; CNT := v; CEN := CEN h |}.

(** Modelled from the spec: [__HAL_TIM_GET_COUNTER]; "elapsed milliseconds
    since hardware counting last restarted". *)
Definition __HAL_TIM_GET_COUNTER (h : TIM_HandleTypeDef) : Z := CNT h.

(** Modelled from the spec: [HAL_TIM_Base_Start_IT]; "start hardware
    counting". *)
Definition HAL_TIM_Base_Start_IT (h : TIM_HandleTypeDef) : TIM_HandleTypeDef :=
  {| ARR := ARR h; CNT := CNT h; CEN := true |}.

(** Modelled from the spec: [HAL_TIM_Base_Stop_IT]; "stop hardware
    counting". *)
Definition HAL_TIM_Base_Stop_IT (h : TIM_HandleTypeDef) : TIM_HandleTypeDef :=
  {| ARR := ARR h; CNT := CNT h; CEN := false |}.

(** [hard_timer_init]: the prescaler and the update flag are not part of
    the register model; the auto-reload is set to [m_max_reload_ms]. *)
Definition hard_timer_init (m : soft_timer_module) : soft_timer_module :=
  set_htim (__HAL_TIM_SET_AUTORELOAD (htim m) (m_max_reload_ms m)) m.

Definition hard_timer_start (m : soft_timer_module) : soft_timer_module :=
  set_htim (HAL_TIM_Base_Start_IT (__HAL_TIM_SET_COUNTER (htim m) 0)) m.

Definition hard_timer_stop (m : soft_timer_module) : soft_timer_module :=
  set_htim (__HAL_TIM_SET_COUNTER (HAL_TIM_Base_Stop_IT (htim m)) 0) m.

Definition hard_timer_reload_get (m : soft_timer_module) : Z :=
  __HAL_TIM_GET_AUTORELOAD (htim m).

Definition hard_timer_counter_get (m : soft_timer_module) : Z :=
  __HAL_TIM_GET_COUNTER (htim m).

Definition hard_timer_reload_set (reload_ms : Z) (m : soft_timer_module)
  : soft_timer_module :=
  let reload_ms := utils.min reload_ms (m_max_reload_ms m) in
  set_htim (__HAL_TIM_SET_AUTORELOAD (htim m) reload_ms) m.

Definition hard_timer_update (timer_reload_ms : Z) (m : soft_timer_module)
  : soft_timer_module :=
  let m := hard_timer_reload_set timer_reload_ms m in
  if negb (timer_reload_ms =? 0) then hard_timer_start m
  else hard_timer_stop m.

(** ** Private functions on one timer *)

Definition timer_stop (t : soft_timer) : soft_timer :=
  set_repeat false
    (set_countdown_ms STOPPED_TIMER_COUNTDOWN_VALUE
       (set_state TIMER_STATE_STOPPED t)).

(** [timer->callback(timer)] when the callback is not [NULL]. *)
Definition invoke_callback (timer : soft_timer_ptr) (t : soft_timer)
  : list callback_call :=
  match callback t with
  | Some fn => [ {| call_fn := fn; call_arg := timer; call_view := t |} ]
  | None => []
  end.

(** [timer_step (timer, time_step_ms)] on the slot content [t = *timer];
    [time_step_ms] is the [uint16_t] parameter.  Returns the new content of
    the slot and the callback calls made. *)
Definition timer_step (timer : soft_timer_ptr) (t : soft_timer)
    (time_step_ms : Z) : soft_timer * list callback_call :=
  if negb (bool_decide (state t = TIMER_STATE_RUNNING)) then (t, [])
  else if (countdown_ms t =? 0) && negb (time_step_ms =? 0) then (t, [])
  else
    let t := set_countdown_ms (sub32 (countdown_ms t) time_step_ms) t in
    if negb (countdown_ms t =? 0) then (t, [])
    else
      let cs := invoke_callback timer t in
      if repeat t
      then (set_countdown_ms (sub32 (reload_ms t) 1) t, cs)
      else (timer_stop t, cs).

(** ** Pool-wide update *)

(** One iteration of the loop of [soft_timers_update] at index [i]. *)
Definition soft_timers_update_body (time_step_ms : Z)
    (acc : Z * soft_timer_module) (i : nat) : Z * soft_timer_module :=
  let '(time_until_next_timeout_ms, m) := acc in
  match m_timers m !! i with
  | None => acc
  | Some t =>
      let '(t', cs) := timer_step (Slot (Z.of_nat i)) t time_step_ms in
      (utils.min time_until_next_timeout_ms (countdown_ms t'),
       log_calls cs (set_m_timers (<[i := t']> (m_timers m)) m))
  end.

(** The argument is converted to the [uint16_t] parameter of [timer_step]
    at each call. *)
Definition soft_timers_update (time_since_last_update_ms : Z)
    (m : soft_timer_module) : Z * soft_timer_module :=
  let '(time_until_next_timeout_ms, m) :=
    foldl (soft_timers_update_body (uint16 time_since_last_update_ms))
      (STOPPED_TIMER_COUNTDOWN_VALUE, m) (seq 0 SOFT_TIMER_MAX_TIMERS) in
  (if time_until_next_timeout_ms =? STOPPED_TIMER_COUNTDOWN_VALUE
   then 0 else time_until_next_timeout_ms, m).

Definition timers_update (time_since_last_update_ms : Z)
    (m : soft_timer_module) : soft_timer_module :=
  let '(next_reload_ms, m) := soft_timers_update time_since_last_update_ms m in
  hard_timer_update next_reload_ms m.

(** ** Public functions *)

Definition soft_timer_init_body (m : soft_timer_module) (i : nat)
  : soft_timer_module :=
  match m_timers m !! i with
  | None => m
  | Some t =>
      let t := timer_stop t in
      let t := set_state TIMER_STATE_FREE t in
      let t := set_id (Z.of_nat i) t in
      set_m_timers (<[i := t]> (m_timers m)) m
  end.

Definition soft_timer_init (max_reload_ms : Z) (m : soft_timer_module)
  : soft_timer_module :=
  let m := set_m_max_reload_ms (utils.min max_reload_ms (0xFFFFFFFF - 1)) m in
  if m_is_initialized m then m
  else
    let m := foldl soft_timer_init_body m (seq 0 SOFT_TIMER_MAX_TIMERS) in
    let m := hard_timer_init m in
    set_m_is_initialized true m.

(** The loop of [soft_timer_create] from index [i], [n] iterations left. *)
Fixpoint soft_timer_create_from (n i : nat) (m : soft_timer_module)
  : soft_timer_ptr * soft_timer_module :=
  match n with
  | O => (NULL, m)
  | S n' =>
      match m_timers m !! i with
      | None => (NULL, m)
      | Some t =>
          if bool_decide (state t = TIMER_STATE_FREE)
          then (Slot (Z.of_nat i),
                set_m_timers
                  (<[i := set_state TIMER_STATE_STOPPED t]> (m_timers m)) m)
          else soft_timer_create_from n' (S i) m
      end
  end.

Definition soft_timer_create (m : soft_timer_module)
  : soft_timer_ptr * soft_timer_module :=
  soft_timer_create_from SOFT_TIMER_MAX_TIMERS 0 m.

(** [soft_timer_destroy (&timer)]: takes the value of the caller's pointer
    variable and returns its value afterwards.  The function has no return
    value. *)
Definition soft_timer_destroy (timer : soft_timer_ptr) (m : soft_timer_module)
  : soft_timer_ptr * soft_timer_module :=
  if in_pool timer then
    match load timer m with
    | Some t =>
        if bool_decide (state t = TIMER_STATE_STOPPED)
        then (NULL, store timer (set_state TIMER_STATE_FREE t) m)
        else (timer, m)
    | None => (timer, m)
    end
  else (timer, m).

Definition soft_timer_set (timer : soft_timer_ptr)
    (cb : soft_timer_callback_t) (reload : Z) (rep : bool)
    (m : soft_timer_module) : soft_timer_status_t * soft_timer_module :=
  if negb (in_pool timer) then (SOFT_TIMER_STATUS_INVALID_PARAMETER, m)
  else if (reload <=? 1) || (m_max_reload_ms m <? reload)
  then (SOFT_TIMER_STATUS_INVALID_PARAMETER, m)
  else
    match load timer m with
    | None => (SOFT_TIMER_STATUS_INVALID_PARAMETER, m)
    | Some t =>
        if negb (bool_decide (state t = TIMER_STATE_STOPPED))
        then (SOFT_TIMER_STATUS_INVALID_STATE, m)
        else
          let t := set_reload_ms reload t in
          let t := set_repeat rep t in
          let t := set_callback cb t in
          (SOFT_TIMER_STATUS_SUCCESS, store timer t m)
    end.

Definition soft_timer_start (timer : soft_timer_ptr) (m : soft_timer_module)
  : soft_timer_status_t * soft_timer_module :=
  if negb (in_pool timer) then (SOFT_TIMER_STATUS_INVALID_PARAMETER, m)
  else
    match load timer m with
    | None => (SOFT_TIMER_STATUS_INVALID_PARAMETER, m)
    | Some t =>
        if negb (bool_decide (state t = TIMER_STATE_STOPPED))
        then (SOFT_TIMER_STATUS_INVALID_STATE, m)
        else
          let time_since_last_update_ms := hard_timer_counter_get m in
          let m := timers_update time_since_last_update_ms m in
          match load timer m with
          | None => (SOFT_TIMER_STATUS_INVALID_PARAMETER, m)
          | Some t =>
              let t := set_countdown_ms (sub32 (reload_ms t) 1) t in
              let t := set_state TIMER_STATE_RUNNING t in
              let m := store timer t m in
              let m := timers_update 0 m in
              (SOFT_TIMER_STATUS_SUCCESS, m)
          end
    end.

Definition soft_timer_stop (timer : soft_timer_ptr) (m : soft_timer_module)
  : soft_timer_status_t * soft_timer_module :=
  if negb (in_pool timer) then (SOFT_TIMER_STATUS_INVALID_PARAMETER, m)
  else
    match load timer m with
    | None => (SOFT_TIMER_STATUS_INVALID_PARAMETER, m)
    | Some t =>
        if negb (bool_decide (state t = TIMER_STATE_RUNNING))
        then (SOFT_TIMER_STATUS_INVALID_STATE, m)
        else
          let m := store timer (timer_stop t) m in
          let time_since_last_update_ms := hard_timer_counter_get m in
          let m := timers_update time_since_last_update_ms m in
          (SOFT_TIMER_STATUS_SUCCESS, m)
    end.

(** [soft_timer_is_stopped] reads [timer->state] without a range check:
    [None] when the pointer does not point into the pool (the read is
    undefined). *)
Definition soft_timer_is_stopped (timer : soft_timer_ptr)
    (m : soft_timer_module) : option bool :=
  match load timer m with
  | Some t => Some (bool_decide (state t = TIMER_STATE_STOPPED))
  | None => None
  end.

(** [elapsed_time_ms] is a [uint16_t] local. *)
Definition soft_timer_period_elapsed_callback (m : soft_timer_module)
  : soft_timer_module :=
  let elapsed_time_ms := uint16 (hard_timer_reload_get m) in
  timers_update elapsed_time_ms m.

(** * Vocabulary of the properties *)

(** ** The loops, slot by slot *)

(** The slots [l], which sit at indices [k], [k+1], ... of the pool, after
    each has been stepped by [s]. *)
Fixpoint step_slots (k : nat) (s : Z) (l : list soft_timer)
  : list soft_timer :=
  match l with
  | [] => []
  | t :: l' => (timer_step (Slot (Z.of_nat k)) t s).1 :: step_slots (S k) s l'
  end.

(** The callback calls that stepping the slots [l] by [s] makes, in index
    order. *)
Fixpoint step_calls (k : nat) (s : Z) (l : list soft_timer)
  : list callback_call :=
  match l with
  | [] => []
  | t :: l' => (timer_step (Slot (Z.of_nat k)) t s).2 ++ step_calls (S k) s l'
  end.

(** The running minimum kept in [time_until_next_timeout_ms]. *)
Definition min_countdown (acc : Z) (l : list soft_timer) : Z :=
  foldl (fun a t => utils.min a (countdown_ms t)) acc l.

(** The slots [l], at indices [k], [k+1], ..., as the loop of
    [soft_timer_init] leaves them. *)
Fixpoint init_slots (k : nat) (l : list soft_timer) : list soft_timer :=
  match l with
  | [] => []
  | t :: l' =>
      set_id (Z.of_nat k) (set_state TIMER_STATE_FREE (timer_stop t))
      :: init_slots (S k) l'
  end.

(** One slot under a sequence of advances. *)
Fixpoint timer_steps (timer : soft_timer_ptr) (t : soft_timer)
    (steps : list Z) : soft_timer * list callback_call :=
  match steps with
  | [] => (t, [])
  | x :: steps' =>
      let '(t1, cs1) := timer_step timer t (uint16 x) in
      let '(t2, cs2) := timer_steps timer t1 steps' in
      (t2, cs1 ++ cs2)
  end.

(** The sum of a list of steps. *)
Definition total (steps : list Z) : Z := foldr Z.add 0 steps.

(** ** Callback calls *)

#[global] Instance soft_timer_ptr_eq_dec : EqDecision soft_timer_ptr.
Proof. solve_decision. Defined.

(** The number of calls in [cs] made with [timer] as argument. *)
Definition calls_for (timer : soft_timer_ptr) (cs : list callback_call) : nat :=
  length (filter (fun c => call_arg c = timer) cs).

(** ** Slot predicates *)

(** A slot that is not Running holds the sentinel. *)
Definition idle_sentinel (t : soft_timer) : Prop :=
  state t <> TIMER_STATE_RUNNING ->
  countdown_ms t = STOPPED_TIMER_COUNTDOWN_VALUE.

(** What holds of every slot after [soft_timer_init], whatever is called:
    a slot that is not Running holds the sentinel, and no countdown exceeds
    it (the largest [uint32_t]). *)
Definition slot_bounded (t : soft_timer) : Prop :=
  idle_sentinel t /\ countdown_ms t <= STOPPED_TIMER_COUNTDOWN_VALUE.

(** What holds of every slot between operations when timers are started
    after a successful [soft_timer_set] and no step overshoots: a slot that
    is not Running holds the sentinel; the countdown of a Running slot is
    below its reload value. *)
Definition slot_ok (t : soft_timer) : Prop :=
  (state t <> TIMER_STATE_RUNNING ->
   countdown_ms t = STOPPED_TIMER_COUNTDOWN_VALUE)
  /\ (state t = TIMER_STATE_RUNNING ->
      0 <= countdown_ms t < reload_ms t /\ reload_ms t < 2 ^ 32).

(** The step [s] does not exceed the countdown of [t] if [t] is Running. *)
Definition step_fits (s : Z) (t : soft_timer) : Prop :=
  state t = TIMER_STATE_RUNNING -> s <= countdown_ms t.

(** [step_fits] as a test. *)
Definition fitsb (s : Z) (t : soft_timer) : bool :=
  negb (bool_decide (state t = TIMER_STATE_RUNNING)) || (s <=? countdown_ms t).

(** [v] is the minimum countdown over the Running slots of [l]. *)
Definition is_min_running (v : Z) (l : list soft_timer) : Prop :=
  (exists t, t ∈ l /\ state t = TIMER_STATE_RUNNING /\ countdown_ms t = v)
  /\ (forall t, t ∈ l -> state t = TIMER_STATE_RUNNING -> v <= countdown_ms t).

(** From [t] to [t'], the countdown of a slot that is Running afterwards
    did not increase, or it is [reload_ms - 1] (start, repeat reload). *)
Definition countdown_step (t t' : soft_timer) : Prop :=
  state t' = TIMER_STATE_RUNNING ->
  (state t = TIMER_STATE_RUNNING /\ countdown_ms t' <= countdown_ms t)
  \/ countdown_ms t' = reload_ms t' - 1.

(** [reload_ms] holds a value that [soft_timer_set] accepts (it is 0 in
    the static storage until a first successful [soft_timer_set]). *)
Definition configured (t : soft_timer) : bool := 2 <=? reload_ms t.

(** ** Module invariants *)

(** The invariant of every sequence of operations: the pool has its
    declared size and every slot is [slot_bounded]. *)
Definition pool_idle (m : soft_timer_module) : Prop :=
  length (m_timers m) = SOFT_TIMER_MAX_TIMERS
  /\ Forall slot_bounded (m_timers m).

(** A slot between operations of the documented use: the slot invariant, a
    reload value that is a [uint32_t], and a countdown that neither the
    counter [c] (as a step would truncate it) nor the reload register [a]
    exceeds. *)
Definition slot_inv (c a : Z) (t : soft_timer) : Prop :=
  slot_ok t /\ 0 <= reload_ms t < 2 ^ 32 /\ step_fits c t /\ step_fits a t.

(** The invariant of the documented use on ideal hardware. *)
Definition module_ok (m : soft_timer_module) : Prop :=
  length (m_timers m) = SOFT_TIMER_MAX_TIMERS
  /\ 0 <= m_max_reload_ms m < 2 ^ 32
  /\ 0 <= ARR (htim m)
  /\ Forall (slot_inv (uint16 (CNT (htim m))) (ARR (htim m))) (m_timers m).

(** ** Operation sequences *)

(** The static storage of the module at start-up: zeroed slots,
    [m_is_initialized = false], [m_max_reload_ms = 0xFFFF]. *)
Definition zero_timer : soft_timer :=
  {| state := TIMER_STATE_FREE; id := 0; reload_ms := 0; countdown_ms := 0;
     repeat := false; callback := None |}.

(** The module at start-up; [tim] is the content of the peripheral's
    registers. *)
Definition power_on (tim : TIM_HandleTypeDef) : soft_timer_module :=
  {| m_timers := replicate SOFT_TIMER_MAX_TIMERS zero_timer; htim := tim;
     m_is_initialized := false; m_max_reload_ms := 0xFFFF; calls := [] |}.

(** What can happen to the module: a call of a public function, the
    hardware expiry notification, an advance (the [timers_update] that
    start, stop and expiry share) and the hardware counter moving on. *)
Inductive operation :=
| Init (max_reload_ms : Z)
| Create
| Destroy (timer : soft_timer_ptr)
| Configure (timer : soft_timer_ptr) (cb : soft_timer_callback_t)
    (reload : Z) (rep : bool)
| Start (timer : soft_timer_ptr)
| Stop (timer : soft_timer_ptr)
| IsStopped (timer : soft_timer_ptr)
| Elapsed
| Advance (time_since_last_update_ms : Z)
| Count (c : Z).

(** The hardware counter reaches [c]. *)
Definition hard_timer_count (c : Z) (m : soft_timer_module)
  : soft_timer_module :=
  set_htim (__HAL_TIM_SET_COUNTER (htim m) c) m.

(** The module after one operation. *)
Definition step (m : soft_timer_module) (op : operation) : soft_timer_module :=
  match op with
  | Init max_reload_ms => soft_timer_init max_reload_ms m
  | Create => (soft_timer_create m).2
  | Destroy timer => (soft_timer_destroy timer m).2
  | Configure timer cb reload rep => (soft_timer_set timer cb reload rep m).2
  | Start timer => (soft_timer_start timer m).2
  | Stop timer => (soft_timer_stop timer m).2
  | IsStopped _ => m
  | Elapsed => soft_timer_period_elapsed_callback m
  | Advance x => timers_update x m
  | Count c => hard_timer_count c m
  end.

(** The module after a sequence of operations. *)
Definition run (m : soft_timer_module) (ops : list operation)
  : soft_timer_module :=
  foldl step m ops.

(** The [soft_timer_status_t] an operation returns to its caller; [None]
    for the functions of [soft_timer.h] that return [void], a pointer or a
    [bool]. *)
Definition status_of (op : operation) (m : soft_timer_module)
  : option soft_timer_status_t :=
  match op with
  | Configure timer cb reload rep =>
      Some (soft_timer_set timer cb reload rep m).1
  | Start timer => Some (soft_timer_start timer m).1
  | Stop timer => Some (soft_timer_stop timer m).1
  | _ => None
  end.

(** The documented use of the module on ideal hardware: a timer is started
    only after it was configured ("Timer must be previously configured with
    soft_timer_set"); the counter never exceeds the reload register; an
    advance does not exceed the countdown of a Running slot;
    [max_reload_ms] is a [uint32_t]. *)
Definition allowed (m : soft_timer_module) (op : operation) : bool :=
  match op with
  | Init max_reload_ms => (0 <=? max_reload_ms) && (max_reload_ms <? 2 ^ 32)
  | Start timer =>
      match load timer m with
      | Some t => configured t
      | None => true
      end
  | Advance x => forallb (fitsb (uint16 x)) (m_timers m)
  | Count c => (0 <=? c) && (c <=? ARR (htim m))
  | _ => true
  end.

(** Every operation of [ops] is [allowed] in the state it is applied to. *)
Fixpoint run_allowed (m : soft_timer_module) (ops : list operation) : bool :=
  match ops with
  | [] => true
  | op :: ops' => allowed m op && run_allowed (step m op) ops'
  end.

(** ** Sample states *)

(** Registers of a 16-bit timer at reset. *)
Definition tim0 : TIM_HandleTypeDef :=
  {| ARR := 0xFFFF; CNT := 0; CEN := false |}.

(** The module after [soft_timer_init (htim, 0xFFFF)]. *)
Definition booted : soft_timer_module := soft_timer_init 0xFFFF (power_on tim0).

(** One timer of period 10 ms, created, configured and started. *)
Definition one_shot_started : soft_timer_module :=
  run booted [Create; Configure (Slot 0) (Some 7%nat) 10 false; Start (Slot 0)].

(** ** Further vocabulary *)

(** [n] calls of [soft_timer_create] in a row: the pointers returned, in
    order, and the module afterwards. *)
Fixpoint create_n (n : nat) (m : soft_timer_module)
  : list soft_timer_ptr * soft_timer_module :=
  match n with
  | O => ([], m)
  | S n' =>
      let '(p, m1) := soft_timer_create m in
      let '(ps, m2) := create_n n' m1 in
      (p :: ps, m2)
  end.

(** The index of the slot a callback was called with ([-1] for [NULL]). *)
Definition call_offset (c : callback_call) : Z :=
  match call_arg c with
  | NULL => -1
  | Slot o => o
  end.

(** Slots below index [j] are taken, slots from [j] on are Free. *)
Definition taken_below (j : nat) (m : soft_timer_module) : Prop :=
  length (m_timers m) = SOFT_TIMER_MAX_TIMERS
  /\ forall (i : nat) t, m_timers m !! i = Some t ->
       ((i < j)%nat -> state t <> TIMER_STATE_FREE)
       /\ ((j <= i)%nat -> state t = TIMER_STATE_FREE).

(** A Running slot has at least 1 ms left. *)
Definition slot_live (t : soft_timer) : Prop :=
  state t = TIMER_STATE_RUNNING -> 1 <= countdown_ms t.

(** What no operation but [soft_timer_init] touches, once the module is
    initialized: the flag, and a maximum below the sentinel. *)
Definition module_cfg (m : soft_timer_module) : Prop :=
  length (m_timers m) = SOFT_TIMER_MAX_TIMERS
  /\ m_is_initialized m = true
  /\ m_max_reload_ms m <= 0xFFFFFFFF - 1.

(** * Properties *)

(** ** Arithmetic helpers *)

Lemma uint16_range x : 0 <= uint16 x < 2 ^ 16.
Proof. unfold uint16. apply Z.mod_pos_bound. lia. Qed.

Lemma uint16_small x : 0 <= x < 2 ^ 16 -> uint16 x = x.
Proof. intros H. unfold uint16. apply Z.mod_small. exact H. Qed.

Lemma uint16_le x : 0 <= x -> uint16 x <= x.
Proof. intros H. unfold uint16. apply Z.mod_le; lia. Qed.

Lemma sub32_small a b : 0 <= b <= a -> a < 2 ^ 32 -> sub32 a b = a - b.
Proof. intros H1 H2. unfold sub32, uint32. apply Z.mod_small. lia. Qed.

Lemma utils_min_spec a b : utils.min a b = Z.min a b.
Proof. unfold utils.min. destruct (Z.ltb_spec a b); lia. Qed.

(** ** The per-slot step *)

Lemma timer_step_not_running timer t s :
  state t <> TIMER_STATE_RUNNING -> timer_step timer t s = (t, []).
Proof.
  intros H. unfold timer_step. rewrite bool_decide_eq_false_2; done.
Qed.

Lemma timer_step_running timer t s :
  state t = TIMER_STATE_RUNNING ->
  timer_step timer t s =
    if (countdown_ms t =? 0) && negb (s =? 0) then (t, [])
    else
      let t1 := set_countdown_ms (sub32 (countdown_ms t) s) t in
      if negb (countdown_ms t1 =? 0) then (t1, [])
      else
        let cs := invoke_callback timer t1 in
        if repeat t1
        then (set_countdown_ms (sub32 (reload_ms t1) 1) t1, cs)
        else (timer_stop t1, cs).
Proof.
  intros H. unfold timer_step. rewrite bool_decide_eq_true_2; done.
Qed.

(** C3. When the countdown of a Running slot reaches exactly zero in a step
    (the subtraction is executed and its result is zero), [timer_step] calls
    the slot's callback, when there is one, with the slot's pointer, and the
    callee sees the slot still Running with countdown 0, before any reload;
    then a repeating slot gets countdown [reload_ms - 1] (in 32-bit
    arithmetic, and exactly [reload_ms - 1] for [reload_ms >= 1]) and stays
    Running, and a non-repeating slot becomes Stopped with the sentinel
    countdown. *)
Theorem timer_step_expiry (timer : soft_timer_ptr) (t : soft_timer)
    (time_step_ms : Z) :
  state t = TIMER_STATE_RUNNING ->
  ~ (countdown_ms t = 0 /\ time_step_ms <> 0) ->
  sub32 (countdown_ms t) time_step_ms = 0 ->
  let seen := set_countdown_ms 0 t in
  let '(t', cs) := timer_step timer t time_step_ms in
  cs = match callback t with
       | Some fn => [ {| call_fn := fn; call_arg := timer; call_view := seen |} ]
       | None => []
       end
  /\ state seen = TIMER_STATE_RUNNING /\ countdown_ms seen = 0
  /\ (repeat t = true ->
      t' = set_countdown_ms (sub32 (reload_ms t) 1) t
      /\ state t' = TIMER_STATE_RUNNING
      /\ (1 <= reload_ms t < 2 ^ 32 -> countdown_ms t' = reload_ms t - 1))
  /\ (repeat t = false ->
      t' = set_countdown_ms STOPPED_TIMER_COUNTDOWN_VALUE
             (set_state TIMER_STATE_STOPPED t)
      /\ state t' = TIMER_STATE_STOPPED
      /\ countdown_ms t' = STOPPED_TIMER_COUNTDOWN_VALUE).
Proof.
  intros Hrun Hguard Hzero seen.
  rewrite (timer_step_running _ _ _ Hrun).
  assert (G : (countdown_ms t =? 0) && negb (time_step_ms =? 0) = false).
  { destruct (Z.eqb_spec (countdown_ms t) 0) as [E0 | ]; [ | reflexivity ].
    destruct (Z.eqb_spec time_step_ms 0) as [ | Hne]; [ reflexivity | ].
    exfalso. apply Hguard. split; assumption. }
  rewrite G. cbn zeta. cbn [countdown_ms set_countdown_ms].
  rewrite Hzero. cbn [negb Z.eqb repeat reload_ms].
  destruct t as [st i r c rp cb]. cbn in Hrun. subst st.
  unfold invoke_callback, seen. cbn.
  destruct rp; cbn.
  - split; [ reflexivity | ]. repeat split; try discriminate.
    intros Hr. apply sub32_small; lia.
  - split; [ reflexivity | ]. repeat split; discriminate.
Qed.

Lemma timer_step_expiry_witness :
  let t := {| state := TIMER_STATE_RUNNING; id := 3; reload_ms := 10;
              countdown_ms := 5; repeat := true; callback := Some 7%nat |} in
  let '(t', cs) := timer_step (Slot 3) t 5 in
  length cs = 1%nat /\ countdown_ms t' = 9.
Proof.
  intros t.
  pose proof (timer_step_expiry (Slot 3) t 5) as H.
  destruct (timer_step (Slot 3) t 5) as [t' cs].
  destruct H as (Hcs & _ & _ & Hrep & _).
  - reflexivity.
  - intros [E _]. discriminate E.
  - reflexivity.
  - split.
    + rewrite Hcs. reflexivity.
    + destruct (Hrep eq_refl) as (_ & _ & Hc). apply Hc. cbn. lia.
Defined.

(** C4 as stated fails: on a Running slot whose countdown is 0, a step of
    0 ms passes the guard, the subtraction leaves 0, and the callback is
    called and the slot stopped. *)
Lemma timer_step_zero_on_expired_fires :
  let t := {| state := TIMER_STATE_RUNNING; id := 0; reload_ms := 10;
              countdown_ms := 0; repeat := false; callback := Some 7%nat |} in
  countdown_ms t = 0 /\
  timer_step (Slot 0) t 0 =
    (timer_stop t,
     [ {| call_fn := 7%nat; call_arg := Slot 0; call_view := t |} ]) /\
  timer_step (Slot 0) t 0 <> (t, []).
Proof.
  cbn zeta. split; [ reflexivity | ]. split; [ reflexivity | ].
  intros H. discriminate H.
Qed.

(** C4, amended.  On a slot whose countdown is 0: a step of any length
    leaves a slot that is not Running unchanged and calls nothing; a step of
    non-zero length leaves a Running slot unchanged and calls nothing; a
    step of 0 ms on a Running slot is treated as an expiry: the callback is
    called (when present) and the slot is reloaded or stopped. *)
Theorem timer_step_on_zero_countdown (timer : soft_timer_ptr)
    (t : soft_timer) (time_step_ms : Z) :
  countdown_ms t = 0 ->
  (state t <> TIMER_STATE_RUNNING ->
   timer_step timer t time_step_ms = (t, []))
  /\ (state t = TIMER_STATE_RUNNING -> time_step_ms <> 0 ->
      timer_step timer t time_step_ms = (t, []))
  /\ (state t = TIMER_STATE_RUNNING ->
      timer_step timer t 0 =
        (if repeat t then set_countdown_ms (sub32 (reload_ms t) 1) t
         else timer_stop t,
         invoke_callback timer t)).
Proof.
  intros Hc. split; [ | split ].
  - apply timer_step_not_running.
  - intros Hrun Hs. rewrite (timer_step_running _ _ _ Hrun), Hc.
    destruct (Z.eqb_spec time_step_ms 0); [ contradiction | reflexivity ].
  - intros Hrun. rewrite (timer_step_running _ _ _ Hrun), Hc.
    destruct t as [st i r c rp cb]. cbn in Hc. subst c.
    cbn. destruct rp; reflexivity.
Qed.

Lemma timer_step_on_zero_countdown_witness :
  let t := {| state := TIMER_STATE_RUNNING; id := 0; reload_ms := 10;
              countdown_ms := 0; repeat := true; callback := Some 7%nat |} in
  timer_step (Slot 0) t 4 = (t, []) /\
  timer_step (Slot 0) t 0 =
    (set_countdown_ms 9 t,
     [ {| call_fn := 7%nat; call_arg := Slot 0; call_view := t |} ]).
Proof.
  intros t.
  destruct (timer_step_on_zero_countdown (Slot 0) t 4 eq_refl)
    as (_ & Hnz & _).
  destruct (timer_step_on_zero_countdown (Slot 0) t 0 eq_refl)
    as (_ & _ & Hz).
  split.
  - apply Hnz; [ reflexivity | lia ].
  - rewrite (Hz eq_refl). reflexivity.
Defined.

(** ** The pool-wide update as a per-slot map *)

Lemma length_step_slots k s l : length (step_slots k s l) = length l.
Proof.
  revert k. induction l as [ | t l IH]; intros k; cbn; [ | rewrite IH ]; done.
Qed.

Lemma lookup_step_slots k s l (j : nat) :
  step_slots k s l !! j =
  (fun t => (timer_step (Slot (Z.of_nat (k + j))) t s).1) <$> (l !! j).
Proof.
  revert k j. induction l as [ | t l IH]; intros k j; [ done | ].
  destruct j as [ | j]; cbn.
  - by rewrite Nat.add_0_r.
  - rewrite IH. by replace (S k + j)%nat with (k + S j)%nat by lia.
Qed.

Lemma soft_timers_update_loop s rest : forall pre acc h ini mx lg,
  foldl (soft_timers_update_body s)
    (acc, {| m_timers := pre ++ rest; htim := h; m_is_initialized := ini;
             m_max_reload_ms := mx; calls := lg |})
    (seq (length pre) (length rest)) =
  (min_countdown acc (step_slots (length pre) s rest),
   {| m_timers := pre ++ step_slots (length pre) s rest; htim := h;
      m_is_initialized := ini; m_max_reload_ms := mx;
      calls := lg ++ step_calls (length pre) s rest |}).
Proof.
  induction rest as [ | t rest IH]; intros pre acc h ini mx lg.
  - cbn. by rewrite !app_nil_r.
  - cbn [length seq foldl step_slots step_calls min_countdown].
    unfold soft_timers_update_body at 2. cbn [m_timers].
    rewrite list_lookup_middle by reflexivity.
    destruct (timer_step (Slot (Z.of_nat (length pre))) t s) as [t' cs].
    unfold log_calls, set_m_timers. cbn [m_timers htim m_is_initialized
      m_max_reload_ms calls fst snd].
    rewrite insert_app_r_alt by lia. rewrite Nat.sub_diag. cbn [insert list_insert].
    replace (pre ++ t' :: rest) with ((pre ++ [t']) ++ rest)
      by (by rewrite <- app_assoc).
    replace (S (length pre)) with (length (pre ++ [t']))
      by (rewrite length_app; cbn; lia).
    rewrite IH. unfold min_countdown.
    by rewrite <- !app_assoc.
Qed.

(** [soft_timers_update] steps every slot by the truncated interval, logs
    the calls in index order, and returns the minimum over all countdowns,
    with the sentinel turned into 0. *)
Lemma soft_timers_update_eq x m :
  length (m_timers m) = SOFT_TIMER_MAX_TIMERS ->
  let pool' := step_slots 0 (uint16 x) (m_timers m) in
  let raw := min_countdown STOPPED_TIMER_COUNTDOWN_VALUE pool' in
  soft_timers_update x m =
    (if raw =? STOPPED_TIMER_COUNTDOWN_VALUE then 0 else raw,
     log_calls (step_calls 0 (uint16 x) (m_timers m)) (set_m_timers pool' m)).
Proof.
  intros Hlen pool' raw. unfold soft_timers_update.
  destruct m as [l h ini mx lg]. cbn [m_timers] in *.
  rewrite <- Hlen.
  pose proof (soft_timers_update_loop (uint16 x) l [] STOPPED_TIMER_COUNTDOWN_VALUE
                h ini mx lg) as E.
  cbn [app length] in E. rewrite E. reflexivity.
Qed.

Lemma timers_update_eq x m :
  length (m_timers m) = SOFT_TIMER_MAX_TIMERS ->
  let pool' := step_slots 0 (uint16 x) (m_timers m) in
  let v := (soft_timers_update x m).1 in
  timers_update x m =
    {| m_timers := pool';
       htim := {| ARR := utils.min v (m_max_reload_ms m); CNT := 0;
                  CEN := negb (v =? 0) |};
       m_is_initialized := m_is_initialized m;
       m_max_reload_ms := m_max_reload_ms m;
       calls := calls m ++ step_calls 0 (uint16 x) (m_timers m) |}.
Proof.
  intros Hlen pool' v. unfold timers_update. subst v.
  rewrite (soft_timers_update_eq x m Hlen). cbn [fst].
  set (v := if _ =? _ then 0 else _).
  unfold hard_timer_update, hard_timer_reload_set, hard_timer_start,
    hard_timer_stop. cbn.
  destruct (v =? 0); reflexivity.
Qed.

(** ** The slot invariant *)

Lemma state_dec (t : soft_timer) :
  {state t = TIMER_STATE_RUNNING} + {state t <> TIMER_STATE_RUNNING}.
Proof. apply timer_state_eq_dec. Defined.

(** The effect of a step that fits on one slot. *)
Lemma timer_step_fits timer t s :
  slot_ok t -> 0 <= s -> step_fits s t ->
  let t' := (timer_step timer t s).1 in
  slot_ok t'
  /\ reload_ms t' = reload_ms t
  /\ (state t' = TIMER_STATE_RUNNING ->
      state t = TIMER_STATE_RUNNING
      /\ (countdown_ms t' <= countdown_ms t
          \/ countdown_ms t' = reload_ms t' - 1)).
Proof.
  intros [Hidle Hrun] Hs Hfit. destruct (state_dec t) as [R | NR].
  - rewrite (timer_step_running _ _ _ R).
    destruct (Hrun R) as [Hc Hr]. specialize (Hfit R).
    destruct ((countdown_ms t =? 0) && negb (s =? 0)).
    { cbn. split; [ split; assumption | ]. split; [ done | ].
      intros _. split; [ done | left; lia ]. }
    cbn zeta. cbn [countdown_ms set_countdown_ms repeat reload_ms].
    rewrite sub32_small by lia.
    destruct (Z.eqb_spec (countdown_ms t - s) 0) as [E | NE]; cbn [negb].
    + destruct (repeat t); cbn [fst].
      * rewrite sub32_small by lia. unfold slot_ok. cbn.
        split; [ split; intros; [ congruence | lia ] | ].
        split; [ done | ]. intros _. split; [ done | ]. right. lia.
      * unfold slot_ok. cbn.
        split; [ split; intros; [ done | discriminate ] | ].
        split; [ done | ]. discriminate.
    + unfold slot_ok. cbn.
      split; [ split; intros; [ congruence | lia ] | ].
      split; [ done | ]. intros _. split; [ done | ]. left. lia.
  - rewrite (timer_step_not_running _ _ _ NR). cbn.
    split; [ split; assumption | ]. split; [ done | ]. intros; contradiction.
Qed.

Lemma step_slots_ok k s l :
  0 <= s -> Forall slot_ok l -> Forall (step_fits s) l ->
  Forall slot_ok (step_slots k s l).
Proof.
  intros Hs Hok. revert k. induction Hok as [ | t l Ht Hl IH]; intros k Hfit.
  - constructor.
  - inversion Hfit as [ | ? ? Hft Hfl]; subst. cbn. constructor.
    + by apply timer_step_fits.
    + by apply IH.
Qed.

Lemma slot_ok_running_below t :
  slot_ok t -> state t = TIMER_STATE_RUNNING ->
  countdown_ms t < STOPPED_TIMER_COUNTDOWN_VALUE.
Proof. intros [_ H] R. destruct (H R). unfold STOPPED_TIMER_COUNTDOWN_VALUE. lia. Qed.

Lemma slot_ok_le_sentinel t :
  slot_ok t -> countdown_ms t <= STOPPED_TIMER_COUNTDOWN_VALUE.
Proof.
  intros H. destruct (state_dec t) as [R | NR].
  - pose proof (slot_ok_running_below t H R). lia.
  - destruct H as [H _]. rewrite (H NR). lia.
Qed.

(** The minimum over all countdowns, started at [acc], is [acc] or the
    countdown of a Running slot, and is below every countdown. *)
Lemma slot_ok_bounded t : slot_ok t -> slot_bounded t.
Proof.
  intros H. split; [ exact (proj1 H) | by apply slot_ok_le_sentinel ].
Qed.

Lemma Forall_slot_ok_bounded l : Forall slot_ok l -> Forall slot_bounded l.
Proof.
  intros H. eapply list.Forall_impl; [ exact H | ]. apply slot_ok_bounded.
Qed.

Lemma min_countdown_spec l : forall acc,
  Forall slot_bounded l -> acc <= STOPPED_TIMER_COUNTDOWN_VALUE ->
  let r := min_countdown acc l in
  r <= acc
  /\ (forall t, t ∈ l -> r <= countdown_ms t)
  /\ (r = acc \/
      exists t, t ∈ l /\ state t = TIMER_STATE_RUNNING /\ countdown_ms t = r).
Proof.
  induction l as [ | t l IH]; intros acc Hok Hacc.
  - cbn. split; [ lia | ]. split; [ | by left ].
    intros t Ht. by apply elem_of_nil in Ht.
  - inversion Hok as [ | ? ? Ht Hl]; subst.
    unfold min_countdown. cbn [foldl]. rewrite utils_min_spec.
    pose proof (proj2 Ht) as Hle.
    destruct (IH (Z.min acc (countdown_ms t)) Hl ltac:(lia)) as (H1 & H2 & H3).
    unfold min_countdown in *. cbn zeta in *.
    set (r := foldl _ _ l) in *.
    split; [ lia | ]. split.
    + intros t' Ht'. apply elem_of_cons in Ht' as [-> | Ht']; [ lia | by apply H2 ].
    + destruct H3 as [E | (t' & Hin & Hr & Hc)].
      * destruct (Z_le_gt_dec acc (countdown_ms t)) as [Hl' | Hg].
        { left. lia. }
        right. exists t. split; [ apply elem_of_cons; by left | ].
        split; [ | lia ].
        destruct (state_dec t) as [R | NR]; [ done | ].
        destruct Ht as [Hi _]. rewrite (Hi NR) in Hg. lia.
      * right. exists t'. split; [ apply elem_of_cons; by right | done ].
Qed.

(** On a pool of good slots, the value [soft_timers_update] computes from
    its minimum over all slots is the minimum over the Running slots, or 0
    when there is none. *)
Lemma next_timeout_spec l :
  Forall slot_ok l ->
  let raw := min_countdown STOPPED_TIMER_COUNTDOWN_VALUE l in
  let v := if raw =? STOPPED_TIMER_COUNTDOWN_VALUE then 0 else raw in
  ((forall t, t ∈ l -> state t <> TIMER_STATE_RUNNING) ->
   raw = STOPPED_TIMER_COUNTDOWN_VALUE /\ v = 0)
  /\ ((exists t, t ∈ l /\ state t = TIMER_STATE_RUNNING) ->
      raw <> STOPPED_TIMER_COUNTDOWN_VALUE /\ v = raw /\ is_min_running raw l).
Proof.
  intros Hok raw v.
  destruct (min_countdown_spec l STOPPED_TIMER_COUNTDOWN_VALUE
              (Forall_slot_ok_bounded l Hok) ltac:(lia))
    as (H1 & H2 & H3).
  fold raw in H1, H2, H3. split.
  - intros Hnone.
    assert (E : raw = STOPPED_TIMER_COUNTDOWN_VALUE).
    { destruct H3 as [E | (t & Hin & Hr & _)]; [ exact E | ].
      exfalso. by apply (Hnone t). }
    split; [ done | ]. unfold v. rewrite E. reflexivity.
  - intros (t0 & Hin0 & Hr0).
    assert (Hlt : raw < STOPPED_TIMER_COUNTDOWN_VALUE).
    { pose proof (H2 t0 Hin0).
      assert (slot_ok t0) as Hk
        by (rewrite list.Forall_forall in Hok; by apply Hok).
      pose proof (slot_ok_running_below t0 Hk Hr0). lia. }
    split; [ lia | ]. split.
    + unfold v. destruct (Z.eqb_spec raw STOPPED_TIMER_COUNTDOWN_VALUE); [ lia | done ].
    + split.
      * destruct H3 as [E | H3]; [ lia | done ].
      * intros t Hin _. by apply H2.
Qed.

(** C1 as stated fails: [soft_timers_update] tells "no slot is Running"
    from the minimum being the sentinel, and a Running slot can hold the
    sentinel.  [soft_timer_start] on a timer that was created but never
    configured succeeds and sets its countdown to [reload_ms - 1] with
    [reload_ms = 0], which wraps to 0xFFFFFFFF.  The update then returns 0
    although slot 0 is Running with countdown 0xFFFFFFFF and is the only
    Running slot, and the hardware timer is stopped. *)
Lemma unconfigured_start_update_returns_zero :
  let m0 := run booted [Create] in
  let m := (soft_timer_start (Slot 0) m0).2 in
  let v := (soft_timers_update 0 m).1 in
  let m1 := (soft_timers_update 0 m).2 in
  (soft_timer_start (Slot 0) m0).1 = SOFT_TIMER_STATUS_SUCCESS
  /\ m_timers m1 !! 0%nat =
       Some {| state := TIMER_STATE_RUNNING; id := 0; reload_ms := 0;
               countdown_ms := 4294967295; repeat := false;
               callback := None |}
  /\ v = 0
  /\ htim (timers_update 0 m) = {| ARR := 0; CNT := 0; CEN := false |}
  /\ ~ is_min_running v (m_timers m1).
Proof.
  cbv zeta.
  assert (Hs : (soft_timer_start (Slot 0) (run booted [Create])).1
               = SOFT_TIMER_STATUS_SUCCESS)
    by (vm_compute; reflexivity).
  assert (Hl : m_timers
                 (soft_timers_update 0
                    (soft_timer_start (Slot 0) (run booted [Create])).2).2
               !! 0%nat =
               Some {| state := TIMER_STATE_RUNNING; id := 0; reload_ms := 0;
                       countdown_ms := 4294967295; repeat := false;
                       callback := None |})
    by (vm_compute; reflexivity).
  assert (Hv : (soft_timers_update 0
                  (soft_timer_start (Slot 0) (run booted [Create])).2).1 = 0)
    by (vm_compute; reflexivity).
  assert (Hh : htim (timers_update 0
                       (soft_timer_start (Slot 0) (run booted [Create])).2)
               = {| ARR := 0; CNT := 0; CEN := false |})
    by (vm_compute; reflexivity).
  assert (Hall : Forall (fun t => state t = TIMER_STATE_RUNNING ->
                                  countdown_ms t <> 0)
                   (m_timers
                      (soft_timers_update 0
                         (soft_timer_start (Slot 0)
                            (run booted [Create])).2).2)).
  { vm_compute.
    repeat (apply Forall_cons;
            [ intros R E; first [ discriminate R | discriminate E ] | ]).
    apply Forall_nil. }
  split; [ exact Hs | ]. split; [ exact Hl | ]. split; [ exact Hv | ].
  split; [ exact Hh | ].
  intros [(t & Hin & R & Hc) _]. rewrite Hv in Hc.
  rewrite list.Forall_forall in Hall. exact (Hall t Hin R Hc).
Qed.

(** C1, amended.  The pool-wide update steps every slot (by the interval
    as [timer_step] receives it), and on a pool that satisfies the slot
    invariant (a slot that is not Running holds the sentinel, the countdown
    of a Running slot is below its reload value), with a step that no
    Running slot's countdown falls short of, it returns the minimum
    countdown over the Running slots, or 0 when no slot is Running;
    [timers_update] then writes that value, capped at [m_max_reload_ms], to
    the reload register, and starts the hardware timer from 0, or stops it
    when the value is 0. *)
Theorem timers_update_minimum (x : Z) (m : soft_timer_module) :
  length (m_timers m) = SOFT_TIMER_MAX_TIMERS ->
  Forall slot_ok (m_timers m) ->
  Forall (step_fits (uint16 x)) (m_timers m) ->
  let '(v, m1) := soft_timers_update x m in
  (forall (i : nat) t, m_timers m !! i = Some t ->
     m_timers m1 !! i = Some (timer_step (Slot (Z.of_nat i)) t (uint16 x)).1)
  /\ length (m_timers m1) = length (m_timers m)
  /\ ((forall t, t ∈ m_timers m1 -> state t <> TIMER_STATE_RUNNING) -> v = 0)
  /\ ((exists t, t ∈ m_timers m1 /\ state t = TIMER_STATE_RUNNING) ->
      is_min_running v (m_timers m1))
  /\ timers_update x m = hard_timer_update v m1
  /\ m_timers (timers_update x m) = m_timers m1
  /\ htim (timers_update x m) =
       {| ARR := utils.min v (m_max_reload_ms m); CNT := 0;
          CEN := negb (v =? 0) |}.
Proof.
  intros Hlen Hok Hfit.
  pose proof (timers_update_eq x m Hlen) as Htu. cbn zeta in Htu.
  pose proof (soft_timers_update_eq x m Hlen) as Hsu. cbn zeta in Hsu.
  assert (Heq : timers_update x m =
                hard_timer_update (soft_timers_update x m).1
                  (soft_timers_update x m).2).
  { unfold timers_update. by destruct (soft_timers_update x m). }
  rewrite Htu in Heq. rewrite Htu. clear Htu.
  destruct (soft_timers_update x m) as [v m1].
  injection Hsu as Hv Hm1. cbn [fst snd] in *.
  assert (Hpool : m_timers m1 = step_slots 0 (uint16 x) (m_timers m))
    by (by rewrite Hm1).
  assert (Hok' : Forall slot_ok (m_timers m1)).
  { rewrite Hpool. apply step_slots_ok; [ apply uint16_range | done | done ]. }
  pose proof (next_timeout_spec (m_timers m1) Hok') as [Hnone Hsome].
  cbn zeta in Hnone, Hsome. rewrite <- Hpool in Hv. rewrite <- Hv in Hnone, Hsome.
  split; [ | split; [ | split; [ | split ] ] ].
  - intros i t Hi. rewrite Hpool, lookup_step_slots, Hi. reflexivity.
  - rewrite Hpool. apply length_step_slots.
  - intros H. by destruct (Hnone H).
  - intros H. destruct (Hsome H) as (_ & -> & Hmin). exact Hmin.
  - split; [ exact Heq | ]. cbn. rewrite Hpool. done.
Qed.

(** ** Effect of each operation on the pool *)

(** Closes the case of a call that returns an error status and the module
    as it was. *)
Ltac rejected := left; eexists; split; [ | reflexivity ]; discriminate.

Lemma load_Some timer m t :
  load timer m = Some t ->
  exists i : nat, timer = Slot (Z.of_nat i) /\ m_timers m !! i = Some t.
Proof.
  destruct timer as [ | o]; [ discriminate | ]. cbn.
  destruct (Z.leb_spec 0 o) as [Ho | ]; [ | discriminate ].
  intros H. exists (Z.to_nat o). by rewrite Z2Nat.id.
Qed.

Lemma load_Slot (i : nat) m : load (Slot (Z.of_nat i)) m = m_timers m !! i.
Proof.
  cbn. destruct (Z.leb_spec 0 (Z.of_nat i)); [ | lia ]. by rewrite Nat2Z.id.
Qed.

Lemma store_Slot (i : nat) t m :
  store (Slot (Z.of_nat i)) t m = set_m_timers (<[i := t]> (m_timers m)) m.
Proof.
  cbn. destruct (Z.leb_spec 0 (Z.of_nat i)); [ | lia ]. by rewrite Nat2Z.id.
Qed.

Lemma in_pool_Slot (i : nat) :
  in_pool (Slot (Z.of_nat i)) = true <-> (i < SOFT_TIMER_MAX_TIMERS)%nat.
Proof.
  cbn. rewrite andb_true_iff, Z.leb_le, Z.ltb_lt. lia.
Qed.

Lemma in_pool_load timer m :
  length (m_timers m) = SOFT_TIMER_MAX_TIMERS ->
  in_pool timer = true -> is_Some (load timer m).
Proof.
  intros Hlen Hin. destruct timer as [ | o]; [ discriminate | ].
  cbn in *. apply andb_true_iff in Hin as [H0 H1].
  rewrite H0. apply lookup_lt_is_Some. rewrite Hlen.
  apply Z.leb_le in H0. apply Z.ltb_lt in H1. cbn in H1. lia.
Qed.

Lemma m_timers_timers_update x m :
  length (m_timers m) = SOFT_TIMER_MAX_TIMERS ->
  m_timers (timers_update x m) = step_slots 0 (uint16 x) (m_timers m).
Proof. intros Hlen. by rewrite timers_update_eq. Qed.

Lemma length_timers_update x m :
  length (m_timers m) = SOFT_TIMER_MAX_TIMERS ->
  length (m_timers (timers_update x m)) = SOFT_TIMER_MAX_TIMERS.
Proof.
  intros Hlen. by rewrite m_timers_timers_update, length_step_slots.
Qed.

(** [soft_timer_create] changes at most the state of one Free slot. *)
Lemma soft_timer_create_from_effect n : forall i m,
  let '(p, m') := soft_timer_create_from n i m in
  (p = NULL /\ m' = m
   /\ forall (j : nat) t, (i <= j < i + n)%nat -> m_timers m !! j = Some t ->
        state t <> TIMER_STATE_FREE)
  \/ (exists (k : nat) t,
        p = Slot (Z.of_nat k) /\ (i <= k < i + n)%nat
        /\ m_timers m !! k = Some t /\ state t = TIMER_STATE_FREE
        /\ (forall (j : nat) t', (i <= j < k)%nat -> m_timers m !! j = Some t' ->
              state t' <> TIMER_STATE_FREE)
        /\ m' = set_m_timers
                  (<[k := set_state TIMER_STATE_STOPPED t]> (m_timers m)) m).
Proof.
  induction n as [ | n IH]; intros i m; cbn [soft_timer_create_from].
  - left. split; [ done | ]. split; [ done | ]. intros; lia.
  - destruct (m_timers m !! i) as [t | ] eqn:Hi.
    + case_bool_decide as Hfree.
      * right. exists i, t. split; [ done | ]. split; [ lia | ].
        split; [ done | ]. split; [ done | ]. split; [ intros; lia | done ].
      * specialize (IH (S i) m).
        destruct (soft_timer_create_from n (S i) m) as [p m'].
        destruct IH as [(-> & -> & Hnone) | (k & t' & -> & Hk & Hlk & Hfr & Hbefore & ->)].
        -- left. split; [ done | ]. split; [ done | ].
           intros j tj Hj Hlj. destruct (decide (j = i)) as [-> | Hne].
           ++ congruence.
           ++ apply (Hnone j); [ lia | done ].
        -- right. exists k, t'. split; [ done | ]. split; [ lia | ].
           split; [ done | ]. split; [ done | ]. split; [ | done ].
           intros j tj Hj Hlj. destruct (decide (j = i)) as [-> | Hne].
           ++ congruence.
           ++ apply (Hbefore j); [ lia | done ].
    + left. split; [ done | ]. split; [ done | ].
      intros j tj Hj Hlj.
      apply lookup_ge_None in Hi. apply lookup_lt_Some in Hlj. lia.
Qed.

Lemma soft_timer_create_effect m :
  let '(p, m') := soft_timer_create m in
  (p = NULL /\ m' = m
   /\ forall (j : nat) t, (j < SOFT_TIMER_MAX_TIMERS)%nat ->
        m_timers m !! j = Some t -> state t <> TIMER_STATE_FREE)
  \/ (exists (k : nat) t,
        p = Slot (Z.of_nat k) /\ (k < SOFT_TIMER_MAX_TIMERS)%nat
        /\ m_timers m !! k = Some t /\ state t = TIMER_STATE_FREE
        /\ (forall (j : nat) t', (j < k)%nat -> m_timers m !! j = Some t' ->
              state t' <> TIMER_STATE_FREE)
        /\ m' = set_m_timers
                  (<[k := set_state TIMER_STATE_STOPPED t]> (m_timers m)) m).
Proof.
  unfold soft_timer_create.
  pose proof (soft_timer_create_from_effect SOFT_TIMER_MAX_TIMERS 0 m) as H.
  destruct (soft_timer_create_from SOFT_TIMER_MAX_TIMERS 0 m) as [p m'].
  destruct H as [(-> & -> & Hnone) | (k & t & -> & Hk & Hlk & Hfr & Hbefore & ->)].
  - left. split; [ done | ]. split; [ done | ].
    intros j t Hj. apply Hnone. lia.
  - right. exists k, t. split; [ done | ]. split; [ lia | ].
    split; [ done | ]. split; [ done | ]. split; [ | done ].
    intros j t' Hj. apply Hbefore. lia.
Qed.

Lemma soft_timer_init_loop rest : forall pre h ini mx lg,
  foldl soft_timer_init_body
    {| m_timers := pre ++ rest; htim := h; m_is_initialized := ini;
       m_max_reload_ms := mx; calls := lg |}
    (seq (length pre) (length rest)) =
  {| m_timers := pre ++ init_slots (length pre) rest; htim := h;
     m_is_initialized := ini; m_max_reload_ms := mx; calls := lg |}.
Proof.
  induction rest as [ | t rest IH]; intros pre h ini mx lg.
  - cbn. by rewrite !app_nil_r.
  - cbn [length seq foldl init_slots].
    unfold soft_timer_init_body at 2. cbn [m_timers].
    rewrite list_lookup_middle by reflexivity.
    unfold set_m_timers. cbn [m_timers htim m_is_initialized
      m_max_reload_ms calls].
    rewrite insert_app_r_alt by lia. rewrite Nat.sub_diag. cbn [insert list_insert].
    set (t' := set_id _ _).
    replace (pre ++ t' :: rest) with ((pre ++ [t']) ++ rest)
      by (by rewrite <- app_assoc).
    replace (S (length pre)) with (length (pre ++ [t']))
      by (rewrite length_app; cbn; lia).
    rewrite IH. by rewrite <- !app_assoc.
Qed.

Lemma soft_timer_init_eq mx m :
  length (m_timers m) = SOFT_TIMER_MAX_TIMERS ->
  soft_timer_init mx m =
    if m_is_initialized m
    then set_m_max_reload_ms (utils.min mx (0xFFFFFFFF - 1)) m
    else {| m_timers := init_slots 0 (m_timers m);
            htim := __HAL_TIM_SET_AUTORELOAD (htim m)
                      (utils.min mx (0xFFFFFFFF - 1));
            m_is_initialized := true;
            m_max_reload_ms := utils.min mx (0xFFFFFFFF - 1);
            calls := calls m |}.
Proof.
  intros Hlen. unfold soft_timer_init.
  destruct m as [l h ini mx0 lg]. cbn [m_timers] in Hlen.
  cbn [set_m_max_reload_ms m_is_initialized m_timers htim m_max_reload_ms calls].
  destruct ini; [ reflexivity | ].
  rewrite <- Hlen.
  pose proof (soft_timer_init_loop l [] h false (utils.min mx (0xFFFFFFFF - 1)) lg) as E.
  cbn [app length] in E.
  change (set_m_max_reload_ms (utils.min mx (0xFFFFFFFF - 1))
            {| m_timers := l; htim := h; m_is_initialized := false;
               m_max_reload_ms := mx0; calls := lg |})
    with {| m_timers := l; htim := h; m_is_initialized := false;
            m_max_reload_ms := utils.min mx (0xFFFFFFFF - 1); calls := lg |}.
  rewrite E. reflexivity.
Qed.

Lemma length_init_slots k l : length (init_slots k l) = length l.
Proof.
  revert k. induction l as [ | t l IH]; intros k; cbn; [ | rewrite IH ]; done.
Qed.

Lemma lookup_init_slots k l (j : nat) :
  init_slots k l !! j =
  (fun t => set_id (Z.of_nat (k + j))
              (set_state TIMER_STATE_FREE (timer_stop t))) <$> (l !! j).
Proof.
  revert k j. induction l as [ | t l IH]; intros k j; [ done | ].
  destruct j as [ | j]; cbn.
  - by rewrite Nat.add_0_r.
  - rewrite IH. by replace (S k + j)%nat with (k + S j)%nat by lia.
Qed.

(** The shapes of the results of destroy, set, start and stop. *)
Lemma soft_timer_destroy_effect timer m :
  length (m_timers m) = SOFT_TIMER_MAX_TIMERS ->
  soft_timer_destroy timer m = (timer, m)
  \/ exists (i : nat) t,
       timer = Slot (Z.of_nat i) /\ (i < SOFT_TIMER_MAX_TIMERS)%nat
       /\ m_timers m !! i = Some t /\ state t = TIMER_STATE_STOPPED
       /\ soft_timer_destroy timer m =
            (NULL, set_m_timers
                     (<[i := set_state TIMER_STATE_FREE t]> (m_timers m)) m).
Proof.
  intros Hlen. unfold soft_timer_destroy.
  destruct (in_pool timer) eqn:Hin; [ | by left ].
  destruct (load timer m) as [t | ] eqn:Hl; [ | by left ].
  case_bool_decide as Hst; [ | by left ].
  right. apply load_Some in Hl as (i & -> & Hi).
  exists i, t. rewrite store_Slot. apply in_pool_Slot in Hin. done.
Qed.

Lemma soft_timer_set_effect timer cb reload rep m :
  length (m_timers m) = SOFT_TIMER_MAX_TIMERS ->
  (exists s, s <> SOFT_TIMER_STATUS_SUCCESS
             /\ soft_timer_set timer cb reload rep m = (s, m))
  \/ exists (i : nat) t,
       timer = Slot (Z.of_nat i) /\ (i < SOFT_TIMER_MAX_TIMERS)%nat
       /\ m_timers m !! i = Some t /\ state t = TIMER_STATE_STOPPED
       /\ 2 <= reload <= m_max_reload_ms m
       /\ soft_timer_set timer cb reload rep m =
            (SOFT_TIMER_STATUS_SUCCESS,
             set_m_timers
               (<[i := set_callback cb (set_repeat rep (set_reload_ms reload t))]>
                  (m_timers m)) m).
Proof.
  intros Hlen. unfold soft_timer_set.
  destruct (in_pool timer) eqn:Hin; cbn [negb];
    [ | rejected ].
  destruct (Z.leb_spec reload 1) as [ | H1]; cbn [orb];
    [ rejected | ].
  destruct (Z.ltb_spec (m_max_reload_ms m) reload) as [ | H2];
    [ rejected | ].
  destruct (load timer m) as [t | ] eqn:Hl;
    [ | rejected ].
  case_bool_decide as Hst; cbn [negb];
    [ | rejected ].
  right. apply load_Some in Hl as (i & -> & Hi).
  exists i, t. rewrite store_Slot. apply in_pool_Slot in Hin.
  split; [ done | ]. split; [ done | ]. split; [ done | ]. split; [ done | ].
  split; [ lia | done ].
Qed.

Lemma soft_timer_start_effect timer m :
  length (m_timers m) = SOFT_TIMER_MAX_TIMERS ->
  (exists s, s <> SOFT_TIMER_STATUS_SUCCESS
             /\ soft_timer_start timer m = (s, m))
  \/ exists (i : nat) t,
       timer = Slot (Z.of_nat i) /\ (i < SOFT_TIMER_MAX_TIMERS)%nat
       /\ m_timers m !! i = Some t /\ state t = TIMER_STATE_STOPPED
       /\ let m1 := timers_update (CNT (htim m)) m in
          m_timers m1 !! i = Some t
          /\ soft_timer_start timer m =
               (SOFT_TIMER_STATUS_SUCCESS,
                timers_update 0
                  (set_m_timers
                     (<[i := set_state TIMER_STATE_RUNNING
                               (set_countdown_ms (sub32 (reload_ms t) 1) t)]>
                        (m_timers m1)) m1)).
Proof.
  intros Hlen. unfold soft_timer_start.
  destruct (in_pool timer) eqn:Hin; cbn [negb];
    [ | rejected ].
  destruct (load timer m) as [t | ] eqn:Hl;
    [ | rejected ].
  case_bool_decide as Hst; cbn [negb];
    [ | rejected ].
  right. apply load_Some in Hl as (i & -> & Hi).
  exists i, t. apply in_pool_Slot in Hin.
  split; [ done | ]. split; [ done | ]. split; [ done | ]. split; [ done | ].
  cbn zeta. unfold hard_timer_counter_get, __HAL_TIM_GET_COUNTER.
  assert (H1 : m_timers (timers_update (CNT (htim m)) m) !! i = Some t).
  { rewrite m_timers_timers_update, lookup_step_slots, Hi by done. cbn.
    rewrite timer_step_not_running; [ done | congruence ]. }
  split; [ done | ].
  rewrite load_Slot, H1, store_Slot. reflexivity.
Qed.

Lemma soft_timer_stop_effect timer m :
  length (m_timers m) = SOFT_TIMER_MAX_TIMERS ->
  (exists s, s <> SOFT_TIMER_STATUS_SUCCESS
             /\ soft_timer_stop timer m = (s, m))
  \/ exists (i : nat) t,
       timer = Slot (Z.of_nat i) /\ (i < SOFT_TIMER_MAX_TIMERS)%nat
       /\ m_timers m !! i = Some t /\ state t = TIMER_STATE_RUNNING
       /\ soft_timer_stop timer m =
            (SOFT_TIMER_STATUS_SUCCESS,
             timers_update (CNT (htim m))
               (set_m_timers (<[i := timer_stop t]> (m_timers m)) m)).
Proof.
  intros Hlen. unfold soft_timer_stop.
  destruct (in_pool timer) eqn:Hin; cbn [negb];
    [ | rejected ].
  destruct (load timer m) as [t | ] eqn:Hl;
    [ | rejected ].
  case_bool_decide as Hst; cbn [negb];
    [ | rejected ].
  right. apply load_Some in Hl as (i & -> & Hi).
  exists i, t. apply in_pool_Slot in Hin.
  split; [ done | ]. split; [ done | ]. split; [ done | ]. split; [ done | ].
  rewrite store_Slot. reflexivity.
Qed.

(** ** Slot properties carried through the loops *)

Lemma Forall_step_slots (P Q : soft_timer -> Prop) k s l :
  (forall p t, P t -> Q (timer_step p t s).1) ->
  Forall P l -> Forall Q (step_slots k s l).
Proof.
  intros HPQ H. revert k. induction H as [ | t l Ht Hl IH]; intros k; cbn.
  - constructor.
  - constructor; [ by apply HPQ | apply IH ].
Qed.

Lemma Forall_init_slots (P Q : soft_timer -> Prop) k l :
  (forall i t,
     P t -> Q (set_id i (set_state TIMER_STATE_FREE (timer_stop t)))) ->
  Forall P l -> Forall Q (init_slots k l).
Proof.
  intros HQ H. revert k. induction H as [ | t l Ht Hl IH]; intros k; cbn.
  - constructor.
  - constructor; [ by apply HQ | apply IH ].
Qed.

Lemma reload_ms_timer_step p t s :
  reload_ms (timer_step p t s).1 = reload_ms t.
Proof.
  unfold timer_step.
  repeat (match goal with |- context [if ?b then _ else _] => destruct b end);
    reflexivity.
Qed.

(** ** The sentinel invariant, for every sequence of operations *)

Lemma sub32_range a b : 0 <= sub32 a b <= STOPPED_TIMER_COUNTDOWN_VALUE.
Proof.
  unfold sub32, uint32, STOPPED_TIMER_COUNTDOWN_VALUE.
  pose proof (Z.mod_pos_bound (a - b) (2 ^ 32) ltac:(lia)). lia.
Qed.

Lemma slot_bounded_timer_step p t s :
  slot_bounded t -> slot_bounded (timer_step p t s).1.
Proof.
  intros H. destruct (state_dec t) as [R | NR].
  - rewrite (timer_step_running _ _ _ R).
    destruct ((countdown_ms t =? 0) && negb (s =? 0)); [ done | ].
    cbn zeta. cbn [countdown_ms set_countdown_ms repeat reload_ms].
    pose proof (sub32_range (countdown_ms t) s).
    pose proof (sub32_range (reload_ms t) 1).
    unfold slot_bounded, idle_sentinel.
    destruct (negb (sub32 (countdown_ms t) s =? 0)); cbn;
      [ split; [ done | lia ] | ].
    destruct (repeat t); cbn;
      [ split; [ done | lia ] | split; [ done | ] ].
    unfold STOPPED_TIMER_COUNTDOWN_VALUE. lia.
  - by rewrite (timer_step_not_running _ _ _ NR).
Qed.

Lemma slot_bounded_idle t :
  state t <> TIMER_STATE_RUNNING ->
  countdown_ms t = STOPPED_TIMER_COUNTDOWN_VALUE -> slot_bounded t.
Proof. intros NR E. split; [ intros _; exact E | lia ]. Qed.

Lemma pool_idle_timers_update x m :
  pool_idle m -> pool_idle (timers_update x m).
Proof.
  intros [Hlen Hid]. split.
  - by apply length_timers_update.
  - rewrite m_timers_timers_update by done.
    eapply Forall_step_slots; [ | exact Hid ].
    intros p t. apply slot_bounded_timer_step.
Qed.

Lemma pool_idle_insert i t m :
  pool_idle m -> slot_bounded t ->
  pool_idle (set_m_timers (<[i := t]> (m_timers m)) m).
Proof.
  intros [Hlen Hid] Ht. split; cbn.
  - by rewrite length_insert.
  - by apply Forall_insert.
Qed.

Lemma pool_idle_lookup m (i : nat) t :
  pool_idle m -> m_timers m !! i = Some t -> slot_bounded t.
Proof.
  intros [_ Hid] Hi. rewrite list.Forall_forall in Hid. apply Hid.
  eapply list_elem_of_lookup_2. exact Hi.
Qed.

Lemma pool_idle_init mx m :
  length (m_timers m) = SOFT_TIMER_MAX_TIMERS ->
  (m_is_initialized m = true -> pool_idle m) ->
  pool_idle (soft_timer_init mx m).
Proof.
  intros Hlen Hini. rewrite soft_timer_init_eq by done.
  destruct (m_is_initialized m).
  - destruct (Hini eq_refl) as [? ?]. by split.
  - split; cbn.
    + by rewrite length_init_slots.
    + apply (Forall_init_slots (fun _ => True)).
      * intros i t _. apply slot_bounded_idle; [ discriminate | reflexivity ].
      * apply list.Forall_forall. done.
Qed.

Lemma pool_idle_step m op : pool_idle m -> pool_idle (step m op).
Proof.
  intros Hm. pose proof Hm as [Hlen Hid]. destruct op as
    [mx | | timer | timer cb reload rep | timer | timer | timer | | x | c];
    cbn [step].
  - apply pool_idle_init; done.
  - pose proof (soft_timer_create_effect m) as H.
    destruct (soft_timer_create m) as [p m'].
    destruct H as [(_ & -> & _) | (k & t & _ & _ & Hk & Hfree & _ & ->)];
      [ done | ].
    apply pool_idle_insert; [ done | ].
    destruct (pool_idle_lookup m k t Hm Hk) as [Ht _].
    apply slot_bounded_idle; cbn; [ discriminate | ]. apply Ht. congruence.
  - destruct (soft_timer_destroy_effect timer m Hlen)
      as [-> | (i & t & _ & _ & Hi & Hst & ->)]; [ done | ].
    apply pool_idle_insert; [ done | ].
    destruct (pool_idle_lookup m i t Hm Hi) as [Ht _].
    apply slot_bounded_idle; cbn; [ discriminate | ]. apply Ht. congruence.
  - destruct (soft_timer_set_effect timer cb reload rep m Hlen)
      as [(s & _ & ->) | (i & t & _ & _ & Hi & Hst & _ & ->)]; [ done | ].
    apply pool_idle_insert; [ done | ].
    destruct (pool_idle_lookup m i t Hm Hi) as [Ht _].
    apply slot_bounded_idle; cbn; [ congruence | ]. apply Ht. congruence.
  - destruct (soft_timer_start_effect timer m Hlen)
      as [(s & _ & ->) | (i & t & _ & _ & Hi & Hst & _ & ->)]; [ done | ].
    cbn [snd]. apply pool_idle_timers_update.
    apply pool_idle_insert; [ by apply pool_idle_timers_update | ].
    split; [ intros Hn; by cbn in Hn | ]. cbn.
    apply sub32_range.
  - destruct (soft_timer_stop_effect timer m Hlen)
      as [(s & _ & ->) | (i & t & _ & _ & Hi & Hst & ->)]; [ done | ].
    cbn [snd]. apply pool_idle_timers_update.
    apply pool_idle_insert; [ done | ].
    apply slot_bounded_idle; [ discriminate | reflexivity ].
  - done.
  - by apply pool_idle_timers_update.
  - by apply pool_idle_timers_update.
  - done.
Qed.

Lemma pool_idle_run ops : forall m, pool_idle m -> pool_idle (run m ops).
Proof.
  induction ops as [ | op ops IH]; intros m Hm; [ done | ].
  cbn. apply IH. by apply pool_idle_step.
Qed.

Lemma pool_idle_after_init mx tim :
  pool_idle (soft_timer_init mx (power_on tim)).
Proof. apply pool_idle_init; [ reflexivity | discriminate ]. Qed.

(** ** The module invariant, for the documented use on ideal hardware *)

Lemma next_timeout_bounds l :
  Forall slot_ok l ->
  let raw := min_countdown STOPPED_TIMER_COUNTDOWN_VALUE l in
  let v := if raw =? STOPPED_TIMER_COUNTDOWN_VALUE then 0 else raw in
  0 <= v
  /\ forall t, t ∈ l -> state t = TIMER_STATE_RUNNING -> v <= countdown_ms t.
Proof.
  intros Hok raw v.
  destruct (min_countdown_spec l STOPPED_TIMER_COUNTDOWN_VALUE
              (Forall_slot_ok_bounded l Hok) ltac:(lia))
    as (H1 & H2 & H3).
  fold raw in H1, H2, H3.
  assert (Hrun : forall t, t ∈ l -> state t = TIMER_STATE_RUNNING ->
                           0 <= countdown_ms t).
  { intros t Hin R. rewrite list.Forall_forall in Hok.
    destruct (Hok t Hin) as [_ Hr]. destruct (Hr R). lia. }
  unfold v. destruct (Z.eqb_spec raw STOPPED_TIMER_COUNTDOWN_VALUE) as [E | NE].
  - split; [ lia | ]. intros t Hin R. by apply Hrun.
  - split.
    + destruct H3 as [E | (t & Hin & R & <-)]; [ done | by apply Hrun ].
    + intros t Hin _. by apply H2.
Qed.

Lemma soft_timers_update_fst x m :
  length (m_timers m) = SOFT_TIMER_MAX_TIMERS ->
  (soft_timers_update x m).1 =
    let raw := min_countdown STOPPED_TIMER_COUNTDOWN_VALUE
                 (step_slots 0 (uint16 x) (m_timers m)) in
    if raw =? STOPPED_TIMER_COUNTDOWN_VALUE then 0 else raw.
Proof. intros Hlen. by rewrite soft_timers_update_eq. Qed.

Lemma uint16_0 : uint16 0 = 0.
Proof. reflexivity. Qed.

Lemma timers_update_ok x m :
  length (m_timers m) = SOFT_TIMER_MAX_TIMERS ->
  0 <= m_max_reload_ms m < 2 ^ 32 ->
  Forall (fun t => slot_ok t /\ 0 <= reload_ms t < 2 ^ 32
                   /\ step_fits (uint16 x) t) (m_timers m) ->
  module_ok (timers_update x m).
Proof.
  intros Hlen Hmax Hpool.
  rewrite timers_update_eq by done. cbn zeta.
  rewrite soft_timers_update_fst by done. cbn zeta.
  set (pool' := step_slots 0 (uint16 x) (m_timers m)).
  assert (Hok' : Forall (fun t => slot_ok t /\ 0 <= reload_ms t < 2 ^ 32) pool').
  { eapply Forall_step_slots; [ | exact Hpool ].
    intros p t (Hok & Hr & Hfit). cbn beta.
    rewrite reload_ms_timer_step. split; [ | done ].
    by apply timer_step_fits; [ | apply uint16_range | ]. }
  assert (Hslots : Forall slot_ok pool').
  { eapply list.Forall_impl; [ exact Hok' | ]. by intros t [? _]. }
  destruct (next_timeout_bounds pool' Hslots) as [Hv0 Hvle].
  cbn zeta in Hv0, Hvle.
  set (v := if _ =? _ then 0 else _) in *.
  unfold module_ok. cbn [m_timers htim m_max_reload_ms ARR CNT].
  rewrite utils_min_spec, uint16_0.
  split; [ unfold pool'; by rewrite length_step_slots | ].
  split; [ done | ]. split; [ lia | ].
  rewrite list.Forall_forall in Hok'. apply list.Forall_forall.
  intros t Hin. destruct (Hok' t Hin) as [Hok Hr].
  split; [ done | ]. split; [ done | ]. split.
  - intros R. destruct Hok as [_ Hk]. destruct (Hk R). lia.
  - intros R. specialize (Hvle t Hin R). lia.
Qed.

Lemma module_ok_lookup m (i : nat) t :
  module_ok m -> m_timers m !! i = Some t ->
  slot_inv (uint16 (CNT (htim m))) (ARR (htim m)) t.
Proof.
  intros (_ & _ & _ & H) Hi. rewrite list.Forall_forall in H. apply H.
  eapply list_elem_of_lookup_2. exact Hi.
Qed.

Lemma module_ok_insert i t m :
  module_ok m -> slot_inv (uint16 (CNT (htim m))) (ARR (htim m)) t ->
  module_ok (set_m_timers (<[i := t]> (m_timers m)) m).
Proof.
  intros (Hlen & Hmax & Harr & H) Ht. unfold module_ok. cbn.
  rewrite length_insert. repeat split; try done; try lia.
  by apply Forall_insert.
Qed.

Lemma slot_inv_idle c a t :
  state t <> TIMER_STATE_RUNNING ->
  countdown_ms t = STOPPED_TIMER_COUNTDOWN_VALUE ->
  0 <= reload_ms t < 2 ^ 32 -> slot_inv c a t.
Proof.
  intros NR Hc Hr. split; [ split; [ done | done ] | ].
  split; [ done | ]. split; intros R; contradiction.
Qed.

Lemma module_ok_fits m :
  module_ok m ->
  Forall (fun t => slot_ok t /\ 0 <= reload_ms t < 2 ^ 32
                   /\ step_fits (uint16 (CNT (htim m))) t) (m_timers m).
Proof.
  intros (_ & _ & _ & H). eapply list.Forall_impl; [ exact H | ].
  intros t (? & ? & ? & ?). done.
Qed.

Lemma utils_min_cap mx : 0 <= mx -> 0 <= utils.min mx (0xFFFFFFFF - 1) < 2 ^ 32.
Proof. intros H. rewrite utils_min_spec. lia. Qed.

Lemma module_ok_init mx m :
  0 <= mx ->
  length (m_timers m) = SOFT_TIMER_MAX_TIMERS ->
  Forall (fun t => 0 <= reload_ms t < 2 ^ 32) (m_timers m) ->
  (m_is_initialized m = true -> module_ok m) ->
  module_ok (soft_timer_init mx m).
Proof.
  intros Hmx Hlen Hr Hini. rewrite soft_timer_init_eq by done.
  pose proof (utils_min_cap mx Hmx) as Hcap.
  destruct (m_is_initialized m).
  - destruct (Hini eq_refl) as (? & ? & ? & ?). unfold module_ok.
    cbn [set_m_max_reload_ms m_timers htim m_max_reload_ms].
    split; [ done | ]. split; [ exact Hcap | ]. split; done.
  - unfold module_ok. cbn [m_timers htim m_max_reload_ms ARR CNT
      __HAL_TIM_SET_AUTORELOAD].
    rewrite length_init_slots.
    split; [ done | ]. split; [ done | ]. split; [ lia | ].
    eapply Forall_init_slots; [ | exact Hr ].
    intros i t Ht. apply slot_inv_idle; [ discriminate | reflexivity | exact Ht ].
Qed.

Lemma module_ok_steps m s :
  module_ok m ->
  (forall t, slot_inv (uint16 (CNT (htim m))) (ARR (htim m)) t ->
             step_fits s t) ->
  Forall (fun t => slot_ok t /\ 0 <= reload_ms t < 2 ^ 32 /\ step_fits s t)
    (m_timers m).
Proof.
  intros (_ & _ & _ & H) Hs. eapply list.Forall_impl; [ exact H | ].
  intros t Ht. pose proof (Hs t Ht). destruct Ht as (? & ? & ? & ?). done.
Qed.

Lemma slot_inv_zero_fits c a t : slot_inv c a t -> step_fits 0 t.
Proof. intros ([_ Hr] & _) R. destruct (Hr R). lia. Qed.

Lemma uint16_idem x : uint16 (uint16 x) = uint16 x.
Proof. apply uint16_small, uint16_range. Qed.

Lemma forallb_fitsb s l :
  forallb (fitsb s) l = true -> Forall (step_fits s) l.
Proof.
  intros H. apply list.Forall_forall. intros t Hin R.
  rewrite forallb_forall in H. apply list_elem_of_In in Hin.
  specialize (H t Hin). unfold fitsb in H.
  rewrite bool_decide_eq_true_2 in H by done. cbn in H. lia.
Qed.

(** Every allowed operation keeps the module invariant. *)
Lemma module_ok_step m op :
  module_ok m -> allowed m op = true -> module_ok (step m op).
Proof.
  intros Hm Hal. pose proof Hm as (Hlen & Hmax & Harr & Hpool).
  destruct op as
    [mx | | timer | timer cb reload rep | timer | timer | timer | | x | c];
    cbn [step allowed] in *.
  - apply andb_true_iff in Hal as [H0 _]. apply Z.leb_le in H0.
    apply module_ok_init; [ done | done | | done ].
    eapply list.Forall_impl; [ exact Hpool | ]. by intros t (_ & ? & _).
  - pose proof (soft_timer_create_effect m) as H.
    destruct (soft_timer_create m) as [p m'].
    destruct H as [(_ & -> & _) | (k & t & _ & _ & Hk & Hfree & _ & ->)];
      [ done | ].
    apply module_ok_insert; [ done | ].
    destruct (module_ok_lookup m k t Hm Hk) as ([Hid _] & Hr & _).
    apply slot_inv_idle; cbn; [ discriminate | | done ].
    apply Hid. congruence.
  - destruct (soft_timer_destroy_effect timer m Hlen)
      as [-> | (i & t & _ & _ & Hi & Hst & ->)]; [ done | ].
    apply module_ok_insert; [ done | ].
    destruct (module_ok_lookup m i t Hm Hi) as ([Hid _] & Hr & _).
    apply slot_inv_idle; cbn; [ discriminate | | done ].
    apply Hid. congruence.
  - destruct (soft_timer_set_effect timer cb reload rep m Hlen)
      as [(s & _ & ->) | (i & t & _ & _ & Hi & Hst & Hrl & ->)]; [ done | ].
    apply module_ok_insert; [ done | ].
    destruct (module_ok_lookup m i t Hm Hi) as ([Hid _] & Hr & _).
    apply slot_inv_idle; cbn; [ congruence | | lia ].
    apply Hid. congruence.
  - destruct (soft_timer_start_effect timer m Hlen)
      as [(s & _ & ->) | (i & t & -> & _ & Hi & Hst & H1 & ->)]; [ done | ].
    cbn [snd]. rewrite load_Slot, Hi in Hal.
    unfold configured in Hal. apply Z.leb_le in Hal.
    set (m1 := timers_update (CNT (htim m)) m) in *.
    assert (Hm1 : module_ok m1).
    { apply timers_update_ok; [ done | done | by apply module_ok_fits ]. }
    destruct (module_ok_lookup m i t Hm Hi) as (_ & Hr & _).
    pose proof Hm1 as (Hlen1 & Hmax1 & _ & _).
    apply timers_update_ok; cbn [set_m_timers m_timers m_max_reload_ms].
    + by rewrite length_insert.
    + done.
    + rewrite uint16_0. apply Forall_insert.
      * apply module_ok_steps; [ done | ].
        intros t'. apply slot_inv_zero_fits.
      * assert (E : sub32 (reload_ms t) 1 = reload_ms t - 1)
          by (apply sub32_small; lia).
        unfold slot_ok, step_fits. cbn. rewrite E.
        split; [ split; [ done | intros _; lia ] | ].
        split; [ done | ]. intros _. lia.
  - destruct (soft_timer_stop_effect timer m Hlen)
      as [(s & _ & ->) | (i & t & _ & _ & Hi & Hst & ->)]; [ done | ].
    cbn [snd].
    destruct (module_ok_lookup m i t Hm Hi) as (_ & Hr & _).
    assert (Hm1 : module_ok (set_m_timers (<[i := timer_stop t]> (m_timers m)) m)).
    { apply module_ok_insert; [ done | ].
      apply slot_inv_idle; cbn; [ discriminate | reflexivity | done ]. }
    pose proof Hm1 as (Hlen1 & Hmax1 & _ & _).
    apply timers_update_ok; [ done | done | ].
    apply (module_ok_fits _ Hm1).
  - done.
  - unfold soft_timer_period_elapsed_callback, hard_timer_reload_get,
      __HAL_TIM_GET_AUTORELOAD.
    apply timers_update_ok; [ done | done | ].
    apply module_ok_steps; [ done | ].
    intros t (_ & _ & _ & Ha) R. specialize (Ha R).
    rewrite uint16_idem. pose proof (uint16_le (ARR (htim m)) Harr). lia.
  - apply timers_update_ok; [ done | done | ].
    apply forallb_fitsb in Hal.
    rewrite list.Forall_forall in Hal, Hpool. apply list.Forall_forall.
    intros t Hin. destruct (Hpool t Hin) as (? & ? & _).
    split; [ done | ]. split; [ done | ]. by apply Hal.
  - apply andb_true_iff in Hal as [H0 H1].
    apply Z.leb_le in H0. apply Z.leb_le in H1.
    unfold module_ok, hard_timer_count. cbn.
    split; [ done | ]. split; [ done | ]. split; [ done | ].
    eapply list.Forall_impl; [ exact Hpool | ].
    intros t (? & ? & _ & Ha). split; [ done | ]. split; [ done | ].
    split; [ | done ]. intros R. specialize (Ha R).
    pose proof (uint16_le c H0). lia.
Qed.

Lemma module_ok_after_init mx tim :
  0 <= mx -> module_ok (soft_timer_init mx (power_on tim)).
Proof.
  intros Hmx. apply module_ok_init; [ done | reflexivity | | discriminate ].
  unfold power_on. cbn [m_timers]. apply Forall_replicate. cbn. lia.
Qed.

Lemma module_ok_run ops : forall m,
  module_ok m -> run_allowed m ops = true -> module_ok (run m ops).
Proof.
  induction ops as [ | op ops IH]; intros m Hm Hal; [ done | ].
  cbn in *. apply andb_true_iff in Hal as [H1 H2].
  apply IH; [ by apply module_ok_step | done ].
Qed.

(** ** Start of a configured, stopped timer *)

Lemma soft_timer_start_stopped (k : nat) tk m :
  length (m_timers m) = SOFT_TIMER_MAX_TIMERS ->
  (k < SOFT_TIMER_MAX_TIMERS)%nat ->
  m_timers m !! k = Some tk ->
  state tk = TIMER_STATE_STOPPED ->
  2 <= reload_ms tk < 2 ^ 32 ->
  let m1 := timers_update (CNT (htim m)) m in
  let t2 := set_state TIMER_STATE_RUNNING
              (set_countdown_ms (reload_ms tk - 1) tk) in
  let m2 := set_m_timers (<[k := t2]> (m_timers m1)) m1 in
  soft_timer_start (Slot (Z.of_nat k)) m
    = (SOFT_TIMER_STATUS_SUCCESS, timers_update 0 m2)
  /\ timer_step (Slot (Z.of_nat k)) t2 0 = (t2, [])
  /\ m_timers (timers_update 0 m2) !! k = Some t2
  /\ calls (timers_update 0 m2) =
       (calls m ++ step_calls 0 (uint16 (CNT (htim m))) (m_timers m))
       ++ step_calls 0 0 (<[k := t2]> (m_timers m1)).
Proof.
  intros Hlen Hk Hi Hst Hr m1 t2 m2.
  assert (Hlen1 : length (m_timers m1) = SOFT_TIMER_MAX_TIMERS)
    by (by apply length_timers_update).
  assert (Hlen2 : length (m_timers m2) = SOFT_TIMER_MAX_TIMERS)
    by (cbn; by rewrite length_insert).
  assert (E : sub32 (reload_ms tk) 1 = reload_ms tk - 1)
    by (apply sub32_small; lia).
  assert (Hstep : timer_step (Slot (Z.of_nat k)) t2 0 = (t2, [])).
  { rewrite timer_step_running by reflexivity.
    cbn [countdown_ms set_countdown_ms set_state t2].
    rewrite andb_false_r. cbn zeta. cbn [countdown_ms set_countdown_ms].
    rewrite sub32_small, Z.sub_0_r by lia.
    destruct (Z.eqb_spec (reload_ms tk - 1) 0) as [ | _]; [ lia | ].
    reflexivity. }
  split.
  - destruct (soft_timer_start_effect (Slot (Z.of_nat k)) m Hlen)
      as [(s & Hs & Es) | (i & t & Ei & _ & Hi' & _ & _ & Es)].
    + exfalso. unfold soft_timer_start in Es.
      rewrite (proj2 (in_pool_Slot k) Hk), load_Slot, Hi in Es.
      rewrite bool_decide_eq_true_2 in Es by done. cbn [negb] in Es.
      change (timers_update (hard_timer_counter_get m) m) with m1 in Es.
      destruct (in_pool_load (Slot (Z.of_nat k)) m1 Hlen1
                  (proj2 (in_pool_Slot k) Hk)) as [t' Ht'].
      rewrite Ht' in Es. injection Es as <- _. by apply Hs.
    + injection Ei as Ei. apply Nat2Z.inj in Ei. subst i.
      rewrite Hi in Hi'. injection Hi' as <-.
      cbn zeta in Es. rewrite E in Es. exact Es.
  - split; [ exact Hstep | ]. split.
    + rewrite m_timers_timers_update, lookup_step_slots by done.
      cbn [m_timers set_m_timers m2].
      rewrite list_lookup_insert_eq by lia. cbn.
      rewrite uint16_0, Hstep. reflexivity.
    + rewrite timers_update_eq by done. cbn [calls m2 set_m_timers m_timers].
      unfold m1. rewrite timers_update_eq by done. cbn [calls].
      rewrite uint16_0. reflexivity.
Qed.

(** ** How one operation moves a countdown *)

Lemma countdown_step_refl t : countdown_step t t.
Proof. intros R. left. split; [ done | lia ]. Qed.

Lemma countdown_step_timer_step p t s :
  slot_ok t -> 0 <= s -> step_fits s t ->
  countdown_step t (timer_step p t s).1.
Proof.
  intros Hok Hs Hfit R.
  destruct (timer_step_fits p t s Hok Hs Hfit) as (_ & _ & H).
  destruct (H R) as [Rt [Hle | He]]; [ left | right ]; done.
Qed.

(** A step of 0 ms keeps the countdown of a Running slot, or reloads it. *)
Lemma timer_step_zero p t :
  slot_ok t ->
  let t' := (timer_step p t 0).1 in
  state t' = TIMER_STATE_RUNNING ->
  state t = TIMER_STATE_RUNNING
  /\ (countdown_ms t' = countdown_ms t
      \/ countdown_ms t' = reload_ms t' - 1).
Proof.
  intros [_ Hrun]. destruct (state_dec t) as [R | NR].
  - rewrite (timer_step_running _ _ _ R).
    destruct (Hrun R) as [Hc Hr].
    rewrite andb_false_r. cbn zeta.
    cbn [countdown_ms set_countdown_ms repeat reload_ms].
    rewrite sub32_small by lia. rewrite Z.sub_0_r.
    destruct (Z.eqb_spec (countdown_ms t) 0) as [E | NE]; cbn [negb].
    + destruct (repeat t); cbn.
      * rewrite sub32_small by lia. intros _. split; [ done | by right ].
      * discriminate.
    + cbn. intros _. split; [ done | by left ].
  - rewrite (timer_step_not_running _ _ _ NR). cbn. intros; contradiction.
Qed.

(** The two updates of [soft_timer_start], slot by slot. *)
Lemma countdown_step_start m (k : nat) tk :
  module_ok m ->
  (k < SOFT_TIMER_MAX_TIMERS)%nat ->
  m_timers m !! k = Some tk ->
  state tk = TIMER_STATE_STOPPED ->
  2 <= reload_ms tk ->
  forall (i : nat) t t',
    m_timers m !! i = Some t ->
    m_timers (soft_timer_start (Slot (Z.of_nat k)) m).2 !! i = Some t' ->
    countdown_step t t'.
Proof.
  intros Hm Hklt Hk Hst Hcfg i t t' Hi Hi'.
  pose proof Hm as (Hlen & Hmax & Harr & Hpool).
  destruct (module_ok_lookup m k tk Hm Hk) as (_ & Hrk & _).
  destruct (module_ok_lookup m i t Hm Hi) as (Hok & _ & Hc & _).
  destruct (soft_timer_start_stopped k tk m Hlen Hklt Hk Hst ltac:(lia))
    as (Es & Hstep & Hlk & _).
  revert Hi'. rewrite Es. cbn [snd]. intros Hi'. clear Es.
  assert (Hm1 : module_ok (timers_update (CNT (htim m)) m)).
  { apply timers_update_ok; [ done | done | by apply module_ok_fits ]. }
  destruct (decide (i = k)) as [-> | Hne].
  - rewrite Hlk in Hi'. injection Hi' as <-.
    intros _. right. reflexivity.
  - clear Hlk.
    rewrite m_timers_timers_update in Hi'
      by (cbn [set_m_timers m_timers]; rewrite length_insert;
          by apply length_timers_update).
    cbn [set_m_timers m_timers] in Hi'.
    rewrite lookup_step_slots, uint16_0 in Hi'.
    rewrite list_lookup_insert_ne in Hi' by done.
    destruct (m_timers (timers_update (CNT (htim m)) m) !! i) as [t2 | ] eqn:H2;
      [ | discriminate ].
    injection Hi' as <-.
    destruct (module_ok_lookup _ i t2 Hm1 H2) as (Hok2 & _).
    rewrite m_timers_timers_update, lookup_step_slots, Hi in H2 by done.
    injection H2 as E2.
    assert (Hc1 : countdown_step t t2).
    { rewrite <- E2.
      apply countdown_step_timer_step; [ done | apply uint16_range | done ]. }
    pose proof (timer_step_zero (Slot (Z.of_nat i)) t2 Hok2) as Hz.
    pose proof (reload_ms_timer_step (Slot (Z.of_nat i)) t2 0) as Hrl.
    cbn zeta in Hz.
    change (countdown_step t (timer_step (Slot (Z.of_nat i)) t2 0).1).
    generalize dependent (timer_step (Slot (Z.of_nat i)) t2 0).1.
    intros t3 Hz Hrl R. destruct (Hz R) as [R2 Hcd].
    destruct (Hc1 R2) as [[Rt Hle] | Heq].
    + destruct Hcd as [E3 | E3]; [ left; split; [ done | lia ] | by right ].
    + right. destruct Hcd as [E3 | E3]; [ | done ]. lia.
Qed.

Lemma countdown_step_op m op :
  module_ok m -> allowed m op = true ->
  forall (i : nat) t t',
    m_timers m !! i = Some t -> m_timers (step m op) !! i = Some t' ->
    countdown_step t t'.
Proof.
  intros Hm Hal i t t' Hi Hi'. pose proof Hm as (Hlen & Hmax & Harr & Hpool).
  destruct (module_ok_lookup m i t Hm Hi) as (Hok & Hr & Hc & Ha).
  assert (Hsame : forall m', m_timers m' = m_timers m ->
                    m_timers m' !! i = Some t' -> countdown_step t t').
  { intros m' E H. rewrite E, Hi in H. injection H as <-.
    apply countdown_step_refl. }
  assert (Hins : forall k tk, state tk <> TIMER_STATE_RUNNING ->
                   <[k := tk]> (m_timers m) !! i = Some t' ->
                   countdown_step t t').
  { intros k tk Hk H. apply list_lookup_insert_Some in H
      as [(_ & <- & _) | (_ & H)].
    - intros R. contradiction.
    - rewrite Hi in H. injection H as <-. apply countdown_step_refl. }
  assert (Hupd : forall x, step_fits (uint16 x) t ->
                   m_timers (timers_update x m) !! i = Some t' ->
                   countdown_step t t').
  { intros x Hfit H.
    rewrite m_timers_timers_update, lookup_step_slots, Hi in H by done.
    injection H as <-.
    apply countdown_step_timer_step; [ done | apply uint16_range | done ]. }
  destruct op as
    [mx | | timer | timer cb reload rep | timer | timer | timer | | x | c];
    cbn [step allowed] in *.
  - rewrite soft_timer_init_eq in Hi' by done.
    destruct (m_is_initialized m).
    + by apply (Hsame _ eq_refl).
    + cbn [m_timers] in Hi'. rewrite lookup_init_slots, Hi in Hi'.
      injection Hi' as <-. intros R. discriminate R.
  - pose proof (soft_timer_create_effect m) as H.
    destruct (soft_timer_create m) as [p m'].
    destruct H as [(_ & -> & _) | (k & tk & _ & _ & Hk & Hfree & _ & ->)].
    + by apply (Hsame _ eq_refl).
    + apply (Hins k (set_state TIMER_STATE_STOPPED tk)); [ discriminate | done ].
  - destruct (soft_timer_destroy_effect timer m Hlen)
      as [E | (k & tk & _ & _ & Hk & Hst & E)]; rewrite E in Hi'.
    + by apply (Hsame _ eq_refl).
    + apply (Hins k (set_state TIMER_STATE_FREE tk)); [ discriminate | done ].
  - destruct (soft_timer_set_effect timer cb reload rep m Hlen)
      as [(s & _ & E) | (k & tk & _ & _ & Hk & Hst & _ & E)]; rewrite E in Hi'.
    + by apply (Hsame _ eq_refl).
    + eapply (Hins k); [ | exact Hi' ]. cbn. congruence.
  - destruct (soft_timer_start_effect timer m Hlen)
      as [(s & _ & E) | (k & tk & -> & Hklt & Hk & Hst & _ & _)].
    + rewrite E in Hi'. by apply (Hsame _ eq_refl).
    + rewrite load_Slot, Hk in Hal.
      unfold configured in Hal. apply Z.leb_le in Hal.
      by apply (countdown_step_start m k tk Hm Hklt Hk Hst Hal i t t').
  - destruct (soft_timer_stop_effect timer m Hlen)
      as [(s & _ & E) | (k & tk & _ & _ & Hk & Hst & E)]; rewrite E in Hi'.
    + by apply (Hsame _ eq_refl).
    + cbn [snd] in Hi'.
      rewrite m_timers_timers_update in Hi'
        by (cbn; by rewrite length_insert).
      cbn [set_m_timers m_timers] in Hi'. rewrite lookup_step_slots in Hi'.
      destruct (<[k := _]> (m_timers m) !! i) as [t2 | ] eqn:H2;
        [ | discriminate ].
      injection Hi' as <-.
      apply list_lookup_insert_Some in H2 as [(_ & <- & _) | (_ & H2)].
      * rewrite timer_step_not_running by discriminate.
        intros R. discriminate R.
      * rewrite Hi in H2. injection H2 as <-.
        apply countdown_step_timer_step; [ done | apply uint16_range | done ].
  - by apply (Hsame _ eq_refl).
  - apply (Hupd (uint16 (hard_timer_reload_get m))); [ | done ].
    unfold hard_timer_reload_get, __HAL_TIM_GET_AUTORELOAD.
    intros R. specialize (Ha R). rewrite uint16_idem.
    pose proof (uint16_le (ARR (htim m)) Harr). lia.
  - apply (Hupd x); [ | done ].
    apply forallb_fitsb in Hal. rewrite list.Forall_forall in Hal.
    apply Hal. eapply list_elem_of_lookup_2. exact Hi.
  - by apply (Hsame _ eq_refl).
Qed.

(** ** The invariants of operation sequences *)

(** C10 as stated fails in its last part: the sentinel is not reserved to
    slots that are not Running.  After [soft_timer_init],
    [soft_timer_create] and a [soft_timer_start] without [soft_timer_set],
    slot 0 is Running with countdown [0 - 1 = 0xFFFFFFFF], so the minimum
    over all slots is the sentinel while a slot is Running. *)
Lemma sentinel_minimum_with_running_slot :
  let m := run (soft_timer_init 0xFFFF (power_on tim0))
             [Create; Start (Slot 0)] in
  let raw := min_countdown STOPPED_TIMER_COUNTDOWN_VALUE (m_timers m) in
  m_timers m !! 0%nat =
    Some {| state := TIMER_STATE_RUNNING; id := 0; reload_ms := 0;
            countdown_ms := STOPPED_TIMER_COUNTDOWN_VALUE; repeat := false;
            callback := None |}
  /\ raw = STOPPED_TIMER_COUNTDOWN_VALUE
  /\ ~ (raw = STOPPED_TIMER_COUNTDOWN_VALUE ->
        forall t, t ∈ m_timers m -> state t <> TIMER_STATE_RUNNING).
Proof.
  cbv zeta.
  assert (Hl : m_timers (run (soft_timer_init 0xFFFF (power_on tim0))
                           [Create; Start (Slot 0)]) !! 0%nat =
               Some {| state := TIMER_STATE_RUNNING; id := 0; reload_ms := 0;
                       countdown_ms := STOPPED_TIMER_COUNTDOWN_VALUE;
                       repeat := false; callback := None |})
    by (vm_compute; reflexivity).
  assert (Hr : min_countdown STOPPED_TIMER_COUNTDOWN_VALUE
                 (m_timers (run (soft_timer_init 0xFFFF (power_on tim0))
                              [Create; Start (Slot 0)]))
               = STOPPED_TIMER_COUNTDOWN_VALUE)
    by (vm_compute; reflexivity).
  split; [ exact Hl | ]. split; [ exact Hr | ].
  intros H. apply list_elem_of_lookup_2 in Hl.
  exact (H Hr _ Hl eq_refl).
Qed.

(** C10, amended.  After [soft_timer_init], in every state reached by any
    sequence of operations (public calls with any arguments, expiry
    notifications, advances, counter values), every slot that is not
    Running holds the sentinel 0xFFFFFFFF; hence the minimum that
    [soft_timers_update] takes over the countdowns of all slots is the
    minimum over the Running slots whenever a slot is Running, and is the
    sentinel when none is.  When moreover every timer was started after a
    successful [soft_timer_set] and no advance or counter value exceeded
    the countdown of a Running slot, the sentinel arises only when no slot
    is Running. *)
Theorem sentinel_invariant (tim : TIM_HandleTypeDef) (mx : Z)
    (ops : list operation) :
  let m0 := soft_timer_init mx (power_on tim) in
  let m := run m0 ops in
  let raw := min_countdown STOPPED_TIMER_COUNTDOWN_VALUE (m_timers m) in
  (forall (i : nat) t, m_timers m !! i = Some t ->
     state t <> TIMER_STATE_RUNNING ->
     countdown_ms t = STOPPED_TIMER_COUNTDOWN_VALUE)
  /\ ((exists t, t ∈ m_timers m /\ state t = TIMER_STATE_RUNNING) ->
      is_min_running raw (m_timers m))
  /\ ((forall t, t ∈ m_timers m -> state t <> TIMER_STATE_RUNNING) ->
      raw = STOPPED_TIMER_COUNTDOWN_VALUE)
  /\ (0 <= mx < 2 ^ 32 -> run_allowed m0 ops = true ->
      raw = STOPPED_TIMER_COUNTDOWN_VALUE ->
      forall t, t ∈ m_timers m -> state t <> TIMER_STATE_RUNNING).
Proof.
  intros m0 m raw.
  assert (Hidle : pool_idle m)
    by (apply pool_idle_run, pool_idle_after_init).
  destruct Hidle as [Hlen Hb].
  destruct (min_countdown_spec (m_timers m) STOPPED_TIMER_COUNTDOWN_VALUE
              Hb ltac:(lia)) as (H1 & H2 & H3).
  fold raw in H1, H2, H3.
  split; [ | split; [ | split ] ].
  - intros i t Hi NR. rewrite list.Forall_forall in Hb.
    apply (Hb t); [ | done ]. eapply list_elem_of_lookup_2. exact Hi.
  - intros (t0 & Hin0 & R0). split; [ | intros t Hin _; by apply H2 ].
    destruct H3 as [E | H3]; [ | exact H3 ].
    exists t0. split; [ done | ]. split; [ done | ].
    rewrite list.Forall_forall in Hb. destruct (Hb t0 Hin0) as [_ Hle].
    specialize (H2 t0 Hin0). lia.
  - intros Hnone. destruct H3 as [E | (t & Hin & R & _)]; [ done | ].
    exfalso. by apply (Hnone t).
  - intros Hmx Hal E t Hin R.
    assert (Hm : module_ok m).
    { apply module_ok_run; [ apply module_ok_after_init; lia | done ]. }
    destruct Hm as (_ & _ & _ & Hpool).
    rewrite list.Forall_forall in Hpool.
    destruct (Hpool t Hin) as (Hok & _).
    pose proof (slot_ok_running_below t Hok R).
    specialize (H2 t Hin). lia.
Qed.

Lemma sentinel_invariant_witness :
  min_countdown STOPPED_TIMER_COUNTDOWN_VALUE
    (m_timers
       (run (soft_timer_init 0xFFFF (power_on tim0))
          [Create; Configure (Slot 0) (Some 7%nat) 10 false; Start (Slot 0)]))
  <> STOPPED_TIMER_COUNTDOWN_VALUE.
Proof.
  intros E.
  assert (Hl : m_timers
                 (run (soft_timer_init 0xFFFF (power_on tim0))
                    [Create; Configure (Slot 0) (Some 7%nat) 10 false;
                     Start (Slot 0)]) !! 0%nat =
               Some {| state := TIMER_STATE_RUNNING; id := 0; reload_ms := 10;
                       countdown_ms := 9; repeat := false;
                       callback := Some 7%nat |})
    by (vm_compute; reflexivity).
  assert (Hal : run_allowed (soft_timer_init 0xFFFF (power_on tim0))
                  [Create; Configure (Slot 0) (Some 7%nat) 10 false;
                   Start (Slot 0)] = true)
    by (vm_compute; reflexivity).
  assert (Hmx : 0 <= 0xFFFF < 2 ^ 32) by lia.
  pose proof (sentinel_invariant tim0 0xFFFF
                [Create; Configure (Slot 0) (Some 7%nat) 10 false;
                 Start (Slot 0)]) as (_ & _ & _ & H).
  apply list_elem_of_lookup_2 in Hl.
  exact (H Hmx Hal E _ Hl eq_refl).
Defined.

(** C6 as stated fails: an advance larger than the countdown of a Running
    slot wraps the countdown around.  Timer 0 has period 10 and countdown 9;
    after an advance of 12 ms its countdown is 2^32 - 3, which is above the
    reload value and above the countdown before, and no callback ran. *)
Lemma overshoot_breaks_countdown_bound :
  let m := one_shot_started in
  let m' := step m (Advance 12) in
  m_timers m !! 0%nat =
    Some {| state := TIMER_STATE_RUNNING; id := 0; reload_ms := 10;
            countdown_ms := 9; repeat := false; callback := Some 7%nat |}
  /\ m_timers m' !! 0%nat =
       Some {| state := TIMER_STATE_RUNNING; id := 0; reload_ms := 10;
               countdown_ms := 4294967293; repeat := false;
               callback := Some 7%nat |}
  /\ calls m' = []
  /\ ~ (forall (i : nat) t, m_timers m' !! i = Some t ->
          state t = TIMER_STATE_RUNNING -> countdown_ms t < reload_ms t).
Proof.
  assert (H0 : m_timers one_shot_started !! 0%nat =
    Some {| state := TIMER_STATE_RUNNING; id := 0; reload_ms := 10;
            countdown_ms := 9; repeat := false; callback := Some 7%nat |})
    by (vm_compute; reflexivity).
  assert (H1 : m_timers (step one_shot_started (Advance 12)) !! 0%nat =
       Some {| state := TIMER_STATE_RUNNING; id := 0; reload_ms := 10;
               countdown_ms := 4294967293; repeat := false;
               callback := Some 7%nat |})
    by (vm_compute; reflexivity).
  assert (H2 : calls (step one_shot_started (Advance 12)) = [])
    by (vm_compute; reflexivity).
  cbv zeta. split; [ exact H0 | ]. split; [ exact H1 | ]. split; [ exact H2 | ].
  intros H. specialize (H 0%nat _ H1 eq_refl). cbn in H. lia.
Qed.

(** C6, amended.  In every state reached from [soft_timer_init] by
    operations of the documented use (timers started after a successful
    [soft_timer_set]; every advance, and the hardware counter, at most the
    countdown of each Running slot), the countdown of every Running slot is
    below its reload value; across one more such operation the countdown of
    a slot that is Running afterwards did not increase unless it is now
    [reload_ms - 1]; and a successful start leaves the started slot Running
    with countdown [reload_ms - 1]. *)
Theorem countdown_invariant (tim : TIM_HandleTypeDef) (mx : Z)
    (ops : list operation) (op : operation) :
  let m0 := soft_timer_init mx (power_on tim) in
  let m := run m0 ops in
  let m' := step m op in
  0 <= mx < 2 ^ 32 ->
  run_allowed m0 ops = true ->
  allowed m op = true ->
  (forall (i : nat) t, m_timers m !! i = Some t ->
     state t = TIMER_STATE_RUNNING -> 0 <= countdown_ms t < reload_ms t)
  /\ (forall (i : nat) t t',
        m_timers m !! i = Some t -> m_timers m' !! i = Some t' ->
        state t' = TIMER_STATE_RUNNING ->
        0 <= countdown_ms t' < reload_ms t'
        /\ ((state t = TIMER_STATE_RUNNING
             /\ countdown_ms t' <= countdown_ms t)
            \/ countdown_ms t' = reload_ms t' - 1))
  /\ (forall timer, op = Start timer ->
        (soft_timer_start timer m).1 = SOFT_TIMER_STATUS_SUCCESS ->
        exists (i : nat) t',
          timer = Slot (Z.of_nat i) /\ m_timers m' !! i = Some t'
          /\ state t' = TIMER_STATE_RUNNING
          /\ countdown_ms t' = reload_ms t' - 1).
Proof.
  intros m0 m m' Hmx Hal Hop.
  assert (Hm : module_ok m).
  { apply module_ok_run; [ apply module_ok_after_init; lia | done ]. }
  assert (Hm' : module_ok m') by (by apply module_ok_step).
  split; [ | split ].
  - intros i t Hi R.
    destruct (module_ok_lookup m i t Hm Hi) as ([_ Hr] & _).
    by destruct (Hr R).
  - intros i t t' Hi Hi' R. split.
    + destruct (module_ok_lookup m' i t' Hm' Hi') as ([_ Hr] & _).
      by destruct (Hr R).
    + by apply (countdown_step_op m op Hm Hop i t t').
  - intros timer -> Hs. cbn [allowed] in Hop. subst m'. cbn [step].
    pose proof Hm as (Hlen & _).
    destruct (soft_timer_start_effect timer m Hlen)
      as [(s & Hne & E) | (k & tk & -> & Hklt & Hk & Hst & _ & _)].
    + rewrite E in Hs. cbn in Hs. contradiction.
    + rewrite load_Slot, Hk in Hop. unfold configured in Hop.
      apply Z.leb_le in Hop.
      destruct (module_ok_lookup m k tk Hm Hk) as (_ & Hrk & _).
      destruct (soft_timer_start_stopped k tk m Hlen Hklt Hk Hst ltac:(lia))
        as (Es & _ & Hlk & _).
      rewrite Es. cbn [snd].
      eexists k, _. split; [ done | ]. split; [ exact Hlk | ].
      split; reflexivity.
Qed.

Lemma countdown_invariant_witness :
  exists t',
    m_timers
      (step (run (soft_timer_init 0xFFFF (power_on tim0))
               [Create; Configure (Slot 0) (Some 7%nat) 10 true])
         (Start (Slot 0))) !! 0%nat = Some t'
    /\ 0 <= countdown_ms t' < reload_ms t'.
Proof.
  assert (Hl0 : m_timers
                  (run (soft_timer_init 0xFFFF (power_on tim0))
                     [Create; Configure (Slot 0) (Some 7%nat) 10 true])
                  !! 0%nat =
                Some {| state := TIMER_STATE_STOPPED; id := 0; reload_ms := 10;
                        countdown_ms := 0xFFFFFFFF; repeat := true;
                        callback := Some 7%nat |})
    by (vm_compute; reflexivity).
  assert (Hl1 : m_timers
                  (step (run (soft_timer_init 0xFFFF (power_on tim0))
                           [Create; Configure (Slot 0) (Some 7%nat) 10 true])
                     (Start (Slot 0))) !! 0%nat =
                Some {| state := TIMER_STATE_RUNNING; id := 0; reload_ms := 10;
                        countdown_ms := 9; repeat := true;
                        callback := Some 7%nat |})
    by (vm_compute; reflexivity).
  assert (Hal : run_allowed (soft_timer_init 0xFFFF (power_on tim0))
                  [Create; Configure (Slot 0) (Some 7%nat) 10 true] = true)
    by (vm_compute; reflexivity).
  assert (Hop : allowed
                  (run (soft_timer_init 0xFFFF (power_on tim0))
                     [Create; Configure (Slot 0) (Some 7%nat) 10 true])
                  (Start (Slot 0)) = true)
    by (vm_compute; reflexivity).
  assert (Hmx : 0 <= 0xFFFF < 2 ^ 32) by lia.
  pose proof (countdown_invariant tim0 0xFFFF
                [Create; Configure (Slot 0) (Some 7%nat) 10 true]
                (Start (Slot 0)) Hmx Hal Hop) as (_ & H & _).
  eexists. split; [ exact Hl1 | ].
  exact (proj1 (H 0%nat _ _ Hl0 Hl1 eq_refl)).
Defined.

Lemma timers_update_minimum_witness :
  let m := run (soft_timer_init 0xFFFF (power_on tim0))
             [Create; Configure (Slot 0) (Some 7%nat) 10 false;
              Start (Slot 0)] in
  Forall slot_ok (m_timers m)
  /\ Forall (step_fits (uint16 4)) (m_timers m)
  /\ let '(v, m1) := soft_timers_update 4 m in
     length (m_timers m1) = length (m_timers m).
Proof.
  intros m.
  assert (Hal : run_allowed (soft_timer_init 0xFFFF (power_on tim0))
                  [Create; Configure (Slot 0) (Some 7%nat) 10 false;
                   Start (Slot 0)] = true)
    by (vm_compute; reflexivity).
  assert (Hm : module_ok m).
  { apply module_ok_run; [ apply module_ok_after_init; lia | exact Hal ]. }
  assert (Harr : ARR (htim m) = 9) by (vm_compute; reflexivity).
  destruct Hm as (Hlen & _ & _ & Hpool).
  assert (Hok : Forall slot_ok (m_timers m)).
  { eapply list.Forall_impl; [ exact Hpool | ]. by intros t (? & _). }
  assert (Hfit : Forall (step_fits (uint16 4)) (m_timers m)).
  { eapply list.Forall_impl; [ exact Hpool | ].
    intros t (_ & _ & _ & Ha) R. specialize (Ha R). rewrite Harr in Ha.
    rewrite uint16_small by lia. lia. }
  split; [ exact Hok | ]. split; [ exact Hfit | ].
  pose proof (timers_update_minimum 4 m Hlen Hok Hfit) as H.
  destruct (soft_timers_update 4 m) as [v m1].
  exact (proj1 (proj2 H)).
Defined.

(** ** Counting the calls of one timer's callback *)

Lemma calls_for_app p a b :
  calls_for p (a ++ b) = (calls_for p a + calls_for p b)%nat.
Proof. unfold calls_for. by rewrite list.filter_app, length_app. Qed.

Lemma calls_for_all p cs :
  (forall c, c ∈ cs -> call_arg c = p) -> calls_for p cs = length cs.
Proof.
  intros H. unfold calls_for. induction cs as [ | c cs IH]; [ done | ].
  rewrite filter_cons_True by (apply H; apply elem_of_cons; by left).
  cbn. rewrite IH; [ done | ].
  intros c' Hc'. apply H. apply elem_of_cons. by right.
Qed.

Lemma calls_for_none p cs :
  (forall c, c ∈ cs -> call_arg c <> p) -> calls_for p cs = 0%nat.
Proof.
  intros H. unfold calls_for. induction cs as [ | c cs IH]; [ done | ].
  rewrite filter_cons_False by (apply H; apply elem_of_cons; by left).
  apply IH. intros c' Hc'. apply H. apply elem_of_cons. by right.
Qed.

Lemma timer_step_calls p t s :
  (timer_step p t s).2 = [] \/
  (timer_step p t s).2 = invoke_callback p (set_countdown_ms 0 t).
Proof.
  unfold timer_step.
  destruct (negb _); [ by left | ].
  destruct (_ && _); [ by left | ].
  cbn zeta. cbn [countdown_ms set_countdown_ms repeat].
  destruct (Z.eqb_spec (sub32 (countdown_ms t) s) 0) as [E | NE]; cbn [negb];
    [ | by left ].
  right. rewrite E. by destruct (repeat t).
Qed.

Lemma timer_step_calls_arg p t s c :
  c ∈ (timer_step p t s).2 -> call_arg c = p.
Proof.
  destruct (timer_step_calls p t s) as [-> | ->].
  - intros H. by apply elem_of_nil in H.
  - unfold invoke_callback. cbn. destruct (callback t).
    + intros H. apply list_elem_of_singleton in H. by subst c.
    + intros H. by apply elem_of_nil in H.
Qed.

Lemma step_calls_arg s l : forall k0 c,
  c ∈ step_calls k0 s l ->
  exists j : nat, (k0 <= j)%nat /\ call_arg c = Slot (Z.of_nat j).
Proof.
  induction l as [ | t l IH]; intros k0 c Hc; cbn in Hc.
  - by apply elem_of_nil in Hc.
  - apply elem_of_app in Hc as [Hc | Hc].
    + exists k0. split; [ lia | ]. by apply timer_step_calls_arg in Hc.
    + destruct (IH _ _ Hc) as (j & Hj & E). exists j. split; [ lia | done ].
Qed.

Lemma calls_for_step_calls s l : forall k0 (i : nat) t,
  l !! i = Some t ->
  calls_for (Slot (Z.of_nat (k0 + i))) (step_calls k0 s l) =
  length (timer_step (Slot (Z.of_nat (k0 + i))) t s).2.
Proof.
  induction l as [ | t0 l IH]; intros k0 i t Hi; [ done | ].
  cbn [step_calls]. rewrite calls_for_app. destruct i as [ | i].
  - cbn in Hi. injection Hi as ->. rewrite Nat.add_0_r.
    rewrite calls_for_all by (intros c; apply timer_step_calls_arg).
    rewrite calls_for_none; [ lia | ].
    intros c Hc E. destruct (step_calls_arg _ _ _ _ Hc) as (j & Hj & Ej).
    rewrite Ej in E. injection E as E. lia.
  - cbn in Hi.
    rewrite calls_for_none.
    + replace (k0 + S i)%nat with (S k0 + i)%nat by lia. by apply IH.
    + intros c Hc E. apply timer_step_calls_arg in Hc.
      rewrite Hc in E. injection E as E. lia.
Qed.

(** A sequence of advances acts on each slot as [timer_steps]. *)
Lemma advances_slot steps : forall m (k : nat) t,
  length (m_timers m) = SOFT_TIMER_MAX_TIMERS ->
  m_timers m !! k = Some t ->
  let m' := run m (Advance <$> steps) in
  let timer := Slot (Z.of_nat k) in
  length (m_timers m') = SOFT_TIMER_MAX_TIMERS
  /\ m_timers m' !! k = Some (timer_steps timer t steps).1
  /\ calls_for timer (calls m') =
       (calls_for timer (calls m)
        + length (timer_steps timer t steps).2)%nat.
Proof.
  induction steps as [ | x steps IH]; intros m k t Hlen Hk.
  - cbn. split; [ done | ]. split; [ done | lia ].
  - cbn [fmap list_fmap run foldl step timer_steps].
    change (foldl step (timers_update x m) (Advance <$> steps))
      with (run (timers_update x m) (Advance <$> steps)).
    pose proof (length_timers_update x m Hlen) as Hlen1.
    assert (Hk1 : m_timers (timers_update x m) !! k =
                  Some (timer_step (Slot (Z.of_nat k)) t (uint16 x)).1).
    { rewrite m_timers_timers_update, lookup_step_slots, Hk by done.
      reflexivity. }
    assert (Hc1 : calls_for (Slot (Z.of_nat k)) (calls (timers_update x m)) =
                  (calls_for (Slot (Z.of_nat k)) (calls m)
                   + length (timer_step (Slot (Z.of_nat k)) t (uint16 x)).2)%nat).
    { rewrite timers_update_eq by done. cbn [calls].
      rewrite calls_for_app. f_equal.
      apply (calls_for_step_calls (uint16 x) (m_timers m) 0 k t Hk). }
    destruct (IH (timers_update x m) k _ Hlen1 Hk1) as (H1 & H2 & H3).
    destruct (timer_step (Slot (Z.of_nat k)) t (uint16 x)) as [t1 cs1].
    cbn [fst snd] in *.
    destruct (timer_steps (Slot (Z.of_nat k)) t1 steps) as [t2 cs2].
    cbn [fst snd] in *.
    split; [ done | ]. split; [ done | ].
    rewrite H3, Hc1, length_app. lia.
Qed.

Lemma total_nonneg steps :
  Forall (fun s => 0 <= s < 2 ^ 16) steps -> 0 <= total steps.
Proof.
  induction 1 as [ | s steps Hs _ IH]; cbn; [ lia | ].
  unfold total in IH. lia.
Qed.

Lemma timer_steps_not_running p t steps :
  state t <> TIMER_STATE_RUNNING -> timer_steps p t steps = (t, []).
Proof.
  intros NR. induction steps as [ | x steps IH]; [ done | ].
  cbn. rewrite (timer_step_not_running _ _ _ NR), IH. reflexivity.
Qed.

(** While the steps sum to less than the countdown, nothing is called and
    the countdown goes down by the sum. *)
Lemma timer_steps_below p steps : forall t,
  state t = TIMER_STATE_RUNNING ->
  countdown_ms t < 2 ^ 32 ->
  Forall (fun s => 0 <= s < 2 ^ 16) steps ->
  total steps < countdown_ms t ->
  timer_steps p t steps =
    (set_countdown_ms (countdown_ms t - total steps) t, []).
Proof.
  induction steps as [ | x steps IH]; intros t R Hc Hr Hsum.
  - cbn. rewrite Z.sub_0_r. by destruct t.
  - inversion Hr as [ | ? ? Hx Hr']; subst.
    pose proof (total_nonneg steps Hr') as Hnn.
    cbn [total foldr] in Hsum. fold (total steps) in Hsum.
    cbn [timer_steps]. rewrite uint16_small by done.
    rewrite (timer_step_running _ _ _ R).
    destruct (Z.eqb_spec (countdown_ms t) 0) as [ | _]; [ lia | ].
    cbn [andb]. cbn zeta. cbn [countdown_ms set_countdown_ms].
    rewrite sub32_small by lia.
    destruct (Z.eqb_spec (countdown_ms t - x) 0) as [ | _]; [ lia | ].
    cbn [negb].
    rewrite (IH (set_countdown_ms (countdown_ms t - x) t) R
               ltac:(cbn; lia) Hr' ltac:(cbn; lia)).
    cbn [countdown_ms set_countdown_ms total foldr]. fold (total steps).
    replace (countdown_ms t - x - total steps)
      with (countdown_ms t - (x + total steps)) by lia.
    reflexivity.
Qed.

(** When the steps sum to exactly the countdown, the callback is called
    once, with the slot seen Running at countdown 0. *)
Lemma timer_steps_fire p steps : forall t,
  state t = TIMER_STATE_RUNNING ->
  1 <= countdown_ms t < 2 ^ 32 ->
  2 <= reload_ms t < 2 ^ 32 ->
  Forall (fun s => 0 <= s < 2 ^ 16) steps ->
  total steps = countdown_ms t ->
  (timer_steps p t steps).2 = invoke_callback p (set_countdown_ms 0 t)
  /\ state (timer_steps p t steps).1 =
       (if repeat t then TIMER_STATE_RUNNING else TIMER_STATE_STOPPED).
Proof.
  induction steps as [ | x steps IH]; intros t R Hc Hrl Hr Hsum.
  - cbn in Hsum. lia.
  - inversion Hr as [ | ? ? Hx Hr']; subst.
    pose proof (total_nonneg steps Hr') as Hnn.
    cbn [total foldr] in Hsum. fold (total steps) in Hsum.
    cbn [timer_steps]. rewrite uint16_small by done.
    rewrite (timer_step_running _ _ _ R).
    destruct (Z.eqb_spec (countdown_ms t) 0) as [ | _]; [ lia | ].
    cbn [andb]. cbn zeta. cbn [countdown_ms set_countdown_ms repeat reload_ms].
    rewrite sub32_small by lia.
    destruct (Z.eqb_spec (countdown_ms t - x) 0) as [E | NE]; cbn [negb].
    + rewrite E. destruct (repeat t) eqn:Hrep.
      * assert (E1 : sub32 (reload_ms t) 1 = reload_ms t - 1)
          by (apply sub32_small; lia).
        rewrite (timer_steps_below p steps
                   (set_countdown_ms (sub32 (reload_ms t) 1)
                      (set_countdown_ms 0 t)) R
                   ltac:(cbn; lia) Hr' ltac:(cbn; lia)).
        cbn. rewrite app_nil_r. split; [ reflexivity | done ].
      * rewrite timer_steps_not_running by discriminate. cbn.
        rewrite app_nil_r. split; [ reflexivity | done ].
    + destruct (IH (set_countdown_ms (countdown_ms t - x) t) R
                  ltac:(cbn; lia) Hrl Hr' ltac:(cbn; lia)) as [H1 H2].
      destruct (timer_steps p _ steps) as [t2 cs2]. cbn in *.
      split; [ exact H1 | exact H2 ].
Qed.

Lemma length_invoke_callback p t fn :
  callback t = Some fn -> length (invoke_callback p t) = 1%nat.
Proof. intros H. unfold invoke_callback. by rewrite H. Qed.

(** C2 as stated fails: timer 0 has period 10; after advances of 4 ms and
    6 ms, whose sum reaches 10, its callback was not called and it is still
    Running, its countdown wrapped around to 2^32 - 1. *)
Lemma advance_4_then_6_never_fires :
  let m := run one_shot_started [Advance 4; Advance 6] in
  calls_for (Slot 0) (calls m) = 0%nat
  /\ m_timers m !! 0%nat =
       Some {| state := TIMER_STATE_RUNNING; id := 0; reload_ms := 10;
               countdown_ms := 0xFFFFFFFF; repeat := false;
               callback := Some 7%nat |}.
Proof. split; vm_compute; reflexivity. Qed.

(** C2, amended.  For a valid configuration [2 <= r <= m_max_reload_ms],
    [soft_timer_start] succeeds on a stopped timer and calls nothing for
    it; a sequence of advances, each below 2^16, calls nothing for it while
    their sum stays below [r - 1], and has called its callback exactly once
    when their sum is [r - 1]; a non-repeating timer is then Stopped and a
    repeating one Running. *)
Theorem start_then_advance_fires_once (m : soft_timer_module) (k : nat)
    (tk : soft_timer) (fn : nat) (steps : list Z) :
  length (m_timers m) = SOFT_TIMER_MAX_TIMERS ->
  (k < SOFT_TIMER_MAX_TIMERS)%nat ->
  m_timers m !! k = Some tk ->
  state tk = TIMER_STATE_STOPPED ->
  callback tk = Some fn ->
  2 <= reload_ms tk <= m_max_reload_ms m ->
  m_max_reload_ms m < 2 ^ 32 ->
  Forall (fun s => 0 <= s < 2 ^ 16) steps ->
  total steps = reload_ms tk - 1 ->
  let timer := Slot (Z.of_nat k) in
  let m1 := (soft_timer_start timer m).2 in
  let m2 := run m1 (Advance <$> steps) in
  (soft_timer_start timer m).1 = SOFT_TIMER_STATUS_SUCCESS
  /\ calls_for timer (calls m1) = calls_for timer (calls m)
  /\ (forall pre post, steps = pre ++ post -> total pre < reload_ms tk - 1 ->
        calls_for timer (calls (run m1 (Advance <$> pre))) =
        calls_for timer (calls m))
  /\ calls_for timer (calls m2) = S (calls_for timer (calls m))
  /\ exists t', m_timers m2 !! k = Some t'
       /\ state t' = (if repeat tk then TIMER_STATE_RUNNING
                      else TIMER_STATE_STOPPED).
Proof.
  intros Hlen Hk Hi Hst Hcb Hr Hmax Hsteps Hsum timer m1 m2.
  destruct (soft_timer_start_stopped k tk m Hlen Hk Hi Hst ltac:(lia))
    as (Es & Hstep & Hlk & Hcalls).
  set (t2 := set_state TIMER_STATE_RUNNING
               (set_countdown_ms (reload_ms tk - 1) tk)) in *.
  assert (Hlen1 : length (m_timers m1) = SOFT_TIMER_MAX_TIMERS).
  { unfold m1, timer. rewrite Es. cbn [snd].
    apply length_timers_update. cbn [set_m_timers m_timers].
    rewrite length_insert. by apply length_timers_update. }
  assert (Hlk1 : m_timers m1 !! k = Some t2).
  { unfold m1, timer. rewrite Es. cbn [snd]. exact Hlk. }
  assert (Hc1 : calls_for timer (calls m1) = calls_for timer (calls m)).
  { unfold m1, timer. rewrite Es. cbn [snd]. rewrite Hcalls.
    rewrite !calls_for_app.
    rewrite (calls_for_step_calls _ (m_timers m) 0 k tk Hi).
    rewrite (calls_for_step_calls 0 _ 0 k t2).
    - cbn [Nat.add]. rewrite Hstep.
      rewrite timer_step_not_running by congruence. cbn. lia.
    - apply list_lookup_insert_eq.
      rewrite length_timers_update by done. done. }
  split; [ unfold timer; by rewrite Es | ]. split; [ exact Hc1 | ].
  split; [ | split ].
  - intros pre post -> Hpre.
    apply Forall_app in Hsteps as [Hp _].
    destruct (advances_slot pre m1 k t2 Hlen1 Hlk1) as (_ & _ & H3).
    fold timer in H3. rewrite H3, Hc1.
    rewrite (timer_steps_below timer pre t2 eq_refl
               ltac:(cbn; lia) Hp ltac:(cbn; lia)).
    cbn. lia.
  - destruct (advances_slot steps m1 k t2 Hlen1 Hlk1) as (_ & _ & H3).
    fold timer m2 in H3. rewrite H3, Hc1.
    destruct (timer_steps_fire timer steps t2 eq_refl
                ltac:(cbn; lia) ltac:(cbn; lia) Hsteps ltac:(cbn; lia))
      as [H4 _].
    rewrite H4, (length_invoke_callback _ _ fn) by done. lia.
  - destruct (advances_slot steps m1 k t2 Hlen1 Hlk1) as (_ & H2 & _).
    fold timer m2 in H2. eexists. split; [ exact H2 | ].
    destruct (timer_steps_fire timer steps t2 eq_refl
                ltac:(cbn; lia) ltac:(cbn; lia) Hsteps ltac:(cbn; lia))
      as [_ H5].
    exact H5.
Qed.

Lemma start_then_advance_fires_once_witness :
  let m := run (soft_timer_init 0xFFFF (power_on tim0))
             [Create; Configure (Slot 0) (Some 7%nat) 10 false] in
  let timer := Slot (Z.of_nat 0) in
  let m1 := (soft_timer_start timer m).2 in
  calls_for timer (calls (run m1 (Advance <$> [4]))) =
    calls_for timer (calls m)
  /\ calls_for timer (calls (run m1 (Advance <$> [4; 5]))) =
       S (calls_for timer (calls m)).
Proof.
  intros m timer m1.
  assert (Hlen : length (m_timers m) = SOFT_TIMER_MAX_TIMERS)
    by (vm_compute; reflexivity).
  assert (Hi : m_timers m !! 0%nat =
               Some {| state := TIMER_STATE_STOPPED; id := 0; reload_ms := 10;
                       countdown_ms := 0xFFFFFFFF; repeat := false;
                       callback := Some 7%nat |})
    by (vm_compute; reflexivity).
  assert (Hmax : m_max_reload_ms m = 0xFFFF) by (vm_compute; reflexivity).
  assert (Hk : (0 < SOFT_TIMER_MAX_TIMERS)%nat)
    by (unfold SOFT_TIMER_MAX_TIMERS; lia).
  assert (Hr : 2 <= 10 <= m_max_reload_ms m) by (rewrite Hmax; lia).
  assert (Hmx : m_max_reload_ms m < 2 ^ 32) by (rewrite Hmax; lia).
  assert (Hsteps : Forall (fun s => 0 <= s < 2 ^ 16) [4; 5])
    by (repeat constructor; lia).
  assert (Hsum : total [4; 5] = 10 - 1) by reflexivity.
  pose proof (start_then_advance_fires_once m 0 _ 7 [4; 5]
                Hlen Hk Hi eq_refl eq_refl Hr Hmx Hsteps Hsum)
    as (_ & _ & Hpre & Hfire & _).
  split.
  - apply (Hpre [4] [5] eq_refl). cbn. lia.
  - exact Hfire.
Defined.

(** ** The expiry notification on a 32-bit timer *)

(** C5, the code at a failing input.  With [max_reload_ms = 0xFFFFFFFF] a
    timer of period 70000 ms is started: the reload register holds 69999.
    The expiry notification stores that value in a [uint16_t], so the pool
    is advanced by 69999 mod 2^16 = 4463: the countdown goes to 65536, no
    callback is called, the reload register is set to 65536; the next
    notification advances by 65536 mod 2^16 = 0 and changes nothing. *)
Theorem period_elapsed_truncates :
  let m := run (soft_timer_init 0xFFFFFFFF (power_on tim0))
             [Create; Configure (Slot 0) (Some 7%nat) 70000 false;
              Start (Slot 0)] in
  let m' := soft_timer_period_elapsed_callback m in
  m_max_reload_ms m = 0xFFFFFFFE
  /\ ARR (htim m) = 69999
  /\ m_timers m !! 0%nat =
       Some {| state := TIMER_STATE_RUNNING; id := 0; reload_ms := 70000;
               countdown_ms := 69999; repeat := false;
               callback := Some 7%nat |}
  /\ m' = timers_update 4463 m
  /\ m_timers m' !! 0%nat =
       Some {| state := TIMER_STATE_RUNNING; id := 0; reload_ms := 70000;
               countdown_ms := 65536; repeat := false;
               callback := Some 7%nat |}
  /\ calls m' = []
  /\ ARR (htim m') = 65536
  /\ soft_timer_period_elapsed_callback m' = timers_update 0 m'
  /\ m_timers (soft_timer_period_elapsed_callback m') = m_timers m'
  /\ calls (soft_timer_period_elapsed_callback m') = [].
Proof. cbv zeta. repeat split; vm_compute; reflexivity. Qed.

(** ** Create and destroy *)

(** C7 as stated fails: a slot that was configured with [repeat = true]
    and destroyed is handed out again by [soft_timer_create] with its
    repeat flag (and the rest of its configuration) still set. *)
Lemma create_keeps_repeat_flag :
  let m := run booted [Create; Configure (Slot 0) (Some 7%nat) 10 true;
                       Destroy (Slot 0)] in
  m_timers m !! 0%nat =
    Some {| state := TIMER_STATE_FREE; id := 0; reload_ms := 10;
            countdown_ms := 0xFFFFFFFF; repeat := true;
            callback := Some 7%nat |}
  /\ (soft_timer_create m).1 = Slot 0
  /\ m_timers (soft_timer_create m).2 !! 0%nat =
       Some {| state := TIMER_STATE_STOPPED; id := 0; reload_ms := 10;
               countdown_ms := 0xFFFFFFFF; repeat := true;
               callback := Some 7%nat |}.
Proof. cbv zeta. repeat split; vm_compute; reflexivity. Qed.

(** C7, amended.  [soft_timer_create] scans the pool in index order and,
    at the first Free slot, marks it Stopped and returns its pointer,
    leaving every other field of the slot and every other slot as they
    were (so the countdown is the sentinel whenever the Free slot held it,
    as it does after [soft_timer_init], and the repeat flag is kept); when
    no slot is Free it returns [NULL] and changes nothing. *)
Theorem soft_timer_create_spec (m : soft_timer_module) :
  let '(p, m') := soft_timer_create m in
  (p = NULL /\ m' = m
   /\ forall (j : nat) t, (j < SOFT_TIMER_MAX_TIMERS)%nat ->
        m_timers m !! j = Some t -> state t <> TIMER_STATE_FREE)
  \/ (exists (k : nat) t,
        p = Slot (Z.of_nat k) /\ (k < SOFT_TIMER_MAX_TIMERS)%nat
        /\ m_timers m !! k = Some t /\ state t = TIMER_STATE_FREE
        /\ (forall (j : nat) t', (j < k)%nat -> m_timers m !! j = Some t' ->
              state t' <> TIMER_STATE_FREE)
        /\ m' = set_m_timers
                  (<[k := set_state TIMER_STATE_STOPPED t]> (m_timers m)) m
        /\ m_timers m' !! k =
             Some {| state := TIMER_STATE_STOPPED; id := id t;
                     reload_ms := reload_ms t;
                     countdown_ms := countdown_ms t; repeat := repeat t;
                     callback := callback t |}
        /\ (forall (j : nat), j <> k -> m_timers m' !! j = m_timers m !! j)
        /\ (idle_sentinel t ->
            countdown_ms (set_state TIMER_STATE_STOPPED t)
            = STOPPED_TIMER_COUNTDOWN_VALUE)).
Proof.
  pose proof (soft_timer_create_effect m) as H.
  destruct (soft_timer_create m) as [p m'].
  destruct H as [H | (k & t & Hp & Hk & Hlk & Hfree & Hbefore & Hm')];
    [ by left | right ].
  exists k, t. repeat (split; [ done | ]). subst m'. cbn [set_m_timers m_timers].
  split; [ | split ].
  - apply list_lookup_insert_eq. by apply lookup_lt_Some in Hlk.
  - intros j Hj. by rewrite list_lookup_insert_ne.
  - intros Hid. cbn. apply Hid. congruence.
Qed.

(** C8 as stated fails: [soft_timer_destroy] returns no status.  On a
    Running slot and on a pointer outside the pool alike it leaves the
    caller's pointer and the module as they were. *)
Lemma destroy_reports_no_error :
  let m := one_shot_started in
  soft_timer_destroy (Slot 0) m = (Slot 0, m)
  /\ status_of (Destroy (Slot 0)) m
     <> Some SOFT_TIMER_STATUS_INVALID_STATE
  /\ soft_timer_destroy (Slot 10) m = (Slot 10, m)
  /\ status_of (Destroy (Slot 10)) m
     <> Some SOFT_TIMER_STATUS_INVALID_PARAMETER.
Proof.
  cbv zeta. split; [ vm_compute; reflexivity | ].
  split; [ discriminate | ]. split; [ vm_compute; reflexivity | discriminate ].
Qed.

(** C8, amended.  [soft_timer_destroy] acts only on a pointer into the pool
    whose slot is Stopped: it marks the slot Free and sets the caller's
    pointer to [NULL].  On a slot that is Running (or Free) and on a pointer
    outside the pool it does nothing: pointer and module are unchanged, and
    no status is returned in any case. *)
Theorem soft_timer_destroy_spec (timer : soft_timer_ptr)
    (m : soft_timer_module) :
  (forall t, in_pool timer = true -> load timer m = Some t ->
     state t = TIMER_STATE_STOPPED ->
     soft_timer_destroy timer m =
       (NULL, store timer (set_state TIMER_STATE_FREE t) m))
  /\ (forall t, load timer m = Some t -> state t <> TIMER_STATE_STOPPED ->
        soft_timer_destroy timer m = (timer, m))
  /\ (in_pool timer = false -> soft_timer_destroy timer m = (timer, m))
  /\ status_of (Destroy timer) m = None.
Proof.
  unfold soft_timer_destroy. split; [ | split; [ | split ] ].
  - intros t Hin Hl Hst. rewrite Hin, Hl.
    by rewrite bool_decide_eq_true_2.
  - intros t Hl Hst. rewrite Hl.
    destruct (in_pool timer); [ | done ].
    by rewrite bool_decide_eq_false_2.
  - by intros ->.
  - reflexivity.
Qed.

(** ** Handle validation *)

(** C9 as stated fails: with a pointer outside the pool,
    [soft_timer_destroy] returns no status, and [soft_timer_is_stopped]
    makes no range check and reads through the pointer. *)
Lemma no_invalid_parameter_from_destroy_and_is_stopped :
  in_pool NULL = false
  /\ status_of (Destroy NULL) booted
     <> Some SOFT_TIMER_STATUS_INVALID_PARAMETER
  /\ status_of (IsStopped NULL) booted
     <> Some SOFT_TIMER_STATUS_INVALID_PARAMETER
  /\ soft_timer_is_stopped NULL booted = None
  /\ soft_timer_is_stopped (Slot 10) booted = None.
Proof.
  split; [ reflexivity | ]. split; [ discriminate | ].
  split; [ discriminate | ]. split; vm_compute; reflexivity.
Qed.

(** C9, amended.  [soft_timer_set], [soft_timer_start] and
    [soft_timer_stop] check first that the pointer lies in the pool and
    return the invalid-parameter status, leaving the module unchanged, when
    it does not; [soft_timer_destroy] makes the same check and then does
    nothing; and every call that returns a status other than success, or a
    destroy that does not null the pointer, leaves the whole module (slots
    and hardware) unchanged. *)
Theorem out_of_pool_rejected (timer : soft_timer_ptr)
    (m : soft_timer_module) :
  length (m_timers m) = SOFT_TIMER_MAX_TIMERS ->
  (in_pool timer = false ->
   (forall cb reload rep,
      soft_timer_set timer cb reload rep m
      = (SOFT_TIMER_STATUS_INVALID_PARAMETER, m))
   /\ soft_timer_start timer m = (SOFT_TIMER_STATUS_INVALID_PARAMETER, m)
   /\ soft_timer_stop timer m = (SOFT_TIMER_STATUS_INVALID_PARAMETER, m)
   /\ soft_timer_destroy timer m = (timer, m))
  /\ (forall op s, status_of op m = Some s ->
        s <> SOFT_TIMER_STATUS_SUCCESS -> step m op = m)
  /\ ((soft_timer_destroy timer m).1 <> NULL ->
      (soft_timer_destroy timer m).2 = m).
Proof.
  intros Hlen. split; [ | split ].
  - intros Hin. unfold soft_timer_set, soft_timer_start, soft_timer_stop,
      soft_timer_destroy. rewrite Hin. done.
  - intros op s Hs Hne.
    destruct op as [ | | | timer0 cb reload rep | timer0 | timer0 | | | | ];
      cbn in Hs; try discriminate; injection Hs as <-; cbn [step].
    + destruct (soft_timer_set_effect timer0 cb reload rep m Hlen)
        as [(s & _ & E) | (i & t & _ & _ & _ & _ & _ & E)];
        rewrite E in *; [ done | ]. by cbn in Hne.
    + destruct (soft_timer_start_effect timer0 m Hlen)
        as [(s & _ & E) | (i & t & _ & _ & _ & _ & _ & E)];
        rewrite E in *; [ done | ]. by cbn in Hne.
    + destruct (soft_timer_stop_effect timer0 m Hlen)
        as [(s & _ & E) | (i & t & _ & _ & _ & _ & E)];
        rewrite E in *; [ done | ]. by cbn in Hne.
  - destruct (soft_timer_destroy_effect timer m Hlen)
      as [E | (i & t & _ & _ & _ & _ & E)]; rewrite E; [ done | ].
    cbn. done.
Qed.

Lemma out_of_pool_rejected_witness :
  soft_timer_start NULL booted = (SOFT_TIMER_STATUS_INVALID_PARAMETER, booted)
  /\ soft_timer_stop (Slot 10) booted
     = (SOFT_TIMER_STATUS_INVALID_PARAMETER, booted).
Proof.
  assert (Hlen : length (m_timers booted) = SOFT_TIMER_MAX_TIMERS)
    by (vm_compute; reflexivity).
  split.
  - destruct (out_of_pool_rejected NULL booted Hlen) as (H & _).
    destruct (H eq_refl) as (_ & Hs & _). exact Hs.
  - destruct (out_of_pool_rejected (Slot 10) booted Hlen) as (H & _).
    destruct (H eq_refl) as (_ & _ & Hs & _). exact Hs.
Defined.

(** * Further properties of the module *)

(** ** Results of stop, set and start in closed form *)

Lemma soft_timer_stop_running_eq (k : nat) tk m :
  (k < SOFT_TIMER_MAX_TIMERS)%nat ->
  m_timers m !! k = Some tk ->
  state tk = TIMER_STATE_RUNNING ->
  soft_timer_stop (Slot (Z.of_nat k)) m =
    (SOFT_TIMER_STATUS_SUCCESS,
     timers_update (CNT (htim m))
       (set_m_timers (<[k := timer_stop tk]> (m_timers m)) m)).
Proof.
  intros Hk Hi R. unfold soft_timer_stop.
  rewrite (proj2 (in_pool_Slot k) Hk), load_Slot, Hi.
  rewrite bool_decide_eq_true_2 by done. cbn [negb].
  rewrite store_Slot. reflexivity.
Qed.

Lemma soft_timer_set_stopped_eq (k : nat) tk cb reload rep m :
  (k < SOFT_TIMER_MAX_TIMERS)%nat ->
  m_timers m !! k = Some tk ->
  state tk = TIMER_STATE_STOPPED ->
  2 <= reload <= m_max_reload_ms m ->
  soft_timer_set (Slot (Z.of_nat k)) cb reload rep m =
    (SOFT_TIMER_STATUS_SUCCESS,
     set_m_timers
       (<[k := set_callback cb (set_repeat rep (set_reload_ms reload tk))]>
          (m_timers m)) m).
Proof.
  intros Hk Hi R Hr. unfold soft_timer_set.
  rewrite (proj2 (in_pool_Slot k) Hk), load_Slot, Hi. cbn [negb].
  destruct (Z.leb_spec reload 1) as [ | _]; [ lia | ].
  destruct (Z.ltb_spec (m_max_reload_ms m) reload) as [ | _]; [ lia | ].
  cbn [orb]. rewrite bool_decide_eq_true_2 by done. cbn [negb].
  rewrite store_Slot. reflexivity.
Qed.

Lemma id_timer_step p t s : id (timer_step p t s).1 = id t.
Proof.
  unfold timer_step.
  repeat (match goal with |- context [if ?b then _ else _] => destruct b end);
    reflexivity.
Qed.

Lemma callback_timer_step p t s :
  callback (timer_step p t s).1 = callback t.
Proof.
  unfold timer_step.
  repeat (match goal with |- context [if ?b then _ else _] => destruct b end);
    reflexivity.
Qed.

Lemma timer_step_running_after p t s :
  state (timer_step p t s).1 = TIMER_STATE_RUNNING ->
  state t = TIMER_STATE_RUNNING.
Proof.
  destruct (state_dec t) as [R | NR]; [ done | ].
  by rewrite (timer_step_not_running _ _ _ NR).
Qed.

(** What a successful [soft_timer_stop] leaves. *)
Lemma soft_timer_stop_facts (k : nat) tk m :
  length (m_timers m) = SOFT_TIMER_MAX_TIMERS ->
  m_timers m !! k = Some tk ->
  state tk = TIMER_STATE_RUNNING ->
  let timer := Slot (Z.of_nat k) in
  let m' := (soft_timer_stop timer m).2 in
  (soft_timer_stop timer m).1 = SOFT_TIMER_STATUS_SUCCESS
  /\ length (m_timers m') = SOFT_TIMER_MAX_TIMERS
  /\ m_timers m' !! k = Some (timer_stop tk)
  /\ calls_for timer (calls m') = calls_for timer (calls m)
  /\ CNT (htim m') = 0
  /\ m_max_reload_ms m' = m_max_reload_ms m.
Proof.
  intros Hlen Hi R timer m'.
  assert (Hk : (k < SOFT_TIMER_MAX_TIMERS)%nat)
    by (rewrite <- Hlen; by apply lookup_lt_Some in Hi).
  unfold m', timer. rewrite (soft_timer_stop_running_eq k tk m Hk Hi R).
  cbn [fst snd].
  set (m1 := set_m_timers (<[k := timer_stop tk]> (m_timers m)) m).
  assert (Hlen1 : length (m_timers m1) = SOFT_TIMER_MAX_TIMERS)
    by (cbn [m1 set_m_timers m_timers]; by rewrite length_insert).
  assert (Hi1 : m_timers m1 !! k = Some (timer_stop tk)).
  { cbn [m1 set_m_timers m_timers]. apply list_lookup_insert_eq.
    by rewrite Hlen. }
  split; [ done | ].
  split; [ by apply length_timers_update | ].
  rewrite (timers_update_eq _ m1 Hlen1).
  cbn [m_timers calls htim CNT m_max_reload_ms].
  split; [ | split; [ | done ] ].
  - rewrite lookup_step_slots, Hi1. cbn [fmap option_fmap option_map].
    rewrite timer_step_not_running by discriminate. reflexivity.
  - rewrite calls_for_app.
    rewrite (calls_for_step_calls _ (m_timers m1) 0 k _ Hi1).
    cbn [Nat.add]. rewrite timer_step_not_running by discriminate.
    unfold m1. cbn [set_m_timers calls snd length]. lia.
Qed.

(** X1. [soft_timer_stop] on a Running timer succeeds: the slot is Stopped,
    holds the sentinel, has lost its repeat flag and kept its reload value
    and callback; its callback is not called by the stop; the hardware
    counter restarts from 0. *)
Theorem soft_timer_stop_running (k : nat) (tk : soft_timer)
    (m : soft_timer_module) :
  length (m_timers m) = SOFT_TIMER_MAX_TIMERS ->
  m_timers m !! k = Some tk ->
  state tk = TIMER_STATE_RUNNING ->
  let timer := Slot (Z.of_nat k) in
  let m' := (soft_timer_stop timer m).2 in
  (soft_timer_stop timer m).1 = SOFT_TIMER_STATUS_SUCCESS
  /\ m_timers m' !! k =
       Some {| state := TIMER_STATE_STOPPED; id := id tk;
               reload_ms := reload_ms tk;
               countdown_ms := STOPPED_TIMER_COUNTDOWN_VALUE;
               repeat := false; callback := callback tk |}
  /\ calls_for timer (calls m') = calls_for timer (calls m)
  /\ CNT (htim m') = 0.
Proof.
  intros Hlen Hi R timer m'.
  destruct (soft_timer_stop_facts k tk m Hlen Hi R)
    as (H1 & _ & H2 & H3 & H4 & _).
  split; [ exact H1 | ]. split; [ exact H2 | ]. split; [ exact H3 | exact H4 ].
Qed.

Lemma soft_timer_stop_running_witness :
  m_timers (soft_timer_stop (Slot (Z.of_nat 0)) one_shot_started).2 !! 0%nat =
    Some {| state := TIMER_STATE_STOPPED; id := 0; reload_ms := 10;
            countdown_ms := STOPPED_TIMER_COUNTDOWN_VALUE;
            repeat := false; callback := Some 7%nat |}.
Proof.
  assert (Hlen : length (m_timers one_shot_started) = SOFT_TIMER_MAX_TIMERS)
    by (vm_compute; reflexivity).
  assert (Hi : m_timers one_shot_started !! 0%nat =
               Some {| state := TIMER_STATE_RUNNING; id := 0; reload_ms := 10;
                       countdown_ms := 9; repeat := false;
                       callback := Some 7%nat |})
    by (vm_compute; reflexivity).
  exact (proj1 (proj2 (soft_timer_stop_running 0 _ one_shot_started
                         Hlen Hi eq_refl))).
Defined.

Lemma soft_timer_start_not_stopped timer t m :
  in_pool timer = true -> load timer m = Some t ->
  state t <> TIMER_STATE_STOPPED ->
  soft_timer_start timer m = (SOFT_TIMER_STATUS_INVALID_STATE, m).
Proof.
  intros Hin Hl NS. unfold soft_timer_start. rewrite Hin, Hl.
  by rewrite bool_decide_eq_false_2.
Qed.

Lemma soft_timer_set_not_stopped timer t cb reload rep m :
  in_pool timer = true -> load timer m = Some t ->
  state t <> TIMER_STATE_STOPPED ->
  2 <= reload <= m_max_reload_ms m ->
  soft_timer_set timer cb reload rep m = (SOFT_TIMER_STATUS_INVALID_STATE, m).
Proof.
  intros Hin Hl NS Hr. unfold soft_timer_set. rewrite Hin, Hl. cbn [negb].
  destruct (Z.leb_spec reload 1) as [ | _]; [ lia | ].
  destruct (Z.ltb_spec (m_max_reload_ms m) reload) as [ | _]; [ lia | ].
  by rewrite bool_decide_eq_false_2.
Qed.

Lemma soft_timer_stop_not_running timer t m :
  in_pool timer = true -> load timer m = Some t ->
  state t <> TIMER_STATE_RUNNING ->
  soft_timer_stop timer m = (SOFT_TIMER_STATUS_INVALID_STATE, m).
Proof.
  intros Hin Hl NR. unfold soft_timer_stop. rewrite Hin, Hl.
  by rewrite bool_decide_eq_false_2.
Qed.

(** X2. A call on a slot in the wrong state is refused with the
    invalid-state status and changes nothing: [soft_timer_start] and
    [soft_timer_set] (with a reload value in range) on a slot that is not
    Stopped, [soft_timer_stop] on a slot that is not Running.  A Free slot,
    reached through a pointer kept after destroy, is refused by all three. *)
Theorem wrong_state_rejected (timer : soft_timer_ptr) (t : soft_timer)
    (m : soft_timer_module) :
  in_pool timer = true ->
  load timer m = Some t ->
  (state t <> TIMER_STATE_STOPPED ->
   soft_timer_start timer m = (SOFT_TIMER_STATUS_INVALID_STATE, m)
   /\ forall cb reload rep, 2 <= reload <= m_max_reload_ms m ->
        soft_timer_set timer cb reload rep m
        = (SOFT_TIMER_STATUS_INVALID_STATE, m))
  /\ (state t <> TIMER_STATE_RUNNING ->
      soft_timer_stop timer m = (SOFT_TIMER_STATUS_INVALID_STATE, m)).
Proof.
  intros Hin Hl. split.
  - intros NS. split.
    + by apply (soft_timer_start_not_stopped timer t).
    + intros cb reload rep Hr. by apply (soft_timer_set_not_stopped timer t).
  - intros NR. by apply (soft_timer_stop_not_running timer t).
Qed.

Lemma wrong_state_rejected_witness :
  soft_timer_start (Slot 0) one_shot_started
  = (SOFT_TIMER_STATUS_INVALID_STATE, one_shot_started)
  /\ soft_timer_stop (Slot 1) one_shot_started
     = (SOFT_TIMER_STATUS_INVALID_STATE, one_shot_started).
Proof.
  assert (H0 : load (Slot 0) one_shot_started =
               Some {| state := TIMER_STATE_RUNNING; id := 0; reload_ms := 10;
                       countdown_ms := 9; repeat := false;
                       callback := Some 7%nat |})
    by (vm_compute; reflexivity).
  assert (H1 : load (Slot 1) one_shot_started =
               Some {| state := TIMER_STATE_FREE; id := 1; reload_ms := 0;
                       countdown_ms := 0xFFFFFFFF; repeat := false;
                       callback := None |})
    by (vm_compute; reflexivity).
  split.
  - destruct (wrong_state_rejected (Slot 0) _ one_shot_started eq_refl H0)
      as [H _].
    assert (NS : TIMER_STATE_RUNNING <> TIMER_STATE_STOPPED) by discriminate.
    exact (proj1 (H NS)).
  - destruct (wrong_state_rejected (Slot 1) _ one_shot_started eq_refl H1)
      as [_ H].
    assert (NR : TIMER_STATE_FREE <> TIMER_STATE_RUNNING) by discriminate.
    exact (H NR).
Defined.

(** ** Life cycle of one timer *)

Lemma soft_timer_destroy_stopped_eq (k : nat) tk m :
  (k < SOFT_TIMER_MAX_TIMERS)%nat ->
  m_timers m !! k = Some tk ->
  state tk = TIMER_STATE_STOPPED ->
  soft_timer_destroy (Slot (Z.of_nat k)) m =
    (NULL, set_m_timers (<[k := set_state TIMER_STATE_FREE tk]> (m_timers m)) m).
Proof.
  intros Hk Hi R. unfold soft_timer_destroy.
  rewrite (proj2 (in_pool_Slot k) Hk), load_Slot, Hi.
  rewrite bool_decide_eq_true_2 by done. by rewrite store_Slot.
Qed.

Lemma soft_timer_is_stopped_Slot (k : nat) t m :
  m_timers m !! k = Some t ->
  soft_timer_is_stopped (Slot (Z.of_nat k)) m
  = Some (bool_decide (state t = TIMER_STATE_STOPPED)).
Proof.
  intros Hi. unfold soft_timer_is_stopped. by rewrite load_Slot, Hi.
Qed.

Lemma lookup_lt_pool m (k : nat) t :
  length (m_timers m) = SOFT_TIMER_MAX_TIMERS ->
  m_timers m !! k = Some t -> (k < SOFT_TIMER_MAX_TIMERS)%nat.
Proof. intros Hlen Hi. rewrite <- Hlen. by apply lookup_lt_Some in Hi. Qed.

(** What a successful [soft_timer_start] leaves. *)
Lemma soft_timer_start_facts (k : nat) tk m :
  length (m_timers m) = SOFT_TIMER_MAX_TIMERS ->
  m_timers m !! k = Some tk ->
  state tk = TIMER_STATE_STOPPED ->
  2 <= reload_ms tk < 2 ^ 32 ->
  let timer := Slot (Z.of_nat k) in
  let m' := (soft_timer_start timer m).2 in
  (soft_timer_start timer m).1 = SOFT_TIMER_STATUS_SUCCESS
  /\ length (m_timers m') = SOFT_TIMER_MAX_TIMERS
  /\ m_timers m' !! k =
       Some (set_state TIMER_STATE_RUNNING
               (set_countdown_ms (reload_ms tk - 1) tk)).
Proof.
  intros Hlen Hi Hst Hr timer m'.
  pose proof (lookup_lt_pool m k tk Hlen Hi) as Hk.
  destruct (soft_timer_start_stopped k tk m Hlen Hk Hi Hst Hr)
    as (Es & _ & Hlk & _).
  unfold m', timer. rewrite Es. cbn [fst snd].
  split; [ done | ]. split; [ | exact Hlk ].
  apply length_timers_update. cbn [set_m_timers m_timers].
  rewrite length_insert. by apply length_timers_update.
Qed.

(** X3. [soft_timer_is_stopped] follows the life cycle: it answers true
    for the pointer [soft_timer_create] returns, false after a successful
    start, true again after a stop, and false for a pointer kept across a
    successful destroy. *)
Theorem is_stopped_life_cycle (m : soft_timer_module) :
  length (m_timers m) = SOFT_TIMER_MAX_TIMERS ->
  (forall p m1, soft_timer_create m = (p, m1) -> p <> NULL ->
     soft_timer_is_stopped p m1 = Some true)
  /\ (forall (k : nat) tk, m_timers m !! k = Some tk ->
        state tk = TIMER_STATE_STOPPED -> 2 <= reload_ms tk < 2 ^ 32 ->
        soft_timer_is_stopped (Slot (Z.of_nat k))
          (soft_timer_start (Slot (Z.of_nat k)) m).2 = Some false)
  /\ (forall (k : nat) tk, m_timers m !! k = Some tk ->
        state tk = TIMER_STATE_RUNNING ->
        soft_timer_is_stopped (Slot (Z.of_nat k))
          (soft_timer_stop (Slot (Z.of_nat k)) m).2 = Some true)
  /\ (forall (k : nat) tk, m_timers m !! k = Some tk ->
        state tk = TIMER_STATE_STOPPED ->
        soft_timer_is_stopped (Slot (Z.of_nat k))
          (soft_timer_destroy (Slot (Z.of_nat k)) m).2 = Some false).
Proof.
  intros Hlen. split; [ | split; [ | split ] ].
  - intros p m1 Hc Hp. pose proof (soft_timer_create_effect m) as H.
    rewrite Hc in H.
    destruct H as [(-> & _) | (k & t & -> & Hk & Hlk & Hfree & _ & ->)];
      [ done | ].
    erewrite soft_timer_is_stopped_Slot; [ | cbn [set_m_timers m_timers];
      apply list_lookup_insert_eq; by rewrite Hlen ].
    reflexivity.
  - intros k tk Hi Hst Hr.
    destruct (soft_timer_start_facts k tk m Hlen Hi Hst Hr) as (_ & _ & Hlk).
    rewrite (soft_timer_is_stopped_Slot k _ _ Hlk). reflexivity.
  - intros k tk Hi R.
    destruct (soft_timer_stop_facts k tk m Hlen Hi R) as (_ & _ & Hlk & _).
    rewrite (soft_timer_is_stopped_Slot k _ _ Hlk). reflexivity.
  - intros k tk Hi Hst.
    pose proof (lookup_lt_pool m k tk Hlen Hi) as Hk.
    rewrite (soft_timer_destroy_stopped_eq k tk m Hk Hi Hst). cbn [snd].
    erewrite soft_timer_is_stopped_Slot; [ | cbn [set_m_timers m_timers];
      apply list_lookup_insert_eq; by rewrite Hlen ].
    reflexivity.
Qed.

Lemma is_stopped_life_cycle_witness :
  soft_timer_is_stopped (Slot (Z.of_nat 0))
    (soft_timer_stop (Slot (Z.of_nat 0)) one_shot_started).2 = Some true.
Proof.
  assert (Hlen : length (m_timers one_shot_started) = SOFT_TIMER_MAX_TIMERS)
    by (vm_compute; reflexivity).
  assert (Hi : m_timers one_shot_started !! 0%nat =
               Some {| state := TIMER_STATE_RUNNING; id := 0; reload_ms := 10;
                       countdown_ms := 9; repeat := false;
                       callback := Some 7%nat |})
    by (vm_compute; reflexivity).
  destruct (is_stopped_life_cycle one_shot_started Hlen) as (_ & _ & H & _).
  exact (H 0%nat _ Hi eq_refl).
Defined.

(** X4. Configure, then start: after a successful [soft_timer_set] with
    reload value [r], [soft_timer_start] succeeds and leaves the timer
    Running with countdown [r - 1], the repeat flag and the callback just
    configured, and its reload value [r]. *)
Theorem set_then_start (k : nat) (tk : soft_timer)
    (cb : soft_timer_callback_t) (r : Z) (rep : bool)
    (m : soft_timer_module) :
  length (m_timers m) = SOFT_TIMER_MAX_TIMERS ->
  m_timers m !! k = Some tk ->
  state tk = TIMER_STATE_STOPPED ->
  2 <= r <= m_max_reload_ms m ->
  m_max_reload_ms m < 2 ^ 32 ->
  let timer := Slot (Z.of_nat k) in
  let m1 := (soft_timer_set timer cb r rep m).2 in
  let m2 := (soft_timer_start timer m1).2 in
  (soft_timer_set timer cb r rep m).1 = SOFT_TIMER_STATUS_SUCCESS
  /\ (soft_timer_start timer m1).1 = SOFT_TIMER_STATUS_SUCCESS
  /\ m_timers m2 !! k =
       Some {| state := TIMER_STATE_RUNNING; id := id tk; reload_ms := r;
               countdown_ms := r - 1; repeat := rep; callback := cb |}.
Proof.
  intros Hlen Hi Hst Hr Hmax timer m1 m2.
  pose proof (lookup_lt_pool m k tk Hlen Hi) as Hk.
  assert (E1 : soft_timer_set timer cb r rep m =
               (SOFT_TIMER_STATUS_SUCCESS,
                set_m_timers
                  (<[k := set_callback cb (set_repeat rep (set_reload_ms r tk))]>
                     (m_timers m)) m))
    by (by apply soft_timer_set_stopped_eq).
  unfold m2, m1. rewrite E1. cbn [fst snd].
  set (m1' := set_m_timers _ m).
  assert (Hlen1 : length (m_timers m1') = SOFT_TIMER_MAX_TIMERS)
    by (cbn [m1' set_m_timers m_timers]; by rewrite length_insert).
  assert (Hi1 : m_timers m1' !! k =
                Some (set_callback cb (set_repeat rep (set_reload_ms r tk)))).
  { cbn [m1' set_m_timers m_timers]. apply list_lookup_insert_eq.
    by rewrite Hlen. }
  destruct (soft_timer_start_facts k _ m1' Hlen1 Hi1 Hst ltac:(cbn; lia))
    as (H1 & _ & H2).
  split; [ done | ]. split; [ exact H1 | exact H2 ].
Qed.

Lemma set_then_start_witness :
  m_timers
    (soft_timer_start (Slot (Z.of_nat 0))
       (soft_timer_set (Slot (Z.of_nat 0)) (Some 3%nat) 25 true
          (run booted [Create])).2).2 !! 0%nat =
  Some {| state := TIMER_STATE_RUNNING; id := 0; reload_ms := 25;
          countdown_ms := 25 - 1; repeat := true; callback := Some 3%nat |}.
Proof.
  assert (Hlen : length (m_timers (run booted [Create]))
                 = SOFT_TIMER_MAX_TIMERS)
    by (vm_compute; reflexivity).
  assert (Hi : m_timers (run booted [Create]) !! 0%nat =
               Some {| state := TIMER_STATE_STOPPED; id := 0; reload_ms := 0;
                       countdown_ms := 0xFFFFFFFF; repeat := false;
                       callback := None |})
    by (vm_compute; reflexivity).
  assert (Hmax : m_max_reload_ms (run booted [Create]) = 0xFFFF)
    by (vm_compute; reflexivity).
  assert (Hr : 2 <= 25 <= m_max_reload_ms (run booted [Create]))
    by (rewrite Hmax; lia).
  assert (Hmx : m_max_reload_ms (run booted [Create]) < 2 ^ 32)
    by (rewrite Hmax; lia).
  exact (proj2 (proj2 (set_then_start 0 _ (Some 3%nat) 25 true
                         (run booted [Create]) Hlen Hi eq_refl Hr Hmx))).
Defined.

(** X5. A repeating timer that is stopped and started again without a new
    [soft_timer_set] runs once: [timer_stop] cleared its repeat flag, and
    start does not restore it.  The restart gives it its full period. *)
Theorem stop_then_start_runs_once (k : nat) (tk : soft_timer)
    (m : soft_timer_module) :
  length (m_timers m) = SOFT_TIMER_MAX_TIMERS ->
  m_timers m !! k = Some tk ->
  state tk = TIMER_STATE_RUNNING ->
  2 <= reload_ms tk < 2 ^ 32 ->
  let timer := Slot (Z.of_nat k) in
  let m1 := (soft_timer_stop timer m).2 in
  let m2 := (soft_timer_start timer m1).2 in
  (soft_timer_start timer m1).1 = SOFT_TIMER_STATUS_SUCCESS
  /\ m_timers m2 !! k =
       Some {| state := TIMER_STATE_RUNNING; id := id tk;
               reload_ms := reload_ms tk;
               countdown_ms := reload_ms tk - 1;
               repeat := false; callback := callback tk |}.
Proof.
  intros Hlen Hi R Hr timer m1 m2.
  destruct (soft_timer_stop_facts k tk m Hlen Hi R)
    as (_ & Hlen1 & Hi1 & _).
  fold timer m1 in Hlen1, Hi1.
  destruct (soft_timer_start_facts k _ m1 Hlen1 Hi1 eq_refl Hr) as (H1 & _ & H2).
  split; [ exact H1 | exact H2 ].
Qed.

Lemma stop_then_start_runs_once_witness :
  let m := run booted [Create; Configure (Slot 0) (Some 7%nat) 10 true;
                       Start (Slot 0)] in
  m_timers m !! 0%nat =
    Some {| state := TIMER_STATE_RUNNING; id := 0; reload_ms := 10;
            countdown_ms := 9; repeat := true; callback := Some 7%nat |}
  /\ m_timers
       (soft_timer_start (Slot (Z.of_nat 0))
          (soft_timer_stop (Slot (Z.of_nat 0)) m).2).2 !! 0%nat =
     Some {| state := TIMER_STATE_RUNNING; id := 0; reload_ms := 10;
             countdown_ms := 10 - 1; repeat := false;
             callback := Some 7%nat |}.
Proof.
  intros m.
  assert (Hlen : length (m_timers m) = SOFT_TIMER_MAX_TIMERS)
    by (vm_compute; reflexivity).
  assert (Hi : m_timers m !! 0%nat =
               Some {| state := TIMER_STATE_RUNNING; id := 0; reload_ms := 10;
                       countdown_ms := 9; repeat := true;
                       callback := Some 7%nat |})
    by (vm_compute; reflexivity).
  assert (Hr : 2 <= 10 < 2 ^ 32) by lia.
  split; [ exact Hi | ].
  exact (proj2 (stop_then_start_runs_once 0 _ m Hlen Hi eq_refl Hr)).
Defined.

(** ** Allocation *)

Lemma set_state_free_stopped t :
  state t = TIMER_STATE_FREE ->
  set_state TIMER_STATE_FREE (set_state TIMER_STATE_STOPPED t) = t.
Proof. destruct t as [st ? ? ? ? ?]. cbn. by intros ->. Qed.

Lemma set_m_timers_same l m :
  set_m_timers (m_timers m) (set_m_timers l m) = m.
Proof. by destruct m. Qed.

(** X6. Create and destroy undo each other: destroying the timer that
    [soft_timer_create] just returned gives back exactly the module as it
    was before the create, and nulls the pointer. *)
Theorem create_destroy_round_trip (m : soft_timer_module)
    (p : soft_timer_ptr) (m1 : soft_timer_module) :
  length (m_timers m) = SOFT_TIMER_MAX_TIMERS ->
  soft_timer_create m = (p, m1) ->
  p <> NULL ->
  soft_timer_destroy p m1 = (NULL, m).
Proof.
  intros Hlen Hc Hp. pose proof (soft_timer_create_effect m) as H.
  rewrite Hc in H.
  destruct H as [(-> & _) | (k & t & -> & Hk & Hlk & Hfree & _ & ->)];
    [ done | ].
  rewrite (soft_timer_destroy_stopped_eq k (set_state TIMER_STATE_STOPPED t));
    [ | done | | reflexivity ].
  - cbn [set_m_timers m_timers]. rewrite list_insert_insert_eq.
    rewrite (set_state_free_stopped t Hfree).
    rewrite (list_insert_id _ _ _ Hlk).
    f_equal. by destruct m.
  - cbn [set_m_timers m_timers]. apply list_lookup_insert_eq. by rewrite Hlen.
Qed.

Lemma create_destroy_round_trip_witness :
  soft_timer_destroy (Slot 1) (soft_timer_create one_shot_started).2
  = (NULL, one_shot_started).
Proof.
  assert (Hlen : length (m_timers one_shot_started) = SOFT_TIMER_MAX_TIMERS)
    by (vm_compute; reflexivity).
  assert (Hp : (soft_timer_create one_shot_started).1 = Slot 1)
    by (vm_compute; reflexivity).
  assert (Hne : Slot 1 <> NULL) by discriminate.
  refine (create_destroy_round_trip one_shot_started (Slot 1) _ Hlen _ Hne).
  rewrite <- Hp. by destruct (soft_timer_create one_shot_started).
Defined.

(** X7. After a successful destroy, the slot refuses everything through a
    pointer that was kept: start, stop and set (with a reload value in
    range) return the invalid-state status and a second destroy does
    nothing, all leaving the module unchanged; and the next
    [soft_timer_create] hands out that slot or one before it. *)
Theorem destroyed_slot_refuses (k : nat) (tk : soft_timer)
    (m : soft_timer_module) :
  length (m_timers m) = SOFT_TIMER_MAX_TIMERS ->
  m_timers m !! k = Some tk ->
  state tk = TIMER_STATE_STOPPED ->
  let timer := Slot (Z.of_nat k) in
  let m1 := (soft_timer_destroy timer m).2 in
  (soft_timer_destroy timer m).1 = NULL
  /\ soft_timer_start timer m1 = (SOFT_TIMER_STATUS_INVALID_STATE, m1)
  /\ soft_timer_stop timer m1 = (SOFT_TIMER_STATUS_INVALID_STATE, m1)
  /\ (forall cb reload rep, 2 <= reload <= m_max_reload_ms m ->
        soft_timer_set timer cb reload rep m1
        = (SOFT_TIMER_STATUS_INVALID_STATE, m1))
  /\ soft_timer_destroy timer m1 = (timer, m1)
  /\ exists j : nat, (j <= k)%nat
       /\ (soft_timer_create m1).1 = Slot (Z.of_nat j).
Proof.
  intros Hlen Hi Hst timer m1.
  pose proof (lookup_lt_pool m k tk Hlen Hi) as Hk.
  unfold m1, timer. rewrite (soft_timer_destroy_stopped_eq k tk m Hk Hi Hst).
  cbn [fst snd].
  set (m' := set_m_timers _ m).
  assert (Hlen' : length (m_timers m') = SOFT_TIMER_MAX_TIMERS)
    by (cbn [m' set_m_timers m_timers]; by rewrite length_insert).
  assert (Hi' : m_timers m' !! k = Some (set_state TIMER_STATE_FREE tk)).
  { cbn [m' set_m_timers m_timers]. apply list_lookup_insert_eq.
    by rewrite Hlen. }
  assert (Hin : in_pool (Slot (Z.of_nat k)) = true) by (by apply in_pool_Slot).
  assert (Hl : load (Slot (Z.of_nat k)) m' =
               Some (set_state TIMER_STATE_FREE tk))
    by (by rewrite load_Slot).
  split; [ done | ].
  split; [ by apply (soft_timer_start_not_stopped _ _ _ Hin Hl) | ].
  split; [ by apply (soft_timer_stop_not_running _ _ _ Hin Hl) | ].
  split; [ intros cb reload rep Hr;
           by apply (soft_timer_set_not_stopped _ _ _ _ _ _ Hin Hl) | ].
  split.
  - unfold soft_timer_destroy. rewrite Hin, Hl.
    by rewrite bool_decide_eq_false_2.
  - pose proof (soft_timer_create_effect m') as H.
    destruct (soft_timer_create m') as [p m2]. cbn [fst].
    destruct H as [(_ & _ & Hnone) | (j & t & -> & _ & _ & _ & Hbefore & _)].
    + exfalso. by apply (Hnone k _ Hk Hi').
    + exists j. split; [ | done ].
      destruct (le_lt_dec j k) as [ | Hlt]; [ done | ].
      exfalso. by apply (Hbefore k _ Hlt Hi').
Qed.

Lemma destroyed_slot_refuses_witness :
  soft_timer_start (Slot (Z.of_nat 0))
    (soft_timer_destroy (Slot (Z.of_nat 0)) (run booted [Create])).2
  = (SOFT_TIMER_STATUS_INVALID_STATE,
     (soft_timer_destroy (Slot (Z.of_nat 0)) (run booted [Create])).2).
Proof.
  assert (Hlen : length (m_timers (run booted [Create]))
                 = SOFT_TIMER_MAX_TIMERS)
    by (vm_compute; reflexivity).
  assert (Hi : m_timers (run booted [Create]) !! 0%nat =
               Some {| state := TIMER_STATE_STOPPED; id := 0; reload_ms := 0;
                       countdown_ms := 0xFFFFFFFF; repeat := false;
                       callback := None |})
    by (vm_compute; reflexivity).
  exact (proj1 (proj2 (destroyed_slot_refuses 0 _ (run booted [Create])
                         Hlen Hi eq_refl))).
Defined.

(** The pool fills from index 0. *)
Lemma taken_below_create (j : nat) m :
  taken_below j m ->
  (j < SOFT_TIMER_MAX_TIMERS)%nat ->
  (soft_timer_create m).1 = Slot (Z.of_nat j)
  /\ taken_below (S j) (soft_timer_create m).2.
Proof.
  intros [Hlen Hst] Hj. pose proof (soft_timer_create_effect m) as H.
  destruct (soft_timer_create m) as [p m1]. cbn [fst snd].
  destruct (lookup_lt_is_Some_2 (m_timers m) j ltac:(lia)) as [tj Htj].
  destruct H as [(_ & _ & Hnone) | (k & t & -> & Hk & Hlk & Hfree & Hbefore & ->)].
  - exfalso. apply (Hnone j tj Hj Htj). apply (Hst j tj Htj). lia.
  - assert (k = j) as ->.
    { destruct (lt_eq_lt_dec k j) as [[Hlt | ->] | Hgt]; [ | done | ].
      - exfalso. by apply (proj1 (Hst k t Hlk) Hlt).
      - exfalso. apply (Hbefore j tj Hgt Htj). apply (Hst j tj Htj). lia. }
    split; [ done | ]. split; cbn [set_m_timers m_timers].
    + by rewrite length_insert.
    + intros i ti Hi. apply list_lookup_insert_Some in Hi
        as [(<- & <- & _) | (Hne & Hi)].
      * split; [ intros _; discriminate | lia ].
      * destruct (Hst i ti Hi) as [H1 H2]. split; intros; [ apply H1 | apply H2 ]; lia.
Qed.

Lemma taken_below_full m :
  taken_below SOFT_TIMER_MAX_TIMERS m -> soft_timer_create m = (NULL, m).
Proof.
  intros [Hlen Hst]. pose proof (soft_timer_create_effect m) as H.
  destruct (soft_timer_create m) as [p m1].
  destruct H as [(-> & -> & _) | (k & t & _ & Hk & Hlk & Hfree & _)];
    [ done | ].
  exfalso. by apply (proj1 (Hst k t Hlk) Hk).
Qed.

Lemma create_n_taken_below (n : nat) : forall j m,
  taken_below j m ->
  (j + n <= SOFT_TIMER_MAX_TIMERS)%nat ->
  (create_n n m).1 = (fun i : nat => Slot (Z.of_nat i)) <$> seq j n
  /\ taken_below (j + n) (create_n n m).2.
Proof.
  induction n as [ | n IH]; intros j m Hm Hjn.
  - cbn. by rewrite Nat.add_0_r.
  - cbn [create_n].
    destruct (taken_below_create j m Hm ltac:(lia)) as [Hp Hm1].
    destruct (soft_timer_create m) as [p m1]. cbn [fst snd] in Hp, Hm1.
    destruct (IH (S j) m1 Hm1 ltac:(lia)) as [Hps Hm2].
    destruct (create_n n m1) as [ps m2]. cbn [fst snd] in *.
    split.
    + by rewrite Hp, Hps.
    + by replace (j + S n)%nat with (S j + n)%nat by lia.
Qed.

(** X8. The pool holds exactly [SOFT_TIMER_MAX_TIMERS] timers.  From a
    pool whose slots are all Free (as [soft_timer_init] leaves it),
    successive calls of [soft_timer_create] return the slots 0, 1, ... in
    order, each a different pointer into the pool, and the call after the
    last slot returns [NULL] and changes nothing. *)
Theorem pool_capacity (m : soft_timer_module) :
  length (m_timers m) = SOFT_TIMER_MAX_TIMERS ->
  (forall (i : nat) t, m_timers m !! i = Some t ->
     state t = TIMER_STATE_FREE) ->
  forall n : nat, (n <= SOFT_TIMER_MAX_TIMERS)%nat ->
    let '(ps, m') := create_n n m in
    ps = (fun i : nat => Slot (Z.of_nat i)) <$> seq 0 n
    /\ Forall (fun p => in_pool p = true) ps
    /\ NoDup ps
    /\ (n = SOFT_TIMER_MAX_TIMERS -> soft_timer_create m' = (NULL, m')).
Proof.
  intros Hlen Hfree n Hn.
  assert (Hm : taken_below 0 m).
  { split; [ done | ]. intros i t Hi. split; [ lia | ]. intros _.
    by apply (Hfree i). }
  destruct (create_n_taken_below n 0 m Hm ltac:(lia)) as [Hps Hm'].
  destruct (create_n n m) as [ps m']. cbn [fst snd] in *. subst ps.
  split; [ done | ]. split; [ | split ].
  - apply Forall_fmap. apply list.Forall_forall. intros i Hi.
    apply elem_of_seq in Hi. cbn beta. apply in_pool_Slot. lia.
  - apply NoDup_fmap_2; [ | apply NoDup_seq ].
    intros i1 i2 E. injection E as E. lia.
  - intros ->. by apply taken_below_full.
Qed.

Lemma pool_capacity_witness :
  let '(ps, m') := create_n SOFT_TIMER_MAX_TIMERS booted in
  soft_timer_create m' = (NULL, m').
Proof.
  assert (Hlen : length (m_timers booted) = SOFT_TIMER_MAX_TIMERS)
    by (vm_compute; reflexivity).
  assert (Hfree : forall (i : nat) t, m_timers booted !! i = Some t ->
                    state t = TIMER_STATE_FREE).
  { assert (Hall : Forall (fun t => state t = TIMER_STATE_FREE)
                     (m_timers booted))
      by (vm_compute; repeat constructor).
    intros i t Hi. rewrite list.Forall_forall in Hall. apply Hall.
    eapply list_elem_of_lookup_2. exact Hi. }
  pose proof (pool_capacity booted Hlen Hfree SOFT_TIMER_MAX_TIMERS
                (Nat.le_refl _)) as H.
  destruct (create_n SOFT_TIMER_MAX_TIMERS booted) as [ps m'].
  destruct H as (_ & _ & _ & H). exact (H eq_refl).
Defined.

(** ** Initialization *)

(** X9. The first [soft_timer_init] resets the pool: every slot is Free,
    numbered by its index, holds the sentinel and has no repeat flag; the
    maximum reload is the argument capped at 0xFFFFFFFE and is written to
    the reload register; counter and counter enable are left alone. *)
Theorem soft_timer_init_first (mx : Z) (m : soft_timer_module) :
  length (m_timers m) = SOFT_TIMER_MAX_TIMERS ->
  m_is_initialized m = false ->
  let m' := soft_timer_init mx m in
  (forall (i : nat) t, m_timers m !! i = Some t ->
     m_timers m' !! i =
       Some {| state := TIMER_STATE_FREE; id := Z.of_nat i;
               reload_ms := reload_ms t;
               countdown_ms := STOPPED_TIMER_COUNTDOWN_VALUE;
               repeat := false; callback := callback t |})
  /\ length (m_timers m') = SOFT_TIMER_MAX_TIMERS
  /\ m_max_reload_ms m' = Z.min mx 0xFFFFFFFE
  /\ htim m' = {| ARR := Z.min mx 0xFFFFFFFE; CNT := CNT (htim m);
                  CEN := CEN (htim m) |}
  /\ m_is_initialized m' = true
  /\ calls m' = calls m
  /\ (soft_timer_create m').1 = Slot 0.
Proof.
  intros Hlen Hini m'. unfold m'. rewrite soft_timer_init_eq by done.
  rewrite Hini. cbn [m_timers m_max_reload_ms htim m_is_initialized calls].
  rewrite utils_min_spec.
  assert (Hlk : forall (i : nat) t, m_timers m !! i = Some t ->
            init_slots 0 (m_timers m) !! i =
              Some {| state := TIMER_STATE_FREE; id := Z.of_nat i;
                      reload_ms := reload_ms t;
                      countdown_ms := STOPPED_TIMER_COUNTDOWN_VALUE;
                      repeat := false; callback := callback t |}).
  { intros i t Hi. rewrite lookup_init_slots, Hi. reflexivity. }
  split; [ exact Hlk | ].
  split; [ by rewrite length_init_slots | ].
  change (0xFFFFFFFF - 1) with 0xFFFFFFFE.
  split; [ done | ]. split; [ done | ]. split; [ done | ]. split; [ done | ].
  set (m1 := {| m_timers := init_slots 0 (m_timers m) |}).
  assert (Hm1 : taken_below 0 m1).
  { split; [ cbn; by rewrite length_init_slots | ].
    intros i t Hi. split; [ lia | ]. intros _. cbn [m1 m_timers] in Hi.
    rewrite lookup_init_slots in Hi.
    destruct (m_timers m !! i); [ | discriminate ].
    by injection Hi as <-. }
  apply (taken_below_create 0 m1 Hm1).
  unfold SOFT_TIMER_MAX_TIMERS. lia.
Qed.

Lemma soft_timer_init_first_witness :
  m_timers (soft_timer_init 0xFFFF (power_on tim0)) !! 3%nat =
    Some {| state := TIMER_STATE_FREE; id := Z.of_nat 3;
            reload_ms := 0;
            countdown_ms := STOPPED_TIMER_COUNTDOWN_VALUE;
            repeat := false; callback := None |}.
Proof.
  destruct (soft_timer_init_first 0xFFFF (power_on tim0) eq_refl eq_refl)
    as (H & _).
  exact (H 3%nat zero_timer eq_refl).
Defined.

Lemma module_cfg_insert i t m :
  module_cfg m -> module_cfg (set_m_timers (<[i := t]> (m_timers m)) m).
Proof.
  intros (Hlen & Hini & Hmax). unfold module_cfg. cbn.
  by rewrite length_insert.
Qed.

Lemma module_cfg_timers_update x m :
  module_cfg m -> module_cfg (timers_update x m).
Proof.
  intros (Hlen & Hini & Hmax). unfold module_cfg.
  rewrite timers_update_eq by done. cbn.
  by rewrite length_step_slots.
Qed.

Lemma module_cfg_init mx m :
  length (m_timers m) = SOFT_TIMER_MAX_TIMERS ->
  module_cfg (soft_timer_init mx m).
Proof.
  intros Hlen. rewrite soft_timer_init_eq by done. unfold module_cfg.
  pose proof (utils_min_spec mx (0xFFFFFFFF - 1)) as E.
  destruct (m_is_initialized m) eqn:Hini; cbn; rewrite E.
  - split; [ done | ]. split; [ done | lia ].
  - rewrite length_init_slots. split; [ done | ]. split; [ done | lia ].
Qed.

Lemma module_cfg_step m op : module_cfg m -> module_cfg (step m op).
Proof.
  intros Hm. pose proof Hm as (Hlen & Hini & Hmax).
  destruct op as
    [mx | | timer | timer cb reload rep | timer | timer | timer | | x | c];
    cbn [step].
  - by apply module_cfg_init.
  - pose proof (soft_timer_create_effect m) as H.
    destruct (soft_timer_create m) as [p m'].
    destruct H as [(_ & -> & _) | (k & t & _ & _ & _ & _ & _ & ->)];
      [ done | by apply module_cfg_insert ].
  - destruct (soft_timer_destroy_effect timer m Hlen)
      as [-> | (i & t & _ & _ & _ & _ & ->)];
      [ done | by apply module_cfg_insert ].
  - destruct (soft_timer_set_effect timer cb reload rep m Hlen)
      as [(s & _ & ->) | (i & t & _ & _ & _ & _ & _ & ->)];
      [ done | by apply module_cfg_insert ].
  - destruct (soft_timer_start_effect timer m Hlen)
      as [(s & _ & ->) | (i & t & _ & _ & _ & _ & _ & ->)]; [ done | ].
    cbn [snd]. apply module_cfg_timers_update, module_cfg_insert.
    by apply module_cfg_timers_update.
  - destruct (soft_timer_stop_effect timer m Hlen)
      as [(s & _ & ->) | (i & t & _ & _ & _ & _ & ->)]; [ done | ].
    cbn [snd]. by apply module_cfg_timers_update, module_cfg_insert.
  - done.
  - by apply module_cfg_timers_update.
  - by apply module_cfg_timers_update.
  - done.
Qed.

Lemma module_cfg_run ops : forall m, module_cfg m -> module_cfg (run m ops).
Proof.
  induction ops as [ | op ops IH]; intros m Hm; [ done | ].
  cbn. apply IH. by apply module_cfg_step.
Qed.


(** X11. The sentinel is never a legal reload value, nor are 0 and 1: in
    every state reached after [soft_timer_init] the maximum reload value is
    at most 0xFFFFFFFE, and [soft_timer_set] with a reload value of at most
    1 or of at least 0xFFFFFFFF returns the invalid-parameter status and
    changes nothing, whatever the pointer and the state of its slot. *)
Theorem reload_out_of_range_rejected (tim : TIM_HandleTypeDef) (mx : Z)
    (ops : list operation) (timer : soft_timer_ptr)
    (cb : soft_timer_callback_t) (reload : Z) (rep : bool) :
  let m := run (soft_timer_init mx (power_on tim)) ops in
  reload <= 1 \/ STOPPED_TIMER_COUNTDOWN_VALUE <= reload ->
  m_max_reload_ms m <= 0xFFFFFFFE
  /\ soft_timer_set timer cb reload rep m
     = (SOFT_TIMER_STATUS_INVALID_PARAMETER, m).
Proof.
  intros m Hr.
  assert (Hm : module_cfg m)
    by (apply module_cfg_run, module_cfg_init; reflexivity).
  destruct Hm as (_ & _ & Hmax). split; [ exact Hmax | ].
  unfold soft_timer_set. destruct (in_pool timer); [ | done ]. cbn [negb].
  unfold STOPPED_TIMER_COUNTDOWN_VALUE in Hr.
  destruct (Z.leb_spec reload 1) as [ | H1]; [ done | ].
  destruct (Z.ltb_spec (m_max_reload_ms m) reload) as [ | H2]; [ done | ].
  exfalso. change (0xFFFFFFFF - 1) with 0xFFFFFFFE in Hmax. lia.
Qed.

Lemma reload_out_of_range_rejected_witness :
  soft_timer_set (Slot 0) None STOPPED_TIMER_COUNTDOWN_VALUE false
    (run (soft_timer_init 0xFFFFFFFF (power_on tim0)) [Create])
  = (SOFT_TIMER_STATUS_INVALID_PARAMETER,
     run (soft_timer_init 0xFFFFFFFF (power_on tim0)) [Create]).
Proof.
  refine (proj2 (reload_out_of_range_rejected tim0 0xFFFFFFFF [Create]
                   (Slot 0) None STOPPED_TIMER_COUNTDOWN_VALUE false _)).
  right. lia.
Defined.

(** ** What an update touches *)

(** X12. An update touches only Running slots and only their countdown,
    state and repeat flag: every slot that is not Running is left exactly
    as it was, no slot becomes Running, the reload value, callback and id
    of every slot are kept, as are the configuration of the module and the
    calls logged so far. *)
Theorem timers_update_frame (x : Z) (m : soft_timer_module) :
  length (m_timers m) = SOFT_TIMER_MAX_TIMERS ->
  let m' := timers_update x m in
  (forall (i : nat) t, m_timers m !! i = Some t ->
     exists t', m_timers m' !! i = Some t'
       /\ id t' = id t /\ reload_ms t' = reload_ms t
       /\ callback t' = callback t
       /\ (state t <> TIMER_STATE_RUNNING -> t' = t)
       /\ (state t' = TIMER_STATE_RUNNING -> state t = TIMER_STATE_RUNNING))
  /\ length (m_timers m') = length (m_timers m)
  /\ m_max_reload_ms m' = m_max_reload_ms m
  /\ m_is_initialized m' = m_is_initialized m
  /\ exists cs, calls m' = calls m ++ cs.
Proof.
  intros Hlen m'. unfold m'. rewrite timers_update_eq by done.
  cbn [m_timers m_max_reload_ms m_is_initialized calls].
  split; [ | split; [ by rewrite length_step_slots | ] ].
  - intros i t Hi. eexists. split.
    + rewrite lookup_step_slots, Hi. reflexivity.
    + split; [ apply id_timer_step | ].
      split; [ apply reload_ms_timer_step | ].
      split; [ apply callback_timer_step | ]. split.
      * intros NR. by rewrite timer_step_not_running.
      * apply timer_step_running_after.
  - split; [ done | ]. split; [ done | ]. by eexists.
Qed.

Lemma timers_update_frame_witness :
  length (m_timers (timers_update 4 one_shot_started))
  = length (m_timers one_shot_started).
Proof.
  assert (Hlen : length (m_timers one_shot_started) = SOFT_TIMER_MAX_TIMERS)
    by (vm_compute; reflexivity).
  exact (proj1 (proj2 (timers_update_frame 4 one_shot_started Hlen))).
Defined.

(** The offsets of the calls made while stepping the slots from index
    [k0] on are increasing and at least [k0]. *)
Lemma step_calls_sorted s l : forall k0,
  StronglySorted Z.lt (call_offset <$> step_calls k0 s l)
  /\ Forall (fun c => Z.of_nat k0 <= call_offset c) (step_calls k0 s l).
Proof.
  induction l as [ | t l IH]; intros k0.
  - cbn. split; constructor.
  - cbn [step_calls]. destruct (IH (S k0)) as [Hs Hf].
    assert (Hf' : Forall (fun c => Z.of_nat k0 < call_offset c)
                    (step_calls (S k0) s l)).
    { eapply list.Forall_impl; [ exact Hf | ]. intros c Hc. cbn beta in Hc. lia. }
    destruct (timer_step_calls (Slot (Z.of_nat k0)) t s) as [-> | ->].
    + cbn [app]. split; [ done | ].
      eapply list.Forall_impl; [ exact Hf' | ]. intros c Hc. cbn beta in *. lia.
    + unfold invoke_callback. destruct (callback _); cbn [app fmap list_fmap].
      * split.
        -- apply SSorted_cons; [ done | ].
           apply Forall_fmap. exact Hf'.
        -- constructor; [ cbn; lia | ].
           eapply list.Forall_impl; [ exact Hf' | ].
           intros c Hc. cbn beta in *. lia.
      * split; [ done | ].
        eapply list.Forall_impl; [ exact Hf' | ].
        intros c Hc. cbn beta in *. lia.
Qed.

Lemma step_calls_origin s l : forall k0 c,
  c ∈ step_calls k0 s l ->
  exists (i : nat) t fn,
    l !! i = Some t /\ call_arg c = Slot (Z.of_nat (k0 + i))
    /\ state t = TIMER_STATE_RUNNING /\ callback t = Some fn
    /\ call_fn c = fn
    /\ state (call_view c) = TIMER_STATE_RUNNING
    /\ countdown_ms (call_view c) = 0.
Proof.
  induction l as [ | t l IH]; intros k0 c Hc; cbn [step_calls] in Hc.
  - by apply elem_of_nil in Hc.
  - apply elem_of_app in Hc as [Hc | Hc].
    + exists 0%nat, t. rewrite Nat.add_0_r.
      destruct (state_dec t) as [R | NR];
        [ | rewrite timer_step_not_running in Hc by done;
            by apply elem_of_nil in Hc ].
      destruct (timer_step_calls (Slot (Z.of_nat k0)) t s) as [E | E];
        rewrite E in Hc; [ by apply elem_of_nil in Hc | ].
      unfold invoke_callback in Hc. cbn [callback set_countdown_ms] in Hc.
      destruct (callback t) as [fn | ] eqn:Hcb; [ | by apply elem_of_nil in Hc ].
      apply list_elem_of_singleton in Hc. subst c. exists fn. cbn.
      repeat split; done.
    + destruct (IH (S k0) c Hc) as (i & ti & fn & Hi & Ha & Hrest).
      exists (S i), ti, fn. split; [ done | ].
      split; [ | done ].
      rewrite Ha. f_equal. lia.
Qed.

(** X13. Within one update, callbacks run in slot order and at most once
    per slot: the calls an update adds to the log have strictly increasing
    slot indices, and each is the callback of a slot that was Running,
    called with that slot's pointer while the slot shows countdown 0 and
    is still Running. *)
Theorem callbacks_in_slot_order (x : Z) (m : soft_timer_module) :
  length (m_timers m) = SOFT_TIMER_MAX_TIMERS ->
  exists cs,
    calls (timers_update x m) = calls m ++ cs
    /\ StronglySorted Z.lt (call_offset <$> cs)
    /\ forall c, c ∈ cs ->
         exists (i : nat) t,
           m_timers m !! i = Some t /\ call_arg c = Slot (Z.of_nat i)
           /\ state t = TIMER_STATE_RUNNING
           /\ callback t = Some (call_fn c)
           /\ state (call_view c) = TIMER_STATE_RUNNING
           /\ countdown_ms (call_view c) = 0.
Proof.
  intros Hlen. exists (step_calls 0 (uint16 x) (m_timers m)).
  split; [ by rewrite timers_update_eq | ].
  split; [ apply step_calls_sorted | ].
  intros c Hc.
  destruct (step_calls_origin _ _ _ _ Hc)
    as (i & t & fn & Hi & Ha & R & Hcb & Hfn & Hv).
  exists i, t. rewrite Hfn. cbn [Nat.add] in Ha. done.
Qed.

Lemma callbacks_in_slot_order_witness :
  exists cs,
    calls (timers_update 9 one_shot_started) = calls one_shot_started ++ cs
    /\ StronglySorted Z.lt (call_offset <$> cs).
Proof.
  assert (Hlen : length (m_timers one_shot_started) = SOFT_TIMER_MAX_TIMERS)
    by (vm_compute; reflexivity).
  destruct (callbacks_in_slot_order 9 one_shot_started Hlen)
    as (cs & H1 & H2 & _).
  exists cs. split; [ exact H1 | exact H2 ].
Defined.

(** ** Periodic timers *)

Lemma set_countdown_ms_same t c :
  countdown_ms t = c -> set_countdown_ms c (set_countdown_ms 0 t) = t.
Proof. destruct t. cbn. by intros ->. Qed.

(** One full period of a repeating timer. *)
Lemma timer_step_period p t :
  state t = TIMER_STATE_RUNNING ->
  repeat t = true ->
  2 <= reload_ms t <= 2 ^ 16 ->
  countdown_ms t = reload_ms t - 1 ->
  timer_step p t (uint16 (reload_ms t - 1))
  = (t, invoke_callback p (set_countdown_ms 0 t)).
Proof.
  intros R Hrep Hr Hc. rewrite uint16_small by lia.
  rewrite (timer_step_running _ _ _ R), Hc.
  destruct (Z.eqb_spec (reload_ms t - 1) 0) as [ | _]; [ lia | ].
  cbn [andb]. cbn zeta. cbn [countdown_ms set_countdown_ms repeat reload_ms].
  rewrite sub32_small, Z.sub_diag by lia. cbn [Z.eqb negb].
  rewrite Hrep, sub32_small by lia.
  by rewrite set_countdown_ms_same.
Qed.

Lemma timer_steps_periods p t (n : nat) :
  state t = TIMER_STATE_RUNNING ->
  repeat t = true ->
  2 <= reload_ms t <= 2 ^ 16 ->
  countdown_ms t = reload_ms t - 1 ->
  (timer_steps p t (replicate n (reload_ms t - 1))).1 = t
  /\ length (timer_steps p t (replicate n (reload_ms t - 1))).2
     = (n * length (invoke_callback p (set_countdown_ms 0 t)))%nat.
Proof.
  intros R Hrep Hr Hc. induction n as [ | n [IH1 IH2]]; [ done | ].
  cbn [replicate timer_steps]. rewrite (timer_step_period p t R Hrep Hr Hc).
  destruct (timer_steps p t (replicate n (reload_ms t - 1))) as [t2 cs2].
  cbn [fst snd] in *. split; [ done | ]. rewrite length_app, IH2. lia.
Qed.

(** X14. A repeating timer does not drift under exact advances: Running
    with countdown [r - 1] (as start and every reload leave it), it is
    back in exactly the same state after each advance of [r - 1], and [n]
    such advances call its callback exactly [n] times. *)
Theorem repeating_timer_period (k : nat) (tk : soft_timer) (fn : nat)
    (n : nat) (m : soft_timer_module) :
  length (m_timers m) = SOFT_TIMER_MAX_TIMERS ->
  m_timers m !! k = Some tk ->
  state tk = TIMER_STATE_RUNNING ->
  repeat tk = true ->
  callback tk = Some fn ->
  2 <= reload_ms tk <= 2 ^ 16 ->
  countdown_ms tk = reload_ms tk - 1 ->
  let m' := run m (Advance <$> replicate n (reload_ms tk - 1)) in
  m_timers m' !! k = Some tk
  /\ calls_for (Slot (Z.of_nat k)) (calls m')
     = (calls_for (Slot (Z.of_nat k)) (calls m) + n)%nat.
Proof.
  intros Hlen Hi R Hrep Hcb Hr Hc m'.
  destruct (advances_slot (replicate n (reload_ms tk - 1)) m k tk Hlen Hi)
    as (_ & H1 & H2).
  destruct (timer_steps_periods (Slot (Z.of_nat k)) tk n R Hrep Hr Hc)
    as [E1 E2].
  fold m' in H1, H2. rewrite E1 in H1. rewrite E2 in H2.
  rewrite (length_invoke_callback _ _ fn) in H2 by done.
  split; [ exact H1 | ]. rewrite H2. lia.
Qed.

Lemma repeating_timer_period_witness :
  let m := run booted [Create; Configure (Slot 0) (Some 7%nat) 5 true;
                       Start (Slot 0)] in
  calls_for (Slot (Z.of_nat 0))
    (calls (run m (Advance <$> replicate 100 (5 - 1))))
  = (calls_for (Slot (Z.of_nat 0)) (calls m) + 100)%nat.
Proof.
  intros m.
  assert (Hlen : length (m_timers m) = SOFT_TIMER_MAX_TIMERS)
    by (vm_compute; reflexivity).
  assert (Hi : m_timers m !! 0%nat =
               Some {| state := TIMER_STATE_RUNNING; id := 0; reload_ms := 5;
                       countdown_ms := 4; repeat := true;
                       callback := Some 7%nat |})
    by (vm_compute; reflexivity).
  assert (Hr : 2 <= 5 <= 2 ^ 16) by lia.
  exact (proj2 (repeating_timer_period 0 _ 7 100 m Hlen Hi eq_refl eq_refl
                  eq_refl Hr eq_refl)).
Defined.

(** ** The hardware timer follows the pool *)

Lemma slot_live_timer_step p t s :
  slot_ok t -> slot_live t -> 0 <= s -> step_fits s t ->
  slot_live (timer_step p t s).1.
Proof.
  intros [_ Hrun] Hlive Hs Hfit. destruct (state_dec t) as [R | NR].
  - rewrite (timer_step_running _ _ _ R).
    destruct (Hrun R) as [Hc Hr]. specialize (Hfit R). specialize (Hlive R).
    destruct (Z.eqb_spec (countdown_ms t) 0) as [ | _]; [ lia | ].
    cbn [andb]. cbn zeta. cbn [countdown_ms set_countdown_ms repeat reload_ms].
    rewrite sub32_small by lia. unfold slot_live.
    destruct (Z.eqb_spec (countdown_ms t - s) 0) as [E | NE]; cbn [negb].
    + destruct (repeat t); cbn.
      * rewrite sub32_small by lia. intros _. lia.
      * discriminate.
    + cbn. intros _. lia.
  - by rewrite (timer_step_not_running _ _ _ NR).
Qed.

(** X15. After an update the hardware timer counts exactly when a timer is
    Running.  On a pool that satisfies the slot invariant, where every
    Running slot has at least 1 ms left, and for a step that does not
    overshoot: the counter is enabled after [timers_update] if and only if
    some slot is Running; the reload register does not exceed the countdown
    of any Running slot; and every Running slot again has at least 1 ms
    left. *)
Theorem hardware_counts_iff_running (x : Z) (m : soft_timer_module) :
  length (m_timers m) = SOFT_TIMER_MAX_TIMERS ->
  Forall slot_ok (m_timers m) ->
  Forall slot_live (m_timers m) ->
  Forall (step_fits (uint16 x)) (m_timers m) ->
  let m' := timers_update x m in
  (CEN (htim m') = true <->
   exists t, t ∈ m_timers m' /\ state t = TIMER_STATE_RUNNING)
  /\ (forall t, t ∈ m_timers m' -> state t = TIMER_STATE_RUNNING ->
        ARR (htim m') <= countdown_ms t)
  /\ Forall slot_ok (m_timers m')
  /\ Forall slot_live (m_timers m').
Proof.
  intros Hlen Hok Hlive Hfit m'. unfold m'.
  rewrite timers_update_eq by done. cbn zeta.
  rewrite soft_timers_update_fst by done. cbn zeta.
  cbn [m_timers htim ARR CEN].
  set (pool' := step_slots 0 (uint16 x) (m_timers m)).
  assert (Hok' : Forall slot_ok pool')
    by (apply step_slots_ok; [ apply uint16_range | done | done ]).
  assert (Hlive' : Forall slot_live pool').
  { unfold pool'.
    assert (Hall : Forall (fun t => slot_ok t /\ slot_live t
                                    /\ step_fits (uint16 x) t) (m_timers m)).
    { rewrite list.Forall_forall in Hok, Hlive, Hfit.
      apply list.Forall_forall. intros t Hin.
      split; [ by apply Hok | ]. split; [ by apply Hlive | by apply Hfit ]. }
    eapply Forall_step_slots; [ | exact Hall ].
    intros p t (H1 & H2 & H3).
    apply slot_live_timer_step; [ done | done | apply uint16_range | done ]. }
  destruct (next_timeout_spec pool' Hok') as [Hnone Hsome].
  destruct (next_timeout_bounds pool' Hok') as [Hv0 Hvle].
  destruct (min_countdown_spec pool' STOPPED_TIMER_COUNTDOWN_VALUE
              (Forall_slot_ok_bounded pool' Hok') ltac:(lia))
    as (_ & _ & H3).
  cbn zeta in Hnone, Hsome, Hv0, Hvle.
  set (raw := min_countdown STOPPED_TIMER_COUNTDOWN_VALUE pool') in *.
  set (v := if raw =? STOPPED_TIMER_COUNTDOWN_VALUE then 0 else raw) in *.
  split; [ | split; [ | split; [ exact Hok' | exact Hlive' ] ] ].
  - split.
    + intros Hcen. destruct H3 as [E | (t & Hin & R & _)]; [ | by exists t ].
      exfalso. unfold v in Hcen. rewrite E in Hcen. by cbn in Hcen.
    + intros Hex. destruct (Hsome Hex) as (_ & Ev & (t & Hin & R & Hc) & _).
      rewrite list.Forall_forall in Hlive'. specialize (Hlive' t Hin R).
      destruct (Z.eqb_spec v 0) as [E0 | ]; [ lia | done ].
  - intros t Hin R. specialize (Hvle t Hin R). rewrite utils_min_spec. lia.
Qed.

Lemma hardware_counts_iff_running_witness :
  let m := run (soft_timer_init 0xFFFF (power_on tim0))
             [Create; Configure (Slot 0) (Some 7%nat) 10 false;
              Start (Slot 0)] in
  CEN (htim (timers_update 4 m)) = true <->
  exists t, t ∈ m_timers (timers_update 4 m) /\ state t = TIMER_STATE_RUNNING.
Proof.
  intros m.
  assert (Hal : run_allowed (soft_timer_init 0xFFFF (power_on tim0))
                  [Create; Configure (Slot 0) (Some 7%nat) 10 false;
                   Start (Slot 0)] = true)
    by (vm_compute; reflexivity).
  assert (Hm : module_ok m).
  { apply module_ok_run; [ apply module_ok_after_init; lia | exact Hal ]. }
  assert (Harr : ARR (htim m) = 9) by (vm_compute; reflexivity).
  destruct Hm as (Hlen & _ & _ & Hpool).
  assert (Hok : Forall slot_ok (m_timers m)).
  { eapply list.Forall_impl; [ exact Hpool | ]. by intros t (? & _). }
  assert (Hfit : Forall (step_fits (uint16 4)) (m_timers m)).
  { eapply list.Forall_impl; [ exact Hpool | ].
    intros t (_ & _ & _ & Ha) R. specialize (Ha R). rewrite Harr in Ha.
    rewrite uint16_small by lia. lia. }
  assert (Hlive : Forall slot_live (m_timers m)).
  { eapply list.Forall_impl; [ exact Hpool | ].
    intros t (_ & _ & _ & Ha) R. specialize (Ha R). rewrite Harr in Ha. lia. }
  exact (proj1 (hardware_counts_iff_running 4 m Hlen Hok Hlive Hfit)).
Defined.

(** ** From start to expiry *)

Lemma step_slots_idle k0 s l :
  (forall (i : nat) ti, l !! i = Some ti -> state ti <> TIMER_STATE_RUNNING) ->
  step_slots k0 s l = l.
Proof.
  revert k0. induction l as [ | t l IH]; intros k0 H; [ done | ].
  cbn [step_slots]. rewrite (timer_step_not_running _ t s (H 0%nat t eq_refl)).
  cbn [fst]. f_equal. apply IH. intros i ti Hi. exact (H (S i) ti Hi).
Qed.

Lemma step_calls_idle k0 s l :
  (forall (i : nat) ti, l !! i = Some ti -> state ti <> TIMER_STATE_RUNNING) ->
  step_calls k0 s l = [].
Proof.
  revert k0. induction l as [ | t l IH]; intros k0 H; [ done | ].
  cbn [step_calls]. rewrite (timer_step_not_running _ t s (H 0%nat t eq_refl)).
  cbn [snd app]. apply IH. intros i ti Hi. exact (H (S i) ti Hi).
Qed.

Lemma step_slots_one k0 s l (k : nat) t :
  l !! k = Some t ->
  (forall (i : nat) ti, i <> k -> l !! i = Some ti ->
     state ti <> TIMER_STATE_RUNNING) ->
  step_slots k0 s l
  = <[k := (timer_step (Slot (Z.of_nat (k0 + k))) t s).1]> l.
Proof.
  revert k0 k. induction l as [ | t0 l IH]; intros k0 k Hk H; [ done | ].
  destruct k as [ | k]; cbn [step_slots].
  - injection Hk as ->. rewrite Nat.add_0_r. cbn. f_equal.
    apply step_slots_idle. intros i ti Hi.
    exact (H (S i) ti ltac:(lia) Hi).
  - rewrite (timer_step_not_running _ t0 s (H 0%nat t0 ltac:(lia) eq_refl)).
    cbn. f_equal. rewrite (IH (S k0) k Hk).
    + by replace (S k0 + k)%nat with (k0 + S k)%nat by lia.
    + intros i ti Hne Hi. exact (H (S i) ti ltac:(lia) Hi).
Qed.

Lemma step_calls_one k0 s l (k : nat) t :
  l !! k = Some t ->
  (forall (i : nat) ti, i <> k -> l !! i = Some ti ->
     state ti <> TIMER_STATE_RUNNING) ->
  step_calls k0 s l = (timer_step (Slot (Z.of_nat (k0 + k))) t s).2.
Proof.
  revert k0 k. induction l as [ | t0 l IH]; intros k0 k Hk H; [ done | ].
  destruct k as [ | k]; cbn [step_calls].
  - injection Hk as ->. rewrite Nat.add_0_r.
    rewrite step_calls_idle; [ by rewrite app_nil_r | ].
    intros i ti Hi. exact (H (S i) ti ltac:(lia) Hi).
  - rewrite (timer_step_not_running _ t0 s (H 0%nat t0 ltac:(lia) eq_refl)).
    cbn [snd app]. rewrite (IH (S k0) k Hk).
    + by replace (S k0 + k)%nat with (k0 + S k)%nat by lia.
    + intros i ti Hne Hi. exact (H (S i) ti ltac:(lia) Hi).
Qed.

Lemma min_countdown_idle l :
  Forall slot_bounded l ->
  (forall t, t ∈ l -> state t <> TIMER_STATE_RUNNING) ->
  min_countdown STOPPED_TIMER_COUNTDOWN_VALUE l = STOPPED_TIMER_COUNTDOWN_VALUE.
Proof.
  intros Hb Hidle.
  destruct (min_countdown_spec l STOPPED_TIMER_COUNTDOWN_VALUE Hb ltac:(lia))
    as (_ & _ & [E | (t & Hin & R & _)]); [ exact E | ].
  by destruct (Hidle t Hin).
Qed.

Lemma min_countdown_single l c :
  Forall slot_bounded l ->
  (exists t, t ∈ l /\ state t = TIMER_STATE_RUNNING /\ countdown_ms t = c) ->
  (forall t, t ∈ l -> state t = TIMER_STATE_RUNNING -> countdown_ms t = c) ->
  min_countdown STOPPED_TIMER_COUNTDOWN_VALUE l = c.
Proof.
  intros Hb (t0 & Hin0 & R0 & E0) Hall.
  destruct (min_countdown_spec l STOPPED_TIMER_COUNTDOWN_VALUE Hb ltac:(lia))
    as (_ & H2 & H3). cbn zeta in H2, H3.
  destruct H3 as [E | (t & Hin & R & E)].
  - specialize (H2 t0 Hin0). rewrite list.Forall_forall in Hb.
    destruct (Hb t0 Hin0) as [_ Hle]. lia.
  - rewrite <- E. by apply Hall.
Qed.

(** What [timers_update] does when exactly slot [k] is Running. *)
Lemma timers_update_one x (k : nat) t m :
  length (m_timers m) = SOFT_TIMER_MAX_TIMERS ->
  m_timers m !! k = Some t ->
  (forall (i : nat) ti, i <> k -> m_timers m !! i = Some ti ->
     state ti <> TIMER_STATE_RUNNING) ->
  let r := timer_step (Slot (Z.of_nat k)) t (uint16 x) in
  m_timers (timers_update x m) = <[k := r.1]> (m_timers m)
  /\ calls (timers_update x m) = calls m ++ r.2
  /\ m_is_initialized (timers_update x m) = m_is_initialized m
  /\ m_max_reload_ms (timers_update x m) = m_max_reload_ms m
  /\ htim (timers_update x m) =
       let raw := min_countdown STOPPED_TIMER_COUNTDOWN_VALUE
                    (<[k := r.1]> (m_timers m)) in
       let v := if raw =? STOPPED_TIMER_COUNTDOWN_VALUE then 0 else raw in
       {| ARR := utils.min v (m_max_reload_ms m); CNT := 0;
          CEN := negb (v =? 0) |}.
Proof.
  intros Hlen Hk Hidle r. rewrite timers_update_eq by done. cbn zeta.
  rewrite soft_timers_update_fst by done. cbn zeta.
  cbn [m_timers calls m_is_initialized m_max_reload_ms htim].
  rewrite (step_slots_one 0 _ _ k t Hk Hidle).
  rewrite (step_calls_one 0 _ _ k t Hk Hidle).
  by cbn [Nat.add].
Qed.

(** Starting a timer on a pool where nothing runs. *)
Lemma soft_timer_start_idle (k : nat) tk m :
  pool_idle m ->
  (forall (i : nat) t, m_timers m !! i = Some t ->
     state t <> TIMER_STATE_RUNNING) ->
  m_timers m !! k = Some tk ->
  state tk = TIMER_STATE_STOPPED ->
  2 <= reload_ms tk <= m_max_reload_ms m ->
  reload_ms tk <= 2 ^ 16 ->
  soft_timer_start (Slot (Z.of_nat k)) m
  = (SOFT_TIMER_STATUS_SUCCESS,
     {| m_timers :=
          <[k := set_state TIMER_STATE_RUNNING
                   (set_countdown_ms (reload_ms tk - 1) tk)]> (m_timers m);
        htim := {| ARR := reload_ms tk - 1; CNT := 0; CEN := true |};
        m_is_initialized := m_is_initialized m;
        m_max_reload_ms := m_max_reload_ms m;
        calls := calls m |}).
Proof.
  intros [Hlen Hb] Hidle Hi Hst Hr H16.
  pose proof (lookup_lt_pool m k tk Hlen Hi) as Hk.
  destruct (soft_timer_start_stopped k tk m Hlen Hk Hi Hst ltac:(lia))
    as (Es & Hstep0 & _ & _). cbn zeta in Es, Hstep0.
  rewrite Es. f_equal. clear Es.
  set (t2 := set_state TIMER_STATE_RUNNING
               (set_countdown_ms (reload_ms tk - 1) tk)) in *.
  rewrite (timers_update_eq (CNT (htim m)) m Hlen). cbn zeta.
  rewrite (step_slots_idle 0 _ _ Hidle), (step_calls_idle 0 _ _ Hidle).
  rewrite app_nil_r.
  match goal with |- timers_update 0 ?x = _ => set (m2 := x) end.
  assert (Ep : m_timers m2 = <[k := t2]> (m_timers m)) by reflexivity.
  assert (Ec : calls m2 = calls m) by reflexivity.
  assert (Em : m_max_reload_ms m2 = m_max_reload_ms m) by reflexivity.
  assert (Ei : m_is_initialized m2 = m_is_initialized m) by reflexivity.
  assert (Hlen2 : length (m_timers m2) = SOFT_TIMER_MAX_TIMERS)
    by (rewrite Ep; by rewrite length_insert).
  assert (Hk2 : m_timers m2 !! k = Some t2).
  { rewrite Ep. apply list_lookup_insert_eq. rewrite Hlen. exact Hk. }
  assert (Hidle2 : forall (i : nat) ti, i <> k -> m_timers m2 !! i = Some ti ->
                     state ti <> TIMER_STATE_RUNNING).
  { intros i ti Hne. rewrite Ep.
    rewrite list_lookup_insert_ne by done. apply Hidle. }
  destruct (timers_update_one 0 k t2 m2 Hlen2 Hk2 Hidle2)
    as (E1 & E2 & E3 & E4 & E5). cbn zeta in E1, E2, E3, E4, E5.
  rewrite uint16_0, Hstep0 in E1, E2, E5. cbn [fst snd] in E1, E2, E5.
  rewrite Ep, list_insert_insert_eq in E1, E5.
  rewrite Ec, app_nil_r in E2. rewrite Ei in E3. rewrite Em in E4, E5.
  assert (Hmin : min_countdown STOPPED_TIMER_COUNTDOWN_VALUE
                   (<[k := t2]> (m_timers m)) = reload_ms tk - 1).
  { apply min_countdown_single.
    - apply Forall_insert; [ exact Hb | ]. split.
      + by intros NR.
      + cbn. unfold STOPPED_TIMER_COUNTDOWN_VALUE. lia.
    - exists t2. split; [ | done ].
      apply list_elem_of_lookup. exists k.
      apply list_lookup_insert_eq. rewrite Hlen. exact Hk.
    - intros t Hin R. apply list_elem_of_lookup in Hin as [i Hin].
      destruct (decide (i = k)) as [-> | Hne].
      + rewrite list_lookup_insert_eq in Hin by (rewrite Hlen; exact Hk).
        by injection Hin as <-.
      + rewrite list_lookup_insert_ne in Hin by done.
        by destruct (Hidle i t Hin). }
  rewrite Hmin in E5.
  destruct (Z.eqb_spec (reload_ms tk - 1) STOPPED_TIMER_COUNTDOWN_VALUE)
    as [E | _]; [ unfold STOPPED_TIMER_COUNTDOWN_VALUE in E; lia | ].
  destruct (Z.eqb_spec (reload_ms tk - 1) 0) as [ | _]; [ lia | ].
  rewrite utils_min_spec, Z.min_l in E5 by lia.
  cbn [negb] in E5.
  clearbody m2.
  destruct (timers_update 0 m2) as [p h ini mx cs].
  cbn [m_timers htim m_is_initialized m_max_reload_ms calls] in *.
  by subst.
Qed.

(** The period of the hardware timer elapses while exactly slot [k] runs, a
    one-shot timer whose countdown is what the reload register holds. *)
Lemma period_elapsed_one_shot (k : nat) t m :
  length (m_timers m) = SOFT_TIMER_MAX_TIMERS ->
  Forall slot_bounded (m_timers m) ->
  m_timers m !! k = Some t ->
  (forall (i : nat) ti, i <> k -> m_timers m !! i = Some ti ->
     state ti <> TIMER_STATE_RUNNING) ->
  state t = TIMER_STATE_RUNNING ->
  repeat t = false ->
  1 <= countdown_ms t < 2 ^ 16 ->
  ARR (htim m) = countdown_ms t ->
  0 <= m_max_reload_ms m ->
  soft_timer_period_elapsed_callback m
  = {| m_timers := <[k := timer_stop (set_countdown_ms 0 t)]> (m_timers m);
       htim := {| ARR := 0; CNT := 0; CEN := false |};
       m_is_initialized := m_is_initialized m;
       m_max_reload_ms := m_max_reload_ms m;
       calls := calls m
                ++ invoke_callback (Slot (Z.of_nat k))
                     (set_countdown_ms 0 t) |}.
Proof.
  intros Hlen Hb Hk Hidle R Hrep Hc Harr Hmax.
  unfold soft_timer_period_elapsed_callback, hard_timer_reload_get,
    __HAL_TIM_GET_AUTORELOAD. cbn zeta. rewrite Harr.
  assert (Hstep : timer_step (Slot (Z.of_nat k)) t
                    (uint16 (uint16 (countdown_ms t)))
                  = (timer_stop (set_countdown_ms 0 t),
                     invoke_callback (Slot (Z.of_nat k))
                       (set_countdown_ms 0 t))).
  { rewrite uint16_idem, uint16_small by lia.
    rewrite (timer_step_running _ _ _ R).
    destruct (Z.eqb_spec (countdown_ms t) 0) as [ | _]; [ lia | ].
    cbn [andb]. cbn zeta.
    cbn [countdown_ms set_countdown_ms repeat reload_ms].
    rewrite sub32_small, Z.sub_diag by lia. cbn [Z.eqb negb].
    by rewrite Hrep. }
  destruct (timers_update_one (uint16 (countdown_ms t)) k t m Hlen Hk Hidle)
    as (E1 & E2 & E3 & E4 & E5). cbn zeta in E1, E2, E3, E4, E5.
  rewrite Hstep in E1, E2, E5. cbn [fst snd] in E1, E2, E5.
  assert (Hmin : min_countdown STOPPED_TIMER_COUNTDOWN_VALUE
                   (<[k := timer_stop (set_countdown_ms 0 t)]> (m_timers m))
                 = STOPPED_TIMER_COUNTDOWN_VALUE).
  { apply min_countdown_idle.
    - apply Forall_insert; [ exact Hb | ]. split; [ by intros _ | ].
      cbn. lia.
    - intros ti Hin. apply list_elem_of_lookup in Hin as [i Hin].
      destruct (decide (i = k)) as [-> | Hne].
      + rewrite list_lookup_insert_eq in Hin
          by (by apply lookup_lt_Some in Hk).
        by injection Hin as <-.
      + rewrite list_lookup_insert_ne in Hin by done.
        by apply (Hidle i ti). }
  rewrite Hmin in E5. cbn [Z.eqb negb] in E5.
  rewrite Z.eqb_refl in E5. cbn [Z.eqb negb] in E5.
  rewrite utils_min_spec, Z.min_l in E5 by lia.
  destruct (timers_update (uint16 (countdown_ms t)) m) as [p h ini mx cs].
  cbn [m_timers htim m_is_initialized m_max_reload_ms calls] in *.
  by subst.
Qed.

(** X16. A one-shot timer from start to expiry, with the hardware timer.
    On a pool where nothing runs, [soft_timer_start] on a Stopped slot
    configured with a reload value [r] (at least 2, within the module
    maximum and at most 2^16) makes no callback, programs the hardware
    timer with reload [r - 1] and starts it from 0.  When that period
    elapses, [soft_timer_period_elapsed_callback] calls the callback of the
    timer once, with its own pointer and while the slot still reads
    Running with countdown 0, leaves the slot Stopped with the sentinel,
    leaves every other slot as it was, and stops the hardware timer with
    reload register and counter 0. *)
Theorem one_shot_start_to_expiry (k : nat) (tk : soft_timer) (fn : nat)
    (m : soft_timer_module) :
  pool_idle m ->
  (forall (i : nat) t, m_timers m !! i = Some t ->
     state t <> TIMER_STATE_RUNNING) ->
  m_timers m !! k = Some tk ->
  state tk = TIMER_STATE_STOPPED ->
  repeat tk = false ->
  callback tk = Some fn ->
  2 <= reload_ms tk <= m_max_reload_ms m ->
  reload_ms tk <= 2 ^ 16 ->
  let timer := Slot (Z.of_nat k) in
  let m1 := (soft_timer_start timer m).2 in
  let m2 := soft_timer_period_elapsed_callback m1 in
  (soft_timer_start timer m).1 = SOFT_TIMER_STATUS_SUCCESS
  /\ calls m1 = calls m
  /\ htim m1 = {| ARR := reload_ms tk - 1; CNT := 0; CEN := true |}
  /\ calls m2 =
       calls m
       ++ [ {| call_fn := fn; call_arg := timer;
               call_view := {| state := TIMER_STATE_RUNNING; id := id tk;
                               reload_ms := reload_ms tk; countdown_ms := 0;
                               repeat := false; callback := Some fn |} |} ]
  /\ m_timers m2 =
       <[k := {| state := TIMER_STATE_STOPPED; id := id tk;
                 reload_ms := reload_ms tk;
                 countdown_ms := STOPPED_TIMER_COUNTDOWN_VALUE;
                 repeat := false; callback := Some fn |}]> (m_timers m)
  /\ htim m2 = {| ARR := 0; CNT := 0; CEN := false |}
  /\ m_max_reload_ms m2 = m_max_reload_ms m.
Proof.
  intros Hidle Hnone Hi Hst Hrep Hcb Hr H16 timer m1 m2.
  pose proof Hidle as [Hlen Hb].
  pose proof (lookup_lt_Some _ _ _ Hi) as Hk.
  unfold m2, m1, timer.
  rewrite (soft_timer_start_idle k tk m Hidle Hnone Hi Hst Hr H16).
  cbn [fst snd].
  set (t2 := set_state TIMER_STATE_RUNNING
               (set_countdown_ms (reload_ms tk - 1) tk)).
  set (M1 := {| m_timers := <[k := t2]> (m_timers m) |}).
  rewrite (period_elapsed_one_shot k t2 M1).
  - cbn [m_timers htim calls m_max_reload_ms M1].
    rewrite list_insert_insert_eq.
    destruct tk as [st i r c rp cb]. cbn in Hrep, Hcb. subst rp cb.
    by cbn.
  - cbn [M1 m_timers]. by rewrite length_insert.
  - cbn [M1 m_timers]. apply Forall_insert; [ exact Hb | ]. split.
    + by intros NR.
    + cbn. unfold STOPPED_TIMER_COUNTDOWN_VALUE. lia.
  - cbn [M1 m_timers]. by apply list_lookup_insert_eq.
  - intros i ti Hne. cbn [M1 m_timers].
    rewrite list_lookup_insert_ne by done. apply Hnone.
  - done.
  - by destruct tk.
  - cbn. lia.
  - done.
  - cbn [M1 m_max_reload_ms]. lia.
Qed.

Lemma one_shot_start_to_expiry_witness :
  let m := run booted [Create; Configure (Slot 0) (Some 7%nat) 10 false] in
  calls (soft_timer_period_elapsed_callback
           (soft_timer_start (Slot (Z.of_nat 0)) m).2)
  = calls m
    ++ [ {| call_fn := 7%nat; call_arg := Slot (Z.of_nat 0);
            call_view := {| state := TIMER_STATE_RUNNING; id := 0;
                            reload_ms := 10; countdown_ms := 0;
                            repeat := false; callback := Some 7%nat |} |} ].
Proof.
  intros m.
  assert (Hidle : pool_idle m)
    by (apply pool_idle_run, pool_idle_after_init).
  assert (Hnone : forall (i : nat) t, m_timers m !! i = Some t ->
                    state t <> TIMER_STATE_RUNNING).
  { assert (Hall : Forall (fun t => state t <> TIMER_STATE_RUNNING)
                     (m_timers m))
      by (vm_compute; repeat constructor; discriminate).
    intros i t Hi. rewrite list.Forall_forall in Hall.
    apply Hall. by apply list_elem_of_lookup_2 in Hi. }
  assert (Hi : m_timers m !! 0%nat =
               Some {| state := TIMER_STATE_STOPPED; id := 0; reload_ms := 10;
                       countdown_ms := STOPPED_TIMER_COUNTDOWN_VALUE;
                       repeat := false; callback := Some 7%nat |})
    by (vm_compute; reflexivity).
  assert (Hr : 2 <= 10 <= m_max_reload_ms m) by (vm_compute; split; discriminate).
  assert (H16 : 10 <= 2 ^ 16) by lia.
  exact (proj1 (proj2 (proj2 (proj2
    (one_shot_start_to_expiry 0 _ 7 m Hidle Hnone Hi eq_refl eq_refl eq_refl
       Hr H16))))).
Defined.

(** ** Time already counted by the hardware timer *)

(** A step that ends before the countdown only subtracts. *)
Lemma timer_step_partial p t s :
  state t = TIMER_STATE_RUNNING ->
  0 <= s < countdown_ms t -> countdown_ms t < 2 ^ 32 ->
  timer_step p t s = (set_countdown_ms (countdown_ms t - s) t, []).
Proof.
  intros R Hs Hc. rewrite (timer_step_running _ _ _ R).
  destruct (Z.eqb_spec (countdown_ms t) 0) as [ | _]; [ lia | ].
  cbn [andb]. cbn zeta. cbn [countdown_ms set_countdown_ms].
  rewrite sub32_small by lia.
  by destruct (Z.eqb_spec (countdown_ms t - s) 0) as [ | _]; [ lia | ].
Qed.

Lemma timers_update_charges x (j : nat) tj m :
  length (m_timers m) = SOFT_TIMER_MAX_TIMERS ->
  m_timers m !! j = Some tj ->
  state tj = TIMER_STATE_RUNNING ->
  uint16 x < countdown_ms tj -> countdown_ms tj < 2 ^ 32 ->
  m_timers (timers_update x m) !! j
  = Some (set_countdown_ms (countdown_ms tj - uint16 x) tj)
  /\ calls_for (Slot (Z.of_nat j)) (calls (timers_update x m))
     = calls_for (Slot (Z.of_nat j)) (calls m).
Proof.
  intros Hlen Hj R Hx Hc. pose proof (uint16_range x) as Hu.
  rewrite timers_update_eq by done. cbn zeta. cbn [m_timers calls].
  rewrite lookup_step_slots, Hj. cbn [Nat.add].
  rewrite calls_for_app.
  pose proof (calls_for_step_calls (uint16 x) (m_timers m) 0%nat j tj Hj)
    as Hcf.
  cbn [Nat.add] in Hcf. rewrite Hcf.
  cbn [fmap option_fmap option_map].
  rewrite timer_step_partial by (done || lia).
  cbn [fst snd length]. split; [ done | lia ].
Qed.

Lemma set_countdown_ms_twice a b t :
  set_countdown_ms a (set_countdown_ms b t) = set_countdown_ms a t.
Proof. by destruct t. Qed.

(** X17. [soft_timer_start] and [soft_timer_stop] charge the time the
    hardware timer has counted since the last update to the timers that
    are running.  For another slot [j] that is Running with more left than
    the counter [CNT] holds: after a successful start or stop of slot [k]
    the countdown of slot [j] is [CNT] less, the slot is otherwise as it
    was, and its callback has not been called. *)
Theorem start_stop_charge_elapsed_time (k j : nat) (tk tj : soft_timer)
    (m : soft_timer_module) :
  length (m_timers m) = SOFT_TIMER_MAX_TIMERS ->
  j <> k ->
  m_timers m !! k = Some tk ->
  m_timers m !! j = Some tj ->
  state tj = TIMER_STATE_RUNNING ->
  0 <= CNT (htim m) < 2 ^ 16 ->
  CNT (htim m) < countdown_ms tj < 2 ^ 32 ->
  let after (m' : soft_timer_module) :=
    m_timers m' !! j
    = Some (set_countdown_ms (countdown_ms tj - CNT (htim m)) tj)
    /\ calls_for (Slot (Z.of_nat j)) (calls m')
       = calls_for (Slot (Z.of_nat j)) (calls m) in
  (state tk = TIMER_STATE_STOPPED -> 2 <= reload_ms tk < 2 ^ 32 ->
   after (soft_timer_start (Slot (Z.of_nat k)) m).2)
  /\ (state tk = TIMER_STATE_RUNNING ->
      after (soft_timer_stop (Slot (Z.of_nat k)) m).2).
Proof.
  intros Hlen Hne Hk Hj R Hcnt Hc after.
  pose proof (lookup_lt_pool m k tk Hlen Hk) as Hlt.
  assert (Eu : uint16 (CNT (htim m)) = CNT (htim m))
    by (apply uint16_small; lia).
  split.
  - intros Hst Hr.
    destruct (soft_timer_start_stopped k tk m Hlen Hlt Hk Hst Hr)
      as (Es & _ & _ & _). cbn zeta in Es. rewrite Es. cbn [snd]. clear Es.
    destruct (timers_update_charges (CNT (htim m)) j tj m Hlen Hj R
                ltac:(lia) ltac:(lia)) as [E1 E2].
    rewrite Eu in E1.
    set (m1 := timers_update (CNT (htim m)) m) in *.
    set (t2 := set_state TIMER_STATE_RUNNING
                 (set_countdown_ms (reload_ms tk - 1) tk)).
    set (tj' := set_countdown_ms (countdown_ms tj - CNT (htim m)) tj) in *.
    set (m2 := set_m_timers (<[k := t2]> (m_timers m1)) m1).
    assert (Hlen1 : length (m_timers m1) = SOFT_TIMER_MAX_TIMERS)
      by (by apply length_timers_update).
    assert (Hlen2 : length (m_timers m2) = SOFT_TIMER_MAX_TIMERS)
      by (unfold m2; cbn [set_m_timers m_timers]; by rewrite length_insert).
    assert (Hj2 : m_timers m2 !! j = Some tj').
    { unfold m2. cbn [set_m_timers m_timers].
      by rewrite list_lookup_insert_ne. }
    destruct (timers_update_charges 0 j tj' m2 Hlen2 Hj2 R)
      as [F1 F2].
    { rewrite uint16_0. unfold tj'. cbn. lia. }
    { unfold tj'. cbn. lia. }
    unfold after. split.
    + rewrite F1, uint16_0, Z.sub_0_r. unfold tj'.
      by rewrite set_countdown_ms_twice.
    + by rewrite F2.
  - intros Hrun.
    rewrite (soft_timer_stop_running_eq k tk m Hlt Hk Hrun). cbn [snd].
    set (m1 := set_m_timers (<[k := timer_stop tk]> (m_timers m)) m).
    assert (Hlen1 : length (m_timers m1) = SOFT_TIMER_MAX_TIMERS)
      by (unfold m1; cbn [set_m_timers m_timers]; by rewrite length_insert).
    assert (Hj1 : m_timers m1 !! j = Some tj).
    { unfold m1. cbn [set_m_timers m_timers].
      by rewrite list_lookup_insert_ne. }
    destruct (timers_update_charges (CNT (htim m)) j tj m1 Hlen1 Hj1 R
                ltac:(lia) ltac:(lia)) as [E1 E2].
    rewrite Eu in E1. unfold after. by split.
Qed.

Lemma start_stop_charge_elapsed_time_witness :
  let m := run booted [Create; Create;
                       Configure (Slot 0) (Some 7%nat) 10 false;
                       Configure (Slot 1) (Some 8%nat) 20 true;
                       Start (Slot 0); Count 4] in
  m_timers (soft_timer_start (Slot (Z.of_nat 1)) m).2 !! 0%nat
  = Some (set_countdown_ms (9 - CNT (htim m))
            {| state := TIMER_STATE_RUNNING; id := 0; reload_ms := 10;
               countdown_ms := 9; repeat := false;
               callback := Some 7%nat |}).
Proof.
  intros m.
  assert (Hlen : length (m_timers m) = SOFT_TIMER_MAX_TIMERS)
    by (vm_compute; reflexivity).
  assert (Hk : m_timers m !! 1%nat =
               Some {| state := TIMER_STATE_STOPPED; id := 1; reload_ms := 20;
                       countdown_ms := STOPPED_TIMER_COUNTDOWN_VALUE;
                       repeat := true; callback := Some 8%nat |})
    by (vm_compute; reflexivity).
  assert (Hj : m_timers m !! 0%nat =
               Some {| state := TIMER_STATE_RUNNING; id := 0; reload_ms := 10;
                       countdown_ms := 9; repeat := false;
                       callback := Some 7%nat |})
    by (vm_compute; reflexivity).
  assert (Hcnt : 0 <= CNT (htim m) < 2 ^ 16)
    by (vm_compute; split; [ discriminate | reflexivity ]).
  assert (Hc : CNT (htim m) < 9 < 2 ^ 32)
    by (vm_compute; split; reflexivity).
  assert (Hne : 0%nat <> 1%nat) by discriminate.
  assert (Hr : 2 <= 20 < 2 ^ 32) by lia.
  exact (proj1 (proj1 (start_stop_charge_elapsed_time 1 0 _ _ m Hlen Hne Hk Hj
                         eq_refl Hcnt Hc) eq_refl Hr)).
Defined.

(** X18. Stopping the only Running timer switches the hardware timer
    off.  When slot [k] is the only Running slot of a pool that satisfies
    the invariant of all runs, and the module maximum is not negative,
    [soft_timer_stop] on it succeeds, leaves every other slot as it was,
    calls no callback, and leaves the hardware timer disabled with reload
    register and counter 0. *)
Theorem stop_last_timer_stops_hardware (k : nat) (tk : soft_timer)
    (m : soft_timer_module) :
  pool_idle m ->
  m_timers m !! k = Some tk ->
  state tk = TIMER_STATE_RUNNING ->
  (forall (i : nat) ti, i <> k -> m_timers m !! i = Some ti ->
     state ti <> TIMER_STATE_RUNNING) ->
  0 <= m_max_reload_ms m ->
  soft_timer_stop (Slot (Z.of_nat k)) m
  = (SOFT_TIMER_STATUS_SUCCESS,
     {| m_timers := <[k := timer_stop tk]> (m_timers m);
        htim := {| ARR := 0; CNT := 0; CEN := false |};
        m_is_initialized := m_is_initialized m;
        m_max_reload_ms := m_max_reload_ms m;
        calls := calls m |}).
Proof.
  intros [Hlen Hb] Hk R Hidle Hmax.
  pose proof (lookup_lt_pool m k tk Hlen Hk) as Hlt.
  rewrite (soft_timer_stop_running_eq k tk m Hlt Hk R). f_equal.
  set (m1 := set_m_timers (<[k := timer_stop tk]> (m_timers m)) m).
  assert (Ep : m_timers m1 = <[k := timer_stop tk]> (m_timers m))
    by reflexivity.
  assert (Hlen1 : length (m_timers m1) = SOFT_TIMER_MAX_TIMERS)
    by (rewrite Ep; by rewrite length_insert).
  assert (Hnone : forall (i : nat) ti, m_timers m1 !! i = Some ti ->
                    state ti <> TIMER_STATE_RUNNING).
  { intros i ti. rewrite Ep. destruct (decide (i = k)) as [-> | Hne].
    - rewrite list_lookup_insert_eq by (rewrite Hlen; exact Hlt).
      by intros [= <-].
    - rewrite list_lookup_insert_ne by done. by apply Hidle. }
  assert (Hb1 : Forall slot_bounded (m_timers m1)).
  { rewrite Ep. apply Forall_insert; [ exact Hb | ].
    split; [ by intros _ | cbn; lia ]. }
  rewrite timers_update_eq by done. cbn zeta.
  rewrite soft_timers_update_fst by done. cbn zeta.
  rewrite (step_slots_idle 0 _ _ Hnone), (step_calls_idle 0 _ _ Hnone).
  rewrite min_countdown_idle.
  - rewrite Z.eqb_refl, app_nil_r, utils_min_spec, Z.min_l by done.
    by rewrite Ep.
  - exact Hb1.
  - intros t Hin. apply list_elem_of_lookup in Hin as [i Hin].
    by apply (Hnone i).
Qed.

Lemma stop_last_timer_stops_hardware_witness :
  let m := run booted [Create; Configure (Slot 0) (Some 7%nat) 10 true;
                       Start (Slot 0); Advance 3] in
  htim (soft_timer_stop (Slot (Z.of_nat 0)) m).2
  = {| ARR := 0; CNT := 0; CEN := false |}.
Proof.
  intros m.
  assert (Hidle : pool_idle m)
    by (apply pool_idle_run, pool_idle_after_init).
  assert (Hk : m_timers m !! 0%nat =
               Some {| state := TIMER_STATE_RUNNING; id := 0; reload_ms := 10;
                       countdown_ms := 6; repeat := true;
                       callback := Some 7%nat |})
    by (vm_compute; reflexivity).
  assert (Hothers : forall (i : nat) ti, i <> 0%nat ->
                      m_timers m !! i = Some ti ->
                      state ti <> TIMER_STATE_RUNNING).
  { assert (Hall : Forall (fun t => state t <> TIMER_STATE_RUNNING)
                     (drop 1 (m_timers m)))
      by (vm_compute; repeat constructor; discriminate).
    intros i ti Hne Hi. rewrite list.Forall_forall in Hall. apply Hall.
    apply (list_elem_of_lookup_2 _ (i - 1)).
    rewrite lookup_drop. by replace (1 + (i - 1))%nat with i by lia. }
  assert (Hmax : 0 <= m_max_reload_ms m) by (vm_compute; discriminate).
  exact (f_equal (fun r => htim r.2)
           (stop_last_timer_stops_hardware 0 _ m Hidle Hk eq_refl Hothers
              Hmax)).
Defined.
